(** * Embedding-comparison notebooks: the experiment runner

    A shallow embedding of the three notebooks of the repository:

    - the Gaussian-mixture tutorial ([calc_ari] takes the k-neighbors graph
      and a covariance type; the graph is built once per case from two
      Gaussian samples; the reported means are rounded to two decimals);
    - the block-model tutorial (same [calc_ari]; the graph is built once per
      case from the latent positions of a two-block probability matrix);
    - the regenerating notebook ([calc_ari] takes [n_verts] and [B] and
      rebuilds the graph inside every trial, under a tqdm progress bar).

    Python integers are [Z], a float64 value is the rational it denotes,
    arrays are row lists with their shape, and the objects handed to
    [calc_ari] by reference live in a heap. The arithmetic the notebooks do
    on the scores, the mean of a group and its rounding to two decimals,
    rounds every operation to binary64 ([fl]); the entries of the matrices
    are copied, or handed to library routines, and the two products of the
    latent positions are left unrounded: only their shapes are used. Library
    routines (numpy's SVD and sampler, scikit-learn, graspologic) are the
    fields of a record [libraries]; a run threads the state of numpy's
    global generator through them and writes every library call, with its
    arguments and its result, to a call log, on which the properties of
    what is handed to a routine are stated. *)

From Stdlib Require Import ZArith QArith Qround Qabs Lqa String List Lia Floats Uint63.
From stdpp Require Import base option list gmap strings.

Local Open Scope string_scope.
Local Open Scope list_scope.
Local Open Scope Z_scope.

(** ** Exceptions and fallible results *)

Inductive exn : Type :=
| UnboundLocalError (name : string)
| ValueError (msg : string)
| IndexError (msg : string)
| LibraryError (msg : string).

Inductive result (A : Type) : Type :=
| Ok (a : A)
| Err (e : exn).
Arguments Ok {A} a.
Arguments Err {A} e.

Definition rbind {A B} (r : result A) (k : A -> result B) : result B :=
  match r with
  | Ok a => k a
  | Err e => Err e
  end.

Notation "x <~ c ;; k" := (rbind c (fun x => k))
  (at level 100, c at next level, right associativity).

(** ** Python and numpy values *)

(** [int(n/2)]: true division followed by truncation toward zero. *)
Definition int_half (n : Z) : Z := Z.quot n 2.

(** [k * xs] on a Python list: [k] copies of [xs], none when [k <= 0]. *)
Definition py_list_repeat {A} (k : Z) (xs : list A) : list A :=
  concat (replicate (Z.to_nat k) xs).

(** A two-dimensional float array: its shape and its rows. *)
Record ndarray : Type := NdArray {
  shape : nat * nat;
  data : list (list Q)
}.

Definition nrows (a : ndarray) : nat := fst (shape a).
Definition ncols (a : ndarray) : nat := snd (shape a).

(** The rows of an array agree with its shape. *)
Definition well_shaped (a : ndarray) : Prop :=
  length (data a) = nrows a /\ Forall (fun r => length r = ncols a) (data a).

(** [a[i, j]] for non-negative [i], [j]. *)
Definition getitem (a : ndarray) (i j : nat) : result Q :=
  match data a !! i with
  | Some row =>
      match row !! j with
      | Some x => Ok x
      | None => Err (IndexError "index is out of bounds for axis 1")
      end
  | None => Err (IndexError "index is out of bounds for axis 0")
  end.

(** [np.zeros((r, c))] *)
Definition np_zeros (r c : Z) : result ndarray :=
  if (r <? 0) || (c <? 0)
  then Err (ValueError "negative dimensions are not allowed")
  else Ok {| shape := (Z.to_nat r, Z.to_nat c);
             data := replicate (Z.to_nat r) (replicate (Z.to_nat c) 0%Q) |}.

(** The bounds of the Python slice [lo:hi] on an axis of length [len]:
    negative bounds count from the end, and both are clipped to the axis. *)
Definition slice_bound (len : nat) (x : Z) : nat :=
  if x <? 0 then Z.to_nat (Z.max 0 (x + Z.of_nat len))
  else Nat.min (Z.to_nat x) len.

Definition in_slice (len : nat) (lo hi : Z) (i : nat) : bool :=
  (slice_bound len lo <=? i)%nat && (i <? slice_bound len hi)%nat.

(** [a[r0:r1, c0:c1] = v] with a scalar [v]. *)
Definition setitem_block (a : ndarray) (r0 r1 c0 c1 : Z) (v : Q) : ndarray :=
  {| shape := shape a;
     data := imap (fun i row =>
               if in_slice (nrows a) r0 r1 i
               then imap (fun j x => if in_slice (ncols a) c0 c1 j then v else x) row
               else row) (data a) |}.

(** [a[r0:r1, c0:c1]] *)
Definition getitem_block (a : ndarray) (r0 r1 c0 c1 : Z) : ndarray :=
  let rlo := slice_bound (nrows a) r0 in
  let rhi := slice_bound (nrows a) r1 in
  let clo := slice_bound (ncols a) c0 in
  let chi := slice_bound (ncols a) c1 in
  {| shape := ((rhi - rlo)%nat, (chi - clo)%nat);
     data := map (fun row => take (chi - clo) (drop clo row))
                 (take (rhi - rlo) (drop rlo (data a))) |}.

(** [v[lo:hi]] on a one-dimensional array. *)
Definition getslice (v : list Q) (lo hi : Z) : list Q :=
  let l := slice_bound (length v) lo in
  let h := slice_bound (length v) hi in
  take (h - l) (drop l v).

(** [a.T] *)
Definition transpose (a : ndarray) : ndarray :=
  {| shape := (ncols a, nrows a);
     data := map (fun j => map (fun row => nth j row 0%Q) (data a))
                 (seq 0 (ncols a)) |}.

(** [np.diag(v)] of a one-dimensional array. *)
Definition np_diag (v : list Q) : ndarray :=
  {| shape := (length v, length v);
     data := imap (fun i x => imap (fun j _ => if (i =? j)%nat then x else 0%Q) v) v |}.

(** An elementwise function, as [np.sqrt] is applied. *)
Definition map_array (f : Q -> Q) (a : ndarray) : ndarray :=
  {| shape := shape a; data := map (map f) (data a) |}.

Definition dot (u v : list Q) : Q :=
  foldr Qplus 0%Q (zip_with Qmult u v).

(** [a @ b] *)
Definition matmul (a b : ndarray) : result ndarray :=
  if (ncols a =? nrows b)%nat
  then Ok {| shape := (nrows a, ncols b);
             data := map (fun row => map (dot row) (data (transpose b))) (data a) |}
  else Err (ValueError "matmul: mismatch in the core dimension").

(** [np.concatenate((a, b), axis=0)]: [b] below [a]. *)
Definition concatenate_axis0 (a b : ndarray) : result ndarray :=
  if (ncols a =? ncols b)%nat
  then Ok {| shape := ((nrows a + nrows b)%nat, ncols a); data := data a ++ data b |}
  else Err (ValueError "all the input array dimensions except for the concatenation axis must match exactly").

(** [np.concatenate((a, b), axis=1)]: [b] to the right of [a]. *)
Definition concatenate_axis1 (a b : ndarray) : result ndarray :=
  if (nrows a =? nrows b)%nat
  then Ok {| shape := (nrows a, (ncols a + ncols b)%nat);
             data := zip_with app (data a) (data b) |}
  else Err (ValueError "all the input array dimensions except for the concatenation axis must match exactly").

(** [int(np.sqrt(n))] for an integer [n]: the square root is correctly
    rounded, so below 2^52 its truncation is the integer square root;
    a negative [n] gives nan, which [int] refuses. *)
Definition int_sqrt (n : Z) : result Z :=
  if n <? 0 then Err (ValueError "cannot convert float NaN to integer")
  else Ok (Z.sqrt n).

(** ** Binary64 arithmetic

    A float64 value is modelled by the rational it denotes. An operation
    on floats is the exact operation followed by [fl], the rounding to the
    nearest binary64 value, ties to the even significand. Results beyond
    the binary64 range, infinities and nan are not modelled: the scores
    are at most 1 in absolute value and the counts far below 2^53. *)

(** [2^e] *)
Definition pow2 (e : Z) : Q :=
  if 0 <=? e then inject_Z (2 ^ e) else Qmake 1 (Z.to_pos (2 ^ (- e))).

(** [floor(log2 x)] of a positive rational. *)
Definition ilog2 (x : Q) : Z :=
  let e := Z.log2 (Qnum x) - Z.log2 (Z.pos (Qden x)) in
  if Qle_bool (pow2 e) x then e else e - 1.

(** Rounding to the nearest integer, halves to the even one ([np.rint]). *)
Definition rint (q : Q) : Z :=
  let f := Qfloor q in
  match Qcompare (q - inject_Z f) (1 # 2) with
  | Lt => f
  | Gt => f + 1
  | Eq => if Z.even f then f else f + 1
  end.

(** The binary64 value nearest to [x]: 53 significant bits, and no
    exponent below that of the subnormal numbers. *)
Definition fl (x : Q) : Q :=
  let x := Qred x in
  if Qeq_bool x 0 then 0%Q
  else
    let ulp := pow2 (Z.max (ilog2 (Qabs x)) (-1022) - 52) in
    Qred (inject_Z (rint (x / ulp)) * ulp).

(** The conversions and the arithmetic of the notebooks on binary64 floats
    themselves, to check the integer model and [fl] on samples. *)
Module Binary64.

Definition float_of_int (n : Z) : float := PrimFloat.of_uint63 (Uint63.of_Z n).

(** [int(x)]: truncation toward zero; nan and the infinities are refused. *)
Definition int (x : float) : option Z :=
  match Prim2SF x with
  | S754_zero _ => Some 0
  | S754_finite s m e =>
      let v := if 0 <=? e then Z.shiftl (Z.pos m) e else Z.shiftr (Z.pos m) (- e) in
      Some (if s then - v else v)
  | S754_infinity _ => None
  | S754_nan => None
  end.

Definition int_sqrt (n : Z) : option Z := int (PrimFloat.sqrt (float_of_int n)).

Definition int_half (n : Z) : option Z :=
  int (PrimFloat.div (float_of_int n) (float_of_int 2)).

(** The rational a finite float denotes. *)
Definition to_Q (x : float) : option Q :=
  match Prim2SF x with
  | S754_zero _ => Some 0%Q
  | S754_finite s m e =>
      Some ((if s then - inject_Z (Z.pos m) else inject_Z (Z.pos m)) * pow2 e)%Q
  | S754_infinity _ => None
  | S754_nan => None
  end.

(** The compensated summation of pandas' [group_mean], on floats. *)
Definition kahan_step (st : float * float) (val : float) : float * float :=
  let y := PrimFloat.sub val (snd st) in
  let t := PrimFloat.add (fst st) y in
  (t, PrimFloat.sub (PrimFloat.sub t (fst st)) y).

Definition mean (l : list float) : float :=
  PrimFloat.div (fst (fold_left kahan_step l (PrimFloat.zero, PrimFloat.zero)))
                (float_of_int (Z.of_nat (length l))).

(** [np.round(x, 2)]: multiply by 100, round to an integer, divide by 100. *)
Definition round2 (x : float) : option float :=
  match to_Q (PrimFloat.mul x 100) with
  | Some p =>
      let k := rint p in
      let fk := float_of_int (Z.abs k) in
      Some (PrimFloat.div (if k <? 0 then PrimFloat.opp fk else fk) 100)
  | None => None
  end.

(** [a / b] for integers of at most 63 bits, [b] positive. *)
Definition ratio (a b : Z) : float :=
  let q := PrimFloat.div (float_of_int (Z.abs a)) (float_of_int b) in
  if a <? 0 then PrimFloat.opp q else q.

(** The rational a finite float denotes, in lowest terms. *)
Definition value (x : float) : Q :=
  match to_Q x with
  | Some v => Qred v
  | None => 0%Q
  end.

End Binary64.

(** ** Scenario data built without the libraries *)

(** [labels_lse = int(n/2) * [0] + int(n/2) * [1]] (also [labels_ase]). *)
Definition labels_lse (n_verts_lse : Z) : list Z :=
  py_list_repeat (int_half n_verts_lse) [0] ++ py_list_repeat (int_half n_verts_lse) [1].

(** The probability matrix of a block matrix:
<<
    P = np.zeros((n_verts, n_verts))
    P[0:int(n_verts/2), 0:int(n_verts/2)] = B[0, 0]
    P[int(n_verts/2):n_verts, int(n_verts/2):n_verts] = B[1, 1]
    P[0:int(n_verts/2), int(n_verts/2):n_verts] = B[0, 1]
    P[int(n_verts/2):n_verts, 0:int(n_verts/2)] = B[1, 0]
>> *)
Definition prob_matrix (n_verts : Z) (B : ndarray) : result ndarray :=
  let h := int_half n_verts in
  P <~ np_zeros n_verts n_verts ;;
  b00 <~ getitem B 0 0 ;;
  let P := setitem_block P 0 h 0 h b00 in
  b11 <~ getitem B 1 1 ;;
  let P := setitem_block P h n_verts h n_verts b11 in
  b01 <~ getitem B 0 1 ;;
  let P := setitem_block P 0 h h n_verts b01 in
  b10 <~ getitem B 1 0 ;;
  let P := setitem_block P h n_verts 0 h b10 in
  Ok P.

(** The group of vertex [i] in a graph of [n] vertices. *)
Definition group (n : Z) (i : Z) : nat := if i <? Z.quot n 2 then 0%nat else 1%nat.

(** ** Trial records and their aggregation *)

(** One row of the frame [calc_ari] returns: [{"test": ..., "ari": ...}]. *)
Record record : Type := Record_ { test : string; ari : Q }.

Definition DataFrame : Type := list record.

Definition pd_DataFrame (rows : list record) : DataFrame := rows.

(** [pd.concat([df1, df2, ...])] *)
Definition pd_concat (dfs : list DataFrame) : DataFrame := concat dfs.

(** Group keys, sorted and without repetition, as [groupby] orders them. *)
Fixpoint insert_key (k : string) (ks : list string) : list string :=
  match ks with
  | [] => [k]
  | k' :: ks' =>
      match String.compare k k' with
      | Lt => k :: k' :: ks'
      | Eq => k' :: ks'
      | Gt => k' :: insert_key k ks'
      end
  end.

Definition group_keys (df : DataFrame) : list string :=
  foldr insert_key [] (map test df).

(** One step of the compensated summation of pandas' [group_mean]:
<<
    y = val - compensation
    t = sumx + y
    compensation = t - sumx - y
    sumx = t
>> *)
Definition kahan_step (st : Q * Q) (val : Q) : Q * Q :=
  let sumx := fst st in
  let compensation := snd st in
  let y := fl (val - compensation) in
  let t := fl (sumx + y) in
  (t, fl (fl (t - sumx) - y)).

(** The mean of a float64 column as [groupby(...).mean()] computes it: the
    compensated sum of the values in row order, divided by their count
    (a group is never empty). *)
Definition mean (l : list Q) : Q :=
  fl (fst (fold_left kahan_step l (0, 0)%Q) / inject_Z (Z.of_nat (length l))).

Definition group_scores (k : string) (df : DataFrame) : list Q :=
  map ari (filter (fun r => test r = k) df).

(** [df.groupby(["test"]).mean()]: one row per method, its mean score. *)
Definition groupby_test_mean (df : DataFrame) : list (string * Q) :=
  map (fun k => (k, mean (group_scores k df))) (group_keys df).

(** [df.groupby(["test"]).mean()] as the case cells call it: a frame made
    of no rows at all ([pd.DataFrame([])] and concatenations of it) has no
    column "test", and grouping by it is a [KeyError]. *)
Definition groupby_mean (df : DataFrame) : result (list (string * Q)) :=
  match df with
  | [] => Err (LibraryError "KeyError: 'test'")
  | _ :: _ => Ok (groupby_test_mean df)
  end.

(** [.round(2)] on a float64 column, as numpy rounds: the value times
    100, rounded to an integer, divided by 100, each in binary64. *)
Definition round2 (q : Q) : Q := fl (inject_Z (rint (fl (q * 100))) / 100).

Definition frame_round2 (m : list (string * Q)) : list (string * Q) :=
  map (fun kv => (fst kv, round2 (snd kv))) m.

(** The row of a method in an aggregated frame ([means.loc[k]]). *)
Fixpoint loc_row (k : string) (m : list (string * Q)) : option Q :=
  match m with
  | [] => None
  | (k', v) :: m' => if String.eqb k k' then Some v else loc_row k m'
  end.

(** ** The libraries *)

(** Objects the notebooks pass by reference. *)
Inductive pyobj : Type :=
| PyArray (a : ndarray)
| PyList (l : list Z).

Definition loc : Type := positive.

(** The routines of numpy, scikit-learn and graspologic the notebooks call.
    The ones that accept a seed or draw from numpy's global generator take
    the generator's state and return the next one; [np.linalg.svd],
    [kneighbors_graph], [adjusted_rand_score] and [np.sqrt] have no such
    parameter and are functions of their arguments. Each receives the
    contents of the arrays it is handed and modifies none of them. A
    routine may raise; for the two graspologic embeddings a result that
    does not unpack into the pair [Xhat, Yhat] counts as raising. *)
Record libraries (RNG : Type) : Type := Libraries {
  np_sqrt : Q -> Q;
  np_linalg_svd : ndarray -> result (ndarray * list Q * ndarray);
  np_random_multivariate_normal :
    list Q -> ndarray -> Z -> RNG -> result ndarray * RNG;
  kneighbors_graph : ndarray -> Z -> result ndarray;
  AdjacencySpectralEmbed : Z -> ndarray -> RNG -> result (ndarray * ndarray) * RNG;
  LaplacianSpectralEmbed : Z -> ndarray -> RNG -> result (ndarray * ndarray) * RNG;
  spectral_embedding : ndarray -> Z -> RNG -> result ndarray * RNG;
  GaussianMixture : Z -> string -> ndarray -> RNG -> result (list Z) * RNG;
  GaussianMixtureIC : Z -> Z -> string -> ndarray -> RNG -> result (list Z) * RNG;
  adjusted_rand_score : list Z -> list Z -> result Q
}.
Arguments np_sqrt {RNG} _ _.
Arguments np_linalg_svd {RNG} _ _.
Arguments np_random_multivariate_normal {RNG} _ _ _ _ _.
Arguments kneighbors_graph {RNG} _ _ _.
Arguments AdjacencySpectralEmbed {RNG} _ _ _ _.
Arguments LaplacianSpectralEmbed {RNG} _ _ _ _.
Arguments spectral_embedding {RNG} _ _ _ _.
Arguments GaussianMixture {RNG} _ _ _ _ _.
Arguments GaussianMixtureIC {RNG} _ _ _ _ _ _.
Arguments adjusted_rand_score {RNG} _ _ _.

(** A library call, with its arguments and what it returned. *)
Inductive event : Type :=
| Call_svd (P : ndarray) (out : result (ndarray * list Q * ndarray))
| Call_multivariate_normal (mean : list Q) (cov : ndarray) (size : Z) (out : result ndarray)
| Call_kneighbors_graph (X : ndarray) (n_neighbors : Z) (out : result ndarray)
| Call_ASE (n_components : Z) (graph : ndarray) (out : result (ndarray * ndarray))
| Call_LSE (n_components : Z) (graph : ndarray) (out : result (ndarray * ndarray))
| Call_spectral_embedding (adjacency : ndarray) (n_components : Z) (out : result ndarray)
| Call_GaussianMixture (n_components : Z) (covariance_type : string) (X : ndarray)
    (out : result (list Z))
| Call_GaussianMixtureIC (min_components max_components : Z) (covariance_type : string)
    (X : ndarray) (out : result (list Z))
| Call_adjusted_rand_score (labels_true labels_pred : list Z) (out : result Q).

(** ** The state of a notebook run *)

Record world (RNG : Type) : Type := World {
  heap : gmap loc pyobj;          (* the objects passed by reference *)
  rng : RNG;                      (* numpy's global generator *)
  calls : list event;             (* the library calls made so far *)
  tqdm_bar : list (nat * nat)     (* what tqdm has drawn: done, total *)
}.
Arguments World {RNG} _ _ _ _.
Arguments heap {RNG} _.
Arguments rng {RNG} _.
Arguments calls {RNG} _.
Arguments tqdm_bar {RNG} _.

Section Runner.
Context {RNG : Type}.

Definition M (A : Type) : Type := world RNG -> result A * world RNG.

Definition ret {A} (a : A) : M A := fun w => (Ok a, w).

Definition bind {A B} (c : M A) (k : A -> M B) : M B :=
  fun w =>
    match c w with
    | (Ok a, w') => k a w'
    | (Err e, w') => (Err e, w')
    end.

Definition raise {A} (e : exn) : M A := fun w => (Err e, w).

Definition lift {A} (r : result A) : M A := fun w => (r, w).

Definition log {A} (ev : result A -> event) (r : result A) : M A :=
  fun w => (r, World (heap w) (rng w) (calls w ++ [ev r]) (tqdm_bar w)).

(** A call of a routine that draws on the global generator. *)
Definition draw {A} (ev : result A -> event) (f : RNG -> result A * RNG) : M A :=
  fun w =>
    let '(r, g) := f (rng w) in
    (r, World (heap w) g (calls w ++ [ev r]) (tqdm_bar w)).

(** A new object, at an address not in use. *)
Definition alloc (o : pyobj) : M loc :=
  fun w =>
    let l := fresh (dom (heap w)) in
    (Ok l, World (<[l:=o]> (heap w)) (rng w) (calls w) (tqdm_bar w)).

(** Reading an array through its reference, as a library routine does when
    it is handed one. A list where an array is expected is refused by the
    routine's input validation. *)
Definition load_array (l : loc) : M ndarray :=
  fun w =>
    match heap w !! l with
    | Some (PyArray a) => (Ok a, w)
    | Some (PyList _) => (Err (ValueError "expected a 2D array"), w)
    | None => (Err (LibraryError "no such object"), w)
    end.

Definition load_list (l : loc) : M (list Z) :=
  fun w =>
    match heap w !! l with
    | Some (PyList xs) => (Ok xs, w)
    | Some (PyArray _) => (Err (ValueError "expected a 1D label array"), w)
    | None => (Err (LibraryError "no such object"), w)
    end.

(** One redraw of the tqdm bar. *)
Definition tqdm_update (done total : nat) : M unit :=
  fun w => (Ok tt, World (heap w) (rng w) (calls w) (tqdm_bar w ++ [(done, total)])).

(** Reading a local variable that an earlier branch may not have bound. *)
Definition local {A} (name : string) (v : option A) : M A :=
  match v with
  | Some a => ret a
  | None => raise (UnboundLocalError name)
  end.

End Runner.
Arguments M (RNG A)%_type : clear implicits.

Notation "x <- c ;; k" := (bind c (fun x => k))
  (at level 100, c at next level, right associativity).

Section Calls.
Context {RNG : Type} (L : libraries RNG).

(** ** Library calls, logged *)

Definition svd (P : ndarray) : M RNG (ndarray * list Q * ndarray) :=
  log (RNG:=RNG) (Call_svd P) (np_linalg_svd L P).

Definition multivariate_normal (mean : list Q) (cov : ndarray) (size : Z) : M RNG ndarray :=
  draw (Call_multivariate_normal mean cov size)
       (np_random_multivariate_normal L mean cov size).

Definition kneighbors (X : ndarray) (n_neighbors : Z) : M RNG ndarray :=
  log (RNG:=RNG) (Call_kneighbors_graph X n_neighbors) (kneighbors_graph L X n_neighbors).

Definition ase_fit_transform (n_components : Z) (graph : ndarray) : M RNG (ndarray * ndarray) :=
  draw (Call_ASE n_components graph) (AdjacencySpectralEmbed L n_components graph).

Definition lse_fit_transform (n_components : Z) (graph : ndarray) : M RNG (ndarray * ndarray) :=
  draw (Call_LSE n_components graph) (LaplacianSpectralEmbed L n_components graph).

Definition sklearn_spectral_embedding (adjacency : ndarray) (n_components : Z) : M RNG ndarray :=
  draw (Call_spectral_embedding adjacency n_components)
       (spectral_embedding L adjacency n_components).

Definition gm_fit_predict (n_components : Z) (covariance_type : string) (X : ndarray)
  : M RNG (list Z) :=
  draw (Call_GaussianMixture n_components covariance_type X)
       (GaussianMixture L n_components covariance_type X).

Definition gm_ic_fit_predict (min_components max_components : Z) (covariance_type : string)
    (X : ndarray) : M RNG (list Z) :=
  draw (Call_GaussianMixtureIC min_components max_components covariance_type X)
       (GaussianMixtureIC L min_components max_components covariance_type X).

Definition ari_score (labels_true labels_pred : list Z) : M RNG Q :=
  log (RNG:=RNG) (Call_adjusted_rand_score labels_true labels_pred)
      (adjusted_rand_score L labels_true labels_pred).

(** [kn_graph.toarray()]: the dense form of the sparse matrix (the model
    keeps one representation). *)
Definition toarray (a : ndarray) : ndarray := a.

(** ** Loops *)

(** [for _ in range(n): body] over the loop-carried locals. *)
Fixpoint for_range {S} (n : nat) (body : S -> M RNG S) (s : S) : M RNG S :=
  match n with
  | O => ret (RNG:=RNG) s
  | Datatypes.S n' => s' <- body s ;; for_range n' body s'
  end.

Fixpoint for_tqdm_from {S} (done n total : nat) (body : S -> M RNG S) (s : S) : M RNG S :=
  match n with
  | O => ret (RNG:=RNG) s
  | Datatypes.S n' =>
      s' <- body s ;;
      _ <- tqdm_update (Datatypes.S done) total ;;
      for_tqdm_from (Datatypes.S done) n' total body s'
  end.

(** [for _ in tqdm(range(n), ...): body]: the bar is drawn empty, then
    once more after every completed pass. *)
Definition for_tqdm {S} (n : nat) (body : S -> M RNG S) (s : S) : M RNG S :=
  _ <- tqdm_update 0 n ;; for_tqdm_from 0 n n body s.

(** The locals of [calc_ari] that live across the passes of its loop. *)
Record locals : Type := Locals {
  rows : list record;
  Xhat : option ndarray;
  Yhat : option ndarray
}.

Definition set_Xhat (X : ndarray) (l : locals) : locals :=
  Locals (rows l) (Some X) (Yhat l).
Definition set_Xhat_Yhat (XY : ndarray * ndarray) (l : locals) : locals :=
  Locals (rows l) (Some (fst XY)) (Some (snd XY)).
Definition rows_append (r : record) (l : locals) : locals :=
  Locals (rows l ++ [r]) (Xhat l) (Yhat l).

(** [#concatenate Xhat and Yhat if using ase or lse] *)
Definition concatenate_if_ase_or_lse (embed_method : string) (l : locals) : M RNG locals :=
  if String.eqb embed_method "ase" || String.eqb embed_method "lse" then
    X <- local "Xhat" (Xhat l) ;;
    Y <- local "Yhat" (Yhat l) ;;
    XY <- lift (concatenate_axis1 X Y) ;;
    ret (set_Xhat XY l)
  else ret l.

(** [#choose embedding method] on the graph [g]. *)
Definition choose_embedding (embed_method : string) (g : M RNG ndarray) (l : locals) : M RNG locals :=
  if String.eqb embed_method "ase" then
    a <- g ;;
    XY <- ase_fit_transform 2 a ;;
    ret (set_Xhat_Yhat XY l)
  else if String.eqb embed_method "lse" then
    a <- g ;;
    XY <- lse_fit_transform 2 a ;;
    ret (set_Xhat_Yhat XY l)
  else if String.eqb embed_method "sklearn" then
    a <- g ;;
    X <- sklearn_spectral_embedding a 2 ;;
    ret (set_Xhat X l)
  else ret l.

End Calls.

(** ** [calc_ari(kn_graph, n_sims, embed_method, labels_true, cov_type)]
    of the two tutorials *)
Module Tutorial.
Section Defs.
Context {RNG : Type} (L : libraries RNG).

Definition trial (kn_graph : loc) (embed_method : string) (labels_true : loc)
    (cov_type : string) (l : locals) : M RNG locals :=
  l <- choose_embedding L embed_method (load_array kn_graph) l ;;
  l <- concatenate_if_ase_or_lse embed_method l ;;
  X <- local "Xhat" (Xhat l) ;;
  labels_mclust <- gm_fit_predict L 2 cov_type X ;;
  lt <- load_list labels_true ;;
  ari <- ari_score L lt labels_mclust ;;
  ret (rows_append {| test := embed_method; ari := ari |} l).

Definition calc_ari (kn_graph : loc) (n_sims : Z) (embed_method : string)
    (labels_true : loc) (cov_type : string) : M RNG DataFrame :=
  l <- for_range (Z.to_nat n_sims)
         (trial kn_graph embed_method labels_true cov_type)
         (Locals [] None None) ;;
  ret (pd_DataFrame (rows l)).

End Defs.
End Tutorial.

(** ** Building the k-neighbors graph of a case *)
Section Graphs.
Context {RNG : Type} (L : libraries RNG).

(** [np.eye(n)] *)
Definition np_eye (n : nat) : ndarray := np_diag (replicate n 1%Q).

(** The latent position matrix of the block tutorials:
<<
    X = U[0:int(n_verts/2), 0:2] @ np.sqrt(np.diag(S[0:2]))
    Y = V.T[int(n_verts/2):n_verts, 0:2] @ np.sqrt(np.diag(S[0:2]))
    lat_mat = np.concatenate((X, Y), axis=0)
>> *)
Definition latent_positions (n_verts : Z) (U : ndarray) (S : list Q) (V : ndarray)
  : result ndarray :=
  let h := int_half n_verts in
  X <~ matmul (getitem_block U 0 h 0 2) (map_array (np_sqrt L) (np_diag (getslice S 0 2))) ;;
  Y <~ matmul (getitem_block (transpose V) h n_verts 0 2)
              (map_array (np_sqrt L) (np_diag (getslice S 0 2))) ;;
  concatenate_axis0 X Y.

(** From the block matrix to the k-neighbors graph (block-model style). *)
Definition block_model_graph (n_verts : Z) (B : ndarray) : M RNG ndarray :=
  P <- lift (prob_matrix n_verts B) ;;
  USV <- svd L P ;;
  lat_mat <- lift (latent_positions n_verts (fst (fst USV)) (snd (fst USV)) (snd USV)) ;;
  k <- lift (int_sqrt n_verts) ;;
  kn_graph <- kneighbors L lat_mat k ;;
  ret (toarray kn_graph).

(** From two Gaussian samples to the k-neighbors graph (Gaussian-mixture
    style):
<<
    X = np.random.multivariate_normal(mean = mean_1, cov = np.eye(2), size = int(n/2))
    Y = np.random.multivariate_normal(mean = mean_2, cov = np.eye(2), size = int(n/2))
    lat_mat = np.concatenate((X, Y), axis=0)
    kn_graph = kneighbors_graph(lat_mat, n_neighbors=int(np.sqrt(n)))
>> *)
Definition gaussian_graph (n_vectors : Z) (mean_1 mean_2 : list Q) : M RNG ndarray :=
  X <- multivariate_normal L mean_1 (np_eye 2) (int_half n_vectors) ;;
  Y <- multivariate_normal L mean_2 (np_eye 2) (int_half n_vectors) ;;
  lat_mat <- lift (concatenate_axis0 X Y) ;;
  k <- lift (int_sqrt n_vectors) ;;
  kn_graph <- kneighbors L lat_mat k ;;
  ret (toarray kn_graph).

End Graphs.

(** ** [calc_ari(n_verts, n_sims, B, embed_method, labels_true)] of the
    notebook that rebuilds the graph in every trial *)
Module Regenerating.
Section Defs.
Context {RNG : Type} (L : libraries RNG).

Definition trial (n_verts : Z) (B : loc) (embed_method : string) (labels_true : loc)
    (l : locals) : M RNG locals :=
  b <- load_array B ;;
  kn_graph <- block_model_graph L n_verts b ;;
  l <- choose_embedding L embed_method (ret kn_graph) l ;;
  l <- concatenate_if_ase_or_lse embed_method l ;;
  X <- local "Xhat" (Xhat l) ;;
  labels_mclust <- gm_ic_fit_predict L 2 2 "all" X ;;
  lt <- load_list labels_true ;;
  ari <- ari_score L lt labels_mclust ;;
  ret (rows_append {| test := embed_method; ari := ari |} l).

Definition calc_ari (n_verts n_sims : Z) (B : loc) (embed_method : string)
    (labels_true : loc) : M RNG DataFrame :=
  l <- for_tqdm (Z.to_nat n_sims)
         (trial n_verts B embed_method labels_true)
         (Locals [] None None) ;;
  ret (pd_DataFrame (rows l)).

(** A case cell: three runs, one per method, and the table of means. *)
Definition case (n_verts n_sims : Z) (B : ndarray) (m1 m2 m3 : string)
  : M RNG (list (string * Q)) :=
  B <- alloc (PyArray B) ;;
  labels <- alloc (PyList (labels_lse n_verts)) ;;
  df1 <- calc_ari n_verts n_sims B m1 labels ;;
  df2 <- calc_ari n_verts n_sims B m2 labels ;;
  df3 <- calc_ari n_verts n_sims B m3 labels ;;
  lift (groupby_mean (pd_concat [df1; df2; df3])).

End Defs.
End Regenerating.

(** ** The case cells of the two tutorials *)
Module BlockTutorial.
Section Defs.
Context {RNG : Type} (L : libraries RNG).

Definition case (n_verts n_sims : Z) (B : ndarray) (m1 m2 m3 : string)
  : M RNG (list (string * Q)) :=
  labels <- alloc (PyList (labels_lse n_verts)) ;;
  g <- block_model_graph L n_verts B ;;
  kn_graph <- alloc (PyArray g) ;;
  df1 <- Tutorial.calc_ari L kn_graph n_sims m1 labels "full" ;;
  df2 <- Tutorial.calc_ari L kn_graph n_sims m2 labels "full" ;;
  df3 <- Tutorial.calc_ari L kn_graph n_sims m3 labels "full" ;;
  lift (groupby_mean (pd_concat [df1; df2; df3])).

Definition B_core : ndarray :=
  NdArray (2%nat, 2%nat) [[0.011; 0.027]; [0.027; 0.079]]%Q.
Definition B_affinity : ndarray :=
  NdArray (2%nat, 2%nat) [[0.050; 0.013]; [0.013; 0.051]]%Q.

(** [#case 1: LSE does best] *)
Definition ari_aff_means := case 100 50 B_core "lse" "ase" "sklearn".
(** [#case 2: ASE does best] *)
Definition ari_core_means := case 400 50 B_affinity "ase" "lse" "sklearn".

End Defs.
End BlockTutorial.

Module GaussianTutorial.
Section Defs.
Context {RNG : Type} (L : libraries RNG).

Definition case (n_vectors n_sims : Z) (mean_1 mean_2 : list Q) (m1 m2 m3 : string)
  : M RNG (list (string * Q)) :=
  labels <- alloc (PyList (labels_lse n_vectors)) ;;
  g <- gaussian_graph L n_vectors mean_1 mean_2 ;;
  kn_graph <- alloc (PyArray g) ;;
  df1 <- Tutorial.calc_ari L kn_graph n_sims m1 labels "full" ;;
  df2 <- Tutorial.calc_ari L kn_graph n_sims m2 labels "full" ;;
  df3 <- Tutorial.calc_ari L kn_graph n_sims m3 labels "full" ;;
  means <- lift (groupby_mean (pd_concat [df1; df2; df3])) ;;
  ret (frame_round2 means).

(** [#case 1: LSE does best] *)
Definition ari_aff_means :=
  case 250 1000 [-0.33; -0.94]%Q [-0.94; 0.33]%Q "lse" "ase" "sklearn".
(** [#case 2: ASE does best] *)
Definition ari_core_means :=
  case 800 1000 [-0.69; -0.72]%Q [-0.72; 0.69]%Q "ase" "lse" "sklearn".

End Defs.
End GaussianTutorial.

(** ** A small instance of the libraries, to run the notebooks on

    The generator is a counter. The routines return arrays of the right
    shapes; the mixture model refuses a covariance type it does not know
    and otherwise answers with the first half in one group
    and the second half in the other, swapped on odd draws and all in one
    group on every third draw, and the score is 1 on a perfect
    partition, 1/4 otherwise. *)
Module Toy.

Definition full (r c : nat) (x : Q) : ndarray :=
  NdArray (r, c) (replicate r (replicate c x)).

Definition toy_svd (P : ndarray) : result (ndarray * list Q * ndarray) :=
  if (nrows P =? ncols P)%nat
  then Ok (P, replicate (nrows P) 1%Q, P)
  else Err (LibraryError "LinAlgError").

Definition toy_normal (mean : list Q) (cov : ndarray) (size : Z) (g : nat)
  : result ndarray * nat :=
  if size <? 0 then (Err (ValueError "negative dimensions are not allowed"), g)
  else (Ok (NdArray (Z.to_nat size, length mean)
              (replicate (Z.to_nat size) (map (Qplus (inject_Z (Z.of_nat g))) mean))),
        S g).

Definition toy_kneighbors (X : ndarray) (k : Z) : result ndarray :=
  if (Z.of_nat (nrows X) <? k) || (k <=? 0)
  then Err (ValueError "Expected n_neighbors <= n_samples_fit")
  else Ok (full (nrows X) (nrows X) (inject_Z k)).

Definition toy_embed2 (n_components : Z) (graph : ndarray) (g : nat)
  : result (ndarray * ndarray) * nat :=
  (Ok (full (nrows graph) (Z.to_nat n_components) (inject_Z (Z.of_nat g)),
       full (nrows graph) (Z.to_nat n_components) (- inject_Z (Z.of_nat g))%Q), S g).

Definition toy_embed1 (adjacency : ndarray) (n_components : Z) (g : nat)
  : result ndarray * nat :=
  (Ok (full (nrows adjacency) (Z.to_nat n_components) (inject_Z (Z.of_nat g))), S g).

Definition toy_partition (n : nat) (g : nat) : list Z :=
  if (g mod 3 =? 2)%nat then replicate n 0
  else if Nat.even g
       then replicate (n / 2) 0 ++ replicate (n - n / 2) 1
       else replicate (n / 2) 1 ++ replicate (n - n / 2) 0.

Definition toy_mixture (n_components : Z) (cov : string) (X : ndarray) (g : nat)
  : result (list Z) * nat :=
  if existsb (String.eqb cov) ["full"; "tied"; "diag"; "spherical"]
  then (Ok (toy_partition (nrows X) g), S g)
  else (Err (ValueError "Invalid value for 'covariance_type'"), g).

Definition toy_mixture_ic (lo hi : Z) (cov : string) (X : ndarray) (g : nat)
  : result (list Z) * nat :=
  if existsb (String.eqb cov) ["all"; "full"; "tied"; "diag"; "spherical"]
  then (Ok (toy_partition (nrows X) g), S g)
  else (Err (ValueError "Invalid value for 'covariance_type'"), g).

Definition same_pair (a b : Z * Z) : bool :=
  Bool.eqb (fst a =? snd a) (fst b =? snd b).

(** Two label lists describe the same partition. *)
Definition same_partition (u v : list Z) : bool :=
  forallb (fun p => forallb (fun q => same_pair (fst p, fst q) (snd p, snd q)) (zip u v))
          (zip u v).

Definition toy_ari (labels_true labels_pred : list Z) : result Q :=
  if (length labels_true =? length labels_pred)%nat
  then Ok (if same_partition labels_true labels_pred then 1 else 1 # 4)%Q
  else Err (ValueError "Found input variables with inconsistent numbers of samples").

Definition lib : libraries nat :=
  Libraries nat (fun q => q) toy_svd toy_normal toy_kneighbors toy_embed2 toy_embed2
            toy_embed1 toy_mixture toy_mixture_ic toy_ari.

(** A run that starts with nothing allocated. *)
Definition w0 : world nat := World ∅ 0%nat [] [].

(** The block matrix of the affinity case at address 1, the labels of six
    vertices at 2, and the six-vertex graph built from that matrix at 3. *)
Definition graph6 : ndarray := full 6 6 2%Q.
Definition heap6 : gmap loc pyobj :=
  <[3%positive := PyArray graph6]>
    (<[2%positive := PyList (labels_lse 6)]>
       (<[1%positive := PyArray BlockTutorial.B_affinity]> ∅)).
Definition w6 : world nat := World heap6 0%nat [] [].

(** The same objects later in a session: the generator has been drawn
    from, and the log is not empty. *)
Definition w6_later : world nat :=
  World heap6 7%nat [Call_adjusted_rand_score [0; 1] [0; 1] (Ok 1%Q)] [(0%nat, 1%nat)].

End Toy.

(** ** What the specification says of the neighbor count *)

(** [round(sqrt(n))], the integer nearest to the square root: the [k]
    with [(2k-1)^2 < 4n < (2k+1)^2]. *)
Definition round_sqrt (n : Z) : Z := (Z.sqrt (4 * n) + 1) / 2.

(** ** Reading the call log *)

(** The neighbor counts handed to [kneighbors_graph], in call order. *)
Definition neighbor_counts (evs : list event) : list Z :=
  flat_map (fun e => match e with
                     | Call_kneighbors_graph _ k _ => [k]
                     | _ => []
                     end) evs.

(** The matrices handed to the mixture model, in call order. *)
Definition clustered_matrices (evs : list event) : list ndarray :=
  flat_map (fun e => match e with
                     | Call_GaussianMixture _ _ X _ => [X]
                     | Call_GaussianMixtureIC _ _ _ X _ => [X]
                     | _ => []
                     end) evs.

(** The graphs handed to an embedding routine, in call order. *)
Definition embedded_graphs (evs : list event) : list ndarray :=
  flat_map (fun e => match e with
                     | Call_ASE _ g _ => [g]
                     | Call_LSE _ g _ => [g]
                     | Call_spectral_embedding g _ _ => [g]
                     | _ => []
                     end) evs.

(** The scores [adjusted_rand_score] returned, in call order. *)
Definition scores (evs : list event) : list Q :=
  flat_map (fun e => match e with
                     | Call_adjusted_rand_score _ _ (Ok s) => [s]
                     | _ => []
                     end) evs.

(** A property of every call of a log given the call made just before. *)
Fixpoint chain (R : option event -> event -> Prop) (prev : option event)
    (evs : list event) : Prop :=
  match evs with
  | [] => True
  | e :: evs' => R prev e /\ chain R (Some e) evs'
  end.

(** [X] is [A] and [B] side by side: row [i] of [X] is row [i] of [A]
    followed by row [i] of [B]. *)
Definition side_by_side (A B X : ndarray) : Prop :=
  shape X = (nrows A, (ncols A + ncols B)%nat) /\
  length (data X) = Nat.min (length (data A)) (length (data B)) /\
  forall i ra rb, data A !! i = Some ra -> data B !! i = Some rb ->
                  data X !! i = Some (ra ++ rb).

(** [prev] is the call that embedded a graph with the method's routine
    into two dimensions, and [X] is what it returned: for "ase" and "lse"
    the two returned matrices side by side, for "sklearn" the returned
    matrix itself. *)
Definition coordinates_of_call (embed_method : string) (graph_ok : ndarray -> Prop)
    (prev : option event) (X : ndarray) : Prop :=
  exists g, graph_ok g /\
    ((embed_method = "ase" /\
      exists A B, prev = Some (Call_ASE 2 g (Ok (A, B))) /\ side_by_side A B X) \/
     (embed_method = "lse" /\
      exists A B, prev = Some (Call_LSE 2 g (Ok (A, B))) /\ side_by_side A B X) \/
     (embed_method = "sklearn" /\ prev = Some (Call_spectral_embedding g 2 (Ok X)))).

(** Every clustering call is made on the coordinate matrix of the
    embedding call just before it. *)
Definition clustered_step (embed_method : string) (graph_ok : ndarray -> Prop)
    (prev : option event) (e : event) : Prop :=
  match e with
  | Call_GaussianMixture _ _ X _ => coordinates_of_call embed_method graph_ok prev X
  | Call_GaussianMixtureIC _ _ _ X _ => coordinates_of_call embed_method graph_ok prev X
  | _ => True
  end.

(** The state after a computation that made the calls [evs] and left every
    object alone. *)
Definition steps {RNG} (w w' : world RNG) (evs : list event) : Prop :=
  heap w' = heap w /\ calls w' = (calls w ++ evs)%list.

(** A run from [w] to [w'] with result [r]: it left the heap alone, its
    calls follow [R], and when it returned it had fitted the mixture
    model [n] times. *)
Definition trace_ok {RNG A} (R : option event -> event -> Prop) (n : nat)
    (w : world RNG) (r : result A) (w' : world RNG) : Prop :=
  exists evs, steps w w' evs /\ chain R None evs /\
              (forall a, r = Ok a -> length (clustered_matrices evs) = n).

Section Protocol.
Context {RNG : Type} (L : libraries RNG).
Context (embed_method : string).
Context (graph_ok : ndarray -> Prop) (labels_ok : list Z -> Prop) (pre_ok : event -> Prop).

(** [prev] is the embedding call of the method on the graph [g], and [X]
    the coordinate matrix made of what it returned. *)
Definition embedded (g : ndarray) (prev : option event) (X : ndarray) : Prop :=
  (embed_method = "ase" /\
   exists XY s, prev = Some (Call_ASE 2 g (Ok XY)) /\
                fst (AdjacencySpectralEmbed L 2 g s) = Ok XY /\
                concatenate_axis1 (fst XY) (snd XY) = Ok X) \/
  (embed_method = "lse" /\
   exists XY s, prev = Some (Call_LSE 2 g (Ok XY)) /\
                fst (LaplacianSpectralEmbed L 2 g s) = Ok XY /\
                concatenate_axis1 (fst XY) (snd XY) = Ok X) \/
  (embed_method = "sklearn" /\
   exists s, prev = Some (Call_spectral_embedding g 2 (Ok X)) /\
             fst (spectral_embedding L g 2 s) = Ok X).

Definition clustering_returned (prev : option event) (labels : list Z) : Prop :=
  match prev with
  | Some (Call_GaussianMixture _ _ _ out) => out = Ok labels
  | Some (Call_GaussianMixtureIC _ _ _ _ out) => out = Ok labels
  | _ => False
  end.

(** What a trial may call, and after what. *)
Definition step_ok (prev : option event) (e : event) : Prop :=
  match e with
  | Call_svd _ _ => pre_ok e
  | Call_kneighbors_graph _ _ _ => pre_ok e
  | Call_multivariate_normal _ _ _ _ => pre_ok e
  | Call_ASE k g _ => embed_method = "ase" /\ k = 2 /\ graph_ok g
  | Call_LSE k g _ => embed_method = "lse" /\ k = 2 /\ graph_ok g
  | Call_spectral_embedding g k _ => embed_method = "sklearn" /\ k = 2 /\ graph_ok g
  | Call_GaussianMixture k _ X _ =>
      k = 2 /\ exists g, graph_ok g /\ embedded g prev X
  | Call_GaussianMixtureIC lo hi cov X _ =>
      lo = 2 /\ hi = 2 /\ cov = "all" /\ exists g, graph_ok g /\ embedded g prev X
  | Call_adjusted_rand_score lt lp out =>
      labels_ok lt /\ clustering_returned prev lp /\ out = adjusted_rand_score L lt lp
  end.

End Protocol.

(** The graph a call of the regenerating [calc_ari] builds, as a function
    of [n_verts] and the contents of [B]... *)
Definition block_model_graph_value {RNG} (L : libraries RNG) (n_verts : Z) (B : ndarray)
  : result ndarray :=
  P <~ prob_matrix n_verts B ;;
  USV <~ np_linalg_svd L P ;;
  lat_mat <~ latent_positions L n_verts (fst (fst USV)) (snd (fst USV)) (snd USV) ;;
  k <~ int_sqrt n_verts ;;
  kn_graph <~ kneighbors_graph L lat_mat k ;;
  Ok (toarray kn_graph).

(** ...and the library calls made on the way. *)
Definition block_model_graph_calls {RNG} (L : libraries RNG) (n_verts : Z) (B : ndarray)
  : list event :=
  match prob_matrix n_verts B with
  | Err _ => []
  | Ok P =>
      Call_svd P (np_linalg_svd L P) ::
      match np_linalg_svd L P with
      | Err _ => []
      | Ok USV =>
          match latent_positions L n_verts (fst (fst USV)) (snd (fst USV)) (snd USV) with
          | Err _ => []
          | Ok lat_mat =>
              match int_sqrt n_verts with
              | Err _ => []
              | Ok k => [Call_kneighbors_graph lat_mat k (kneighbors_graph L lat_mat k)]
              end
          end
      end
  end.

(** The selector is one of the three identifiers. *)
Definition recognized (embed_method : string) : Prop :=
  embed_method = "ase" \/ embed_method = "lse" \/ embed_method = "sklearn".

(** ** What the notebooks expect of the libraries *)

(** The coordinate matrix of a trial as a function of the method, the
    graph and the generator: the embedding into two dimensions and, for
    "ase" and "lse", the two returned matrices side by side; under any
    other method [Xhat] is not bound. *)
Definition coordinates {RNG} (L : libraries RNG) (embed_method : string) (g : ndarray)
    (s : RNG) : result ndarray * RNG :=
  if String.eqb embed_method "ase" then
    match AdjacencySpectralEmbed L 2 g s with
    | (Ok XY, s') => (concatenate_axis1 (fst XY) (snd XY), s')
    | (Err e, s') => (Err e, s')
    end
  else if String.eqb embed_method "lse" then
    match LaplacianSpectralEmbed L 2 g s with
    | (Ok XY, s') => (concatenate_axis1 (fst XY) (snd XY), s')
    | (Err e, s') => (Err e, s')
    end
  else if String.eqb embed_method "sklearn" then spectral_embedding L g 2 s
  else (Err (UnboundLocalError "Xhat"), s).

(** The routines a trial calls return on what the trial hands them: the
    method's embedding on the graph [g], the mixture model (as the trial
    configures it) on the coordinates of that embedding, at the state the
    embedding left the generator in, and the score on the labels [lt] and
    the predicted labels. Nothing is asked of a routine on any other
    argument. *)
Record returns_on {RNG} (L : libraries RNG) (embed_method : string)
    (mixture : ndarray -> RNG -> result (list Z) * RNG) (g : ndarray) (lt : list Z)
  : Prop := {
  coordinates_return : forall s, exists X s', coordinates L embed_method g s = (Ok X, s');
  mixture_returns : forall s X s',
    coordinates L embed_method g s = (Ok X, s') ->
    exists labels s'', mixture X s' = (Ok labels, s'');
  score_returns : forall s X s' labels s'',
    coordinates L embed_method g s = (Ok X, s') ->
    mixture X s' = (Ok labels, s'') ->
    exists q, adjusted_rand_score L lt labels = Ok q
}.

(** An embedding into [n_components] dimensions returns arrays of that
    many columns. *)
Record embedding_shapes {RNG} (L : libraries RNG) : Prop := {
  ase_shapes : forall k g s XY, fst (AdjacencySpectralEmbed L k g s) = Ok XY ->
    well_shaped (fst XY) /\ well_shaped (snd XY) /\
    ncols (fst XY) = Z.to_nat k /\ ncols (snd XY) = Z.to_nat k;
  lse_shapes : forall k g s XY, fst (LaplacianSpectralEmbed L k g s) = Ok XY ->
    well_shaped (fst XY) /\ well_shaped (snd XY) /\
    ncols (fst XY) = Z.to_nat k /\ ncols (snd XY) = Z.to_nat k;
  se_shapes : forall k g s X, fst (spectral_embedding L g k s) = Ok X ->
    well_shaped X /\ ncols X = Z.to_nat k
}.

(** The array [X] has [c] columns: its shape says so and every row holds
    [c] numbers. *)
Definition has_columns (c : nat) (X : ndarray) : Prop :=
  ncols X = c /\ Forall (fun row => length row = c) (data X).

(** ** The generator *)

(** The state of numpy's global generator after the call [ev] made at
    state [s]: the routines that draw advance it, the others leave it. *)
Definition generator_after {RNG} (L : libraries RNG) (ev : event) (s : RNG) : RNG :=
  match ev with
  | Call_svd _ _ => s
  | Call_kneighbors_graph _ _ _ => s
  | Call_adjusted_rand_score _ _ _ => s
  | Call_multivariate_normal mean cov size _ =>
      snd (np_random_multivariate_normal L mean cov size s)
  | Call_ASE k g _ => snd (AdjacencySpectralEmbed L k g s)
  | Call_LSE k g _ => snd (LaplacianSpectralEmbed L k g s)
  | Call_spectral_embedding g k _ => snd (spectral_embedding L g k s)
  | Call_GaussianMixture k c X _ => snd (GaussianMixture L k c X s)
  | Call_GaussianMixtureIC lo hi c X _ => snd (GaussianMixtureIC L lo hi c X s)
  end.

(** The state after the calls [evs], made in order from the state [s]. *)
Definition replay {RNG} (L : libraries RNG) (evs : list event) (s : RNG) : RNG :=
  fold_left (fun s ev => generator_after L ev s) evs s.

(** The calls of a log that build a graph: the SVD and the k-neighbors
    graph. *)
Definition construction_calls (evs : list event) : list event :=
  flat_map (fun e => match e with
                     | Call_svd _ _ => [e]
                     | Call_kneighbors_graph _ _ _ => [e]
                     | _ => []
                     end) evs.

(** The row a trial appends. *)
Definition trial_record (m : string) (s : Q) : record := {| test := m; ari := s |}.




(** What the protocol says of one call, without the call before it. *)
Definition call_ok {RNG} (L : libraries RNG) (m : string) (n : Z) (b : ndarray) (e : event) : Prop :=
  match e with
  | Call_svd _ _ => In e (block_model_graph_calls L n b)
  | Call_kneighbors_graph _ _ _ => In e (block_model_graph_calls L n b)
  | Call_ASE _ g _ => block_model_graph_value L n b = Ok g
  | Call_LSE _ g _ => block_model_graph_value L n b = Ok g
  | Call_spectral_embedding g _ _ => block_model_graph_value L n b = Ok g
  | Call_GaussianMixture _ _ X _ =>
      exists g p, block_model_graph_value L n b = Ok g /\ embedded L m g p X
  | Call_GaussianMixtureIC _ _ _ X _ =>
      exists g p, block_model_graph_value L n b = Ok g /\ embedded L m g p X
  | _ => True
  end.

(** ** Running a notebook function step by step *)

(** The locals are safe to cluster on: an unrecognized method never gets
    as far as binding [Xhat]. *)
Definition locals_ok (embed_method : string) (l : locals) : Prop :=
  recognized embed_method \/ Xhat l = None.

Ltac destruct_call c :=
  let out := fresh "out" in let g := fresh "g" in let E := fresh "Ecall" in
  destruct c as [[out|out] g] eqn:E.

Ltac destruct_result c :=
  let out := fresh "out" in let E := fresh "Eres" in
  destruct c as [out|out] eqn:E.

(** One more step of a run whose equation is [H]. *)
Ltac run_step H :=
  match type of H with
  | context [AdjacencySpectralEmbed ?L ?k ?a ?s] =>
      destruct_call (AdjacencySpectralEmbed L k a s)
  | context [LaplacianSpectralEmbed ?L ?k ?a ?s] =>
      destruct_call (LaplacianSpectralEmbed L k a s)
  | context [spectral_embedding ?L ?a ?k ?s] =>
      destruct_call (spectral_embedding L a k s)
  | context [GaussianMixture ?L ?k ?c ?X ?s] =>
      destruct_call (GaussianMixture L k c X s)
  | context [GaussianMixtureIC ?L ?lo ?hi ?c ?X ?s] =>
      destruct_call (GaussianMixtureIC L lo hi c X s)
  | context [np_random_multivariate_normal ?L ?m ?c ?n ?s] =>
      destruct_call (np_random_multivariate_normal L m c n s)
  | context [match heap ?w !! ?l with _ => _ end] =>
      let o := fresh "o" in let E := fresh "Eheap" in
      destruct (heap w !! l) as [[o|o]|] eqn:E
  | context [match concatenate_axis1 ?a ?b with _ => _ end] =>
      destruct_result (concatenate_axis1 a b)
  | context [match concatenate_axis0 ?a ?b with _ => _ end] =>
      destruct_result (concatenate_axis0 a b)
  | context [match adjusted_rand_score ?L ?a ?b with _ => _ end] =>
      destruct_result (adjusted_rand_score L a b)
  | context [match int_sqrt ?n with _ => _ end] =>
      destruct_result (int_sqrt n)
  | context [match kneighbors_graph ?L ?a ?k with _ => _ end] =>
      destruct_result (kneighbors_graph L a k)
  end.

Ltac run_in H :=
  unfold local in H; unfold bind, ret, raise, lift in H;
  repeat (cbn beta iota delta [fst snd heap rng calls tqdm_bar Xhat Yhat rows set_Xhat
                                set_Xhat_Yhat rows_append] in H;
          run_step H);
  cbn beta iota delta [fst snd heap rng calls tqdm_bar Xhat Yhat rows set_Xhat
                       set_Xhat_Yhat rows_append] in H.

(** The clustering call of a log was made on what the embedding call
    before it returned. *)
Ltac embedded_tac :=
  unfold embedded;
  match goal with
  | E : AdjacencySpectralEmbed _ _ _ ?s = (Ok ?out, _) |- _ =>
      left; split; [reflexivity|]; exists out, s; rewrite E;
      repeat split; first [assumption | reflexivity]
  | E : LaplacianSpectralEmbed _ _ _ ?s = (Ok ?out, _) |- _ =>
      right; left; split; [reflexivity|]; exists out, s; rewrite E;
      repeat split; first [assumption | reflexivity]
  | E : spectral_embedding _ _ _ ?s = (Ok ?out, _) |- _ =>
      right; right; split; [reflexivity|]; exists s; rewrite E;
      repeat split; first [assumption | reflexivity]
  end.

Ltac chain_tac :=
  cbn [chain step_ok clustering_returned];
  repeat match goal with
         | |- _ /\ _ => split
         | |- True => exact I
         | |- exists g, _ = Some (PyArray g) /\ _ => eexists; split; [reflexivity|]
         | |- exists g, _ = Ok g /\ _ => eexists; split; [eassumption|]
         | |- embedded _ _ _ _ _ => embedded_tac
         | |- _ = _ => first [reflexivity | assumption | symmetry; assumption]
         end.

(** ** Shapes *)

(** [np.linalg.svd] of a square matrix returns square factors of the same
    size and one singular value per row. *)
Definition svd_shapes {RNG} (L : libraries RNG) : Prop :=
  forall P U S V, nrows P = ncols P -> well_shaped P ->
    np_linalg_svd L P = Ok (U, S, V) ->
    shape U = shape P /\ shape V = shape P /\ length S = nrows P /\
    well_shaped U /\ well_shaped V.

(** [np.random.multivariate_normal(mean, cov, size)] returns [size] rows,
    one coordinate per entry of [mean]; it refuses a negative [size]. *)
Definition sampler_shapes {RNG} (L : libraries RNG) : Prop :=
  forall mean cov size s X s',
    np_random_multivariate_normal L mean cov size s = (Ok X, s') ->
    0 <= size /\ shape X = (Z.to_nat size, length mean).

(** The matrices handed to [kneighbors_graph], in call order. *)
Definition neighbor_inputs (evs : list event) : list ndarray :=
  flat_map (fun e => match e with
                     | Call_kneighbors_graph X _ _ => [X]
                     | _ => []
                     end) evs.

(** The probability matrix of five vertices in the affinity case. *)
Definition P5_affinity : ndarray := Eval vm_compute in
    match prob_matrix 5 BlockTutorial.B_affinity with
    | Ok P => P
    | Err _ => NdArray (0%nat, 0%nat) []
    end.

(** ** Scores *)

(** Every scoring call compares the labels stored at [labels_true] with
    what the clustering call just before it returned. *)
Definition scored_step {RNG} (L : libraries RNG) (h : gmap loc pyobj) (labels_true : loc)
    (prev : option event) (e : event) : Prop :=
  match e with
  | Call_adjusted_rand_score lt lp out =>
      h !! labels_true = Some (PyList lt) /\
      clustering_returned prev lp /\
      out = adjusted_rand_score L lt lp
  | _ => True
  end.

(** The embedding calls of a log are calls of the method's own routine,
    into two dimensions, on the graph [g]. *)
Definition embedding_step (embed_method : string) (g : ndarray) (e : event) : Prop :=
  match e with
  | Call_ASE k a _ => embed_method = "ase" /\ k = 2 /\ a = g
  | Call_LSE k a _ => embed_method = "lse" /\ k = 2 /\ a = g
  | Call_spectral_embedding a k _ => embed_method = "sklearn" /\ k = 2 /\ a = g
  | Call_svd _ _ => False
  | Call_kneighbors_graph _ _ _ => False
  | Call_multivariate_normal _ _ _ _ => False
  | _ => True
  end.

(** ** Calls that returned and calls that raised *)

Definition is_ok {A} (r : result A) : Prop :=
  match r with
  | Ok _ => True
  | Err _ => False
  end.

(** The library call [ev] returned. *)
Definition returned (ev : event) : Prop :=
  match ev with
  | Call_svd _ out => is_ok out
  | Call_multivariate_normal _ _ _ out => is_ok out
  | Call_kneighbors_graph _ _ out => is_ok out
  | Call_ASE _ _ out => is_ok out
  | Call_LSE _ _ out => is_ok out
  | Call_spectral_embedding _ _ out => is_ok out
  | Call_GaussianMixture _ _ _ out => is_ok out
  | Call_GaussianMixtureIC _ _ _ _ out => is_ok out
  | Call_adjusted_rand_score _ _ out => is_ok out
  end.

(** The exception [e] comes from the call [ev]: the routine raised it, or
    the two matrices a graspologic embedding returned could not be put
    side by side. *)
Definition raised_by (e : exn) (ev : event) : Prop :=
  match ev with
  | Call_ASE _ _ out =>
      out = Err e \/
      exists XY, out = Ok XY /\ concatenate_axis1 (fst XY) (snd XY) = Err e
  | Call_LSE _ _ out =>
      out = Err e \/
      exists XY, out = Ok XY /\ concatenate_axis1 (fst XY) (snd XY) = Err e
  | Call_spectral_embedding _ _ out => out = Err e
  | Call_GaussianMixture _ _ _ out => out = Err e
  | Call_GaussianMixtureIC _ _ _ _ out => out = Err e
  | Call_adjusted_rand_score _ _ out => out = Err e
  | Call_svd _ out => out = Err e
  | Call_kneighbors_graph _ _ out => out = Err e
  | Call_multivariate_normal _ _ _ out => out = Err e
  end.

(** What a run has logged when it ended with [r]: calls that all
    returned, or calls that returned followed by the one [r] comes from. *)
Definition log_outcome {A} (r : result A) (evs : list event) : Prop :=
  match r with
  | Ok _ => Forall returned evs
  | Err e => exists evs0 ev, evs = evs0 ++ [ev] /\ Forall returned evs0 /\ raised_by e ev
  end.

(** Six vertices in the heap, but the labels of five. *)
Definition w6_labels5 : world nat :=
  World (<[2%positive := PyList (labels_lse 5)]> Toy.heap6) 0%nat [] [].

(** * Properties *)

(** ** The integer model of the float conversions *)

(** On the sample counts of the case cells, and on small odd and even
    counts, binary64 gives what the integer model gives. *)
Lemma binary64_agrees :
  Forall (fun n => Binary64.int_sqrt n = Some (Z.sqrt n) /\
                   int_sqrt n = Ok (Z.sqrt n) /\
                   Binary64.int_half n = Some (int_half n))
         [100; 400; 250; 800; 500; 0; 1; 2; 3; 5; 6; 15; 16; 17; 99; 101].
Proof. repeat constructor; vm_compute; reflexivity. Qed.

(** On sample scores, [fl] is the float the division gives, the mean is the
    float pandas' compensated summation gives, and the rounding is the
    float numpy's gives: among them three scores 0.1, whose mean is the
    next float above 0.1, and three scores 0.045, whose mean rounds to
    0.05. *)
Lemma binary64_mean_agrees :
  Forall (fun ab => Binary64.value (Binary64.ratio (fst ab) (snd ab))
                    = fl (Qmake (fst ab) (Z.to_pos (snd ab))))
         [(1, 10); (7, 10); (45, 1000); (15, 1000); (1, 3); (-2, 3); (1, 4); (-1, 2);
          (987, 1000); (0, 1); (1, 1)] /\
  Forall (fun l =>
            let col := map (fun ab => Binary64.ratio (fst ab) (snd ab)) l in
            Binary64.value (Binary64.mean col) = mean (map Binary64.value col) /\
            option_map Binary64.value (Binary64.round2 (Binary64.mean col))
            = Some (round2 (mean (map Binary64.value col))))
         [[(1, 10); (1, 10); (1, 10)];
          [(7, 10); (7, 10); (7, 10)];
          [(45, 1000); (45, 1000); (45, 1000)];
          [(15, 1000)];
          [(1, 1)];
          [(1, 10); (2, 10); (3, 10); (45, 100); (6, 10); (7, 10); (123, 1000);
           (9871, 10000); (-31, 100); (1, 2)];
          [(1, 3); (-2, 3); (1, 3); (1, 7); (-1, 2); (99, 100); (1, 1); (0, 1)]] /\
  Binary64.value (Binary64.mean (replicate 3 (Binary64.ratio 1 10)))
  = Binary64.value (PrimFloat.next_up (Binary64.ratio 1 10)) /\
  option_map Binary64.value
    (Binary64.round2 (Binary64.mean (replicate 3 (Binary64.ratio 45 1000))))
  = Some (Binary64.value (Binary64.ratio 5 100)) /\
  option_map Binary64.value (Binary64.round2 (Binary64.ratio 15 1000))
  = Some (Binary64.value (Binary64.ratio 2 100)).
Proof.
  split; [repeat constructor; vm_compute; reflexivity|].
  split; [repeat constructor; vm_compute; reflexivity|].
  repeat split; vm_compute; reflexivity.
Qed.

(** ** Labels *)

Lemma py_list_repeat_singleton {A} (k : Z) (x : A) :
  py_list_repeat k [x] = replicate (Z.to_nat k) x.
Proof.
  unfold py_list_repeat. induction (Z.to_nat k) as [|n IH]; simpl; [reflexivity|].
  now rewrite IH.
Qed.

Lemma labels_lse_replicate (n : Z) :
  labels_lse n = (replicate (Z.to_nat (int_half n)) 0 ++ replicate (Z.to_nat (int_half n)) 1)%list.
Proof. unfold labels_lse. now rewrite !py_list_repeat_singleton. Qed.

(** The list always has twice [int(n/2)] entries. *)
Lemma labels_lse_length (n : Z) :
  length (labels_lse n) = (2 * Z.to_nat (int_half n))%nat.
Proof. rewrite labels_lse_replicate, length_app, !length_replicate. lia. Qed.

Lemma int_half_nonneg (n : Z) : 0 <= n -> int_half n = n / 2.
Proof. intros H. unfold int_half. now apply Z.quot_div_nonneg. Qed.

(** C3, as amended: for an even sample count [n >= 1] the label list has
    [n] entries, the first [n/2] in group 0 and the other [n/2] in group 1. *)
Theorem labels_lse_even (n : Z) :
  1 <= n -> Z.even n = true ->
  length (labels_lse n) = Z.to_nat n /\
  (forall i : nat, (i < Z.to_nat n / 2)%nat -> labels_lse n !! i = Some 0) /\
  (forall i : nat, (Z.to_nat n / 2 <= i < Z.to_nat n)%nat -> labels_lse n !! i = Some 1).
Proof.
  intros Hn Hev.
  apply Z.even_spec in Hev. destruct Hev as [k ->].
  assert (Hh : Z.to_nat (int_half (2 * k)) = Z.to_nat k).
  { rewrite int_half_nonneg by lia. f_equal.
    rewrite Z.mul_comm. apply Z.div_mul. lia. }
  assert (Hd : (Z.to_nat (2 * k) / 2)%nat = Z.to_nat k).
  { replace (Z.to_nat (2 * k)) with (Z.to_nat k * 2)%nat by lia.
    apply Nat.div_mul. lia. }
  rewrite labels_lse_replicate, Hh, Hd. repeat split.
  - rewrite length_app, !length_replicate. lia.
  - intros i Hi. rewrite lookup_app_l by (rewrite length_replicate; lia).
    apply lookup_replicate_2. lia.
  - intros i Hi. rewrite lookup_app_r by (rewrite length_replicate; lia).
    rewrite length_replicate. apply lookup_replicate_2. lia.
Qed.

Lemma labels_lse_even_witness :
  length (labels_lse 4) = Z.to_nat 4 /\
  (forall i : nat, (i < Z.to_nat 4 / 2)%nat -> labels_lse 4 !! i = Some 0) /\
  (forall i : nat, (Z.to_nat 4 / 2 <= i < Z.to_nat 4)%nat -> labels_lse 4 !! i = Some 1).
Proof. apply (labels_lse_even 4); [lia | reflexivity]. Defined.

(** C3, as stated, fails on an odd count: three samples get two labels. *)
Lemma labels_lse_odd_length :
  1 <= 3 /\ length (labels_lse 3) <> Z.to_nat 3.
Proof. split; [lia | vm_compute; discriminate]. Qed.

(** ** The probability matrix *)

Lemma slice_bound_nonneg (len : nat) (x : Z) :
  0 <= x <= Z.of_nat len -> slice_bound len x = Z.to_nat x.
Proof.
  intros H. unfold slice_bound.
  destruct (Z.ltb_spec x 0); lia.
Qed.

Lemma in_slice_spec (len : nat) (lo hi : Z) (i : nat) :
  0 <= lo <= Z.of_nat len -> 0 <= hi <= Z.of_nat len ->
  in_slice len lo hi i = true <-> lo <= Z.of_nat i < hi.
Proof.
  intros Hlo Hhi. unfold in_slice.
  rewrite !slice_bound_nonneg by lia.
  rewrite andb_true_iff, Nat.leb_le, Nat.ltb_lt. lia.
Qed.

Lemma getitem_setitem_block (a : ndarray) (r0 r1 c0 c1 : Z) (v x : Q) (i j : nat) :
  getitem a i j = Ok x ->
  getitem (setitem_block a r0 r1 c0 c1 v) i j =
  Ok (if in_slice (nrows a) r0 r1 i && in_slice (ncols a) c0 c1 j then v else x).
Proof.
  unfold getitem, setitem_block. simpl.
  destruct (data a !! i) as [row|] eqn:Hrow; [|discriminate].
  destruct (row !! j) as [y|] eqn:Hy; [|discriminate].
  intros [= ->].
  rewrite list_lookup_imap, Hrow. simpl.
  destruct (in_slice (nrows a) r0 r1 i); simpl.
  - rewrite list_lookup_imap, Hy. reflexivity.
  - rewrite Hy. reflexivity.
Qed.

Lemma getitem_zeros (r c : nat) (i j : nat) :
  (i < r)%nat -> (j < c)%nat ->
  getitem {| shape := (r, c); data := replicate r (replicate c 0%Q) |} i j = Ok 0%Q.
Proof.
  intros Hi Hj. unfold getitem. simpl.
  rewrite lookup_replicate_2 by lia. rewrite lookup_replicate_2 by lia. reflexivity.
Qed.

(** C7: the probability matrix of a 2x2 block matrix [B] on [n] vertices
    is n by n, and its entry (i, j) is the entry of [B] at the groups of
    [i] and [j], the first [n/2] vertices forming group 0. *)
Theorem prob_matrix_blocks (n : Z) (b00 b01 b10 b11 : Q) :
  0 <= n ->
  let B := NdArray (2%nat, 2%nat) [[b00; b01]; [b10; b11]] in
  exists P,
    prob_matrix n B = Ok P /\
    shape P = (Z.to_nat n, Z.to_nat n) /\
    forall i j, 0 <= i < n -> 0 <= j < n ->
      getitem P (Z.to_nat i) (Z.to_nat j) = getitem B (group n i) (group n j).
Proof.
  intros Hn B. unfold prob_matrix, np_zeros.
  destruct (Z.ltb_spec n 0) as [|_]; [lia|]. simpl.
  eexists. split; [reflexivity|]. split; [reflexivity|].
  intros i j Hi Hj.
  assert (Hh : 0 <= int_half n <= n).
  { rewrite int_half_nonneg by lia. split; [apply Z.div_pos; lia|].
    apply Z.div_le_upper_bound; lia. }
  pose proof (getitem_zeros (Z.to_nat n) (Z.to_nat n) (Z.to_nat i) (Z.to_nat j)
                ltac:(lia) ltac:(lia)) as H0.
  eapply getitem_setitem_block in H0. 
  eapply getitem_setitem_block in H0.
  eapply getitem_setitem_block in H0.
  eapply getitem_setitem_block in H0.
  rewrite H0. clear H0. unfold nrows, ncols, setitem_block, shape. simpl fst. simpl snd.
  unfold group. fold (int_half n).
  assert (Hs : forall lo hi k, 0 <= lo <= n -> 0 <= hi <= n -> 0 <= k ->
             in_slice (Z.to_nat n) lo hi (Z.to_nat k) = ((lo <=? k) && (k <? hi))).
  { intros lo hi k Hlo Hhi Hk.
    apply eq_true_iff_eq. rewrite in_slice_spec by lia.
    rewrite andb_true_iff, Z.leb_le, Z.ltb_lt. lia. }
  rewrite !Hs by lia.
  destruct (Z.ltb_spec i (int_half n)), (Z.ltb_spec j (int_half n));
    repeat match goal with
           | |- context [?a <=? ?b] => destruct (Z.leb_spec a b); try lia
           | |- context [?a <? ?b] => destruct (Z.ltb_spec a b); try lia
           end; reflexivity.
Qed.

Lemma prob_matrix_blocks_witness :
  exists P,
    prob_matrix 5 BlockTutorial.B_core = Ok P /\
    shape P = (Z.to_nat 5, Z.to_nat 5) /\
    forall i j, 0 <= i < 5 -> 0 <= j < 5 ->
      getitem P (Z.to_nat i) (Z.to_nat j)
      = getitem BlockTutorial.B_core (group 5 i) (group 5 j).
Proof. apply (prob_matrix_blocks 5 0.011 0.027 0.027 0.079)%Q. lia. Defined.

(** ** Aggregation *)

Lemma insert_key_In (k x : string) (ks : list string) :
  In x (insert_key k ks) <-> x = k \/ In x ks.
Proof.
  induction ks as [|k' ks IH]; simpl; [intuition congruence|].
  destruct (String.compare k k') eqn:Hc; simpl.
  - apply String.compare_eq_iff in Hc. subst. intuition congruence.
  - intuition congruence.
  - rewrite IH. intuition congruence.
Qed.


Lemma loc_row_map (f : string -> Q) (k : string) (ks : list string) :
  In k ks -> loc_row k (map (fun k' => (k', f k')) ks) = Some (f k).
Proof.
  induction ks as [|k' ks IH]; simpl; [tauto|].
  intros Hin. destruct (String.eqb k k') eqn:He.
  - apply String.eqb_eq in He. now subst.
  - apply String.eqb_neq in He. destruct Hin as [->|Hin]; [congruence | auto].
Qed.

Lemma loc_row_round2 (k : string) (m : list (string * Q)) :
  loc_row k (frame_round2 m) = round2 <$> loc_row k m.
Proof.
  induction m as [|[k' v] m IH]; simpl; [reflexivity|].
  destruct (String.eqb k k'); [reflexivity | exact IH].
Qed.












(** ** Call logs *)

Lemma chain_impl (R R' : option event -> event -> Prop) :
  (forall p e, R p e -> R' p e) ->
  forall evs p, chain R p evs -> chain R' p evs.
Proof.
  intros H evs. induction evs as [|e evs IH]; simpl; [tauto|].
  intros p [Hr Hc]. split; [now apply H | now apply IH].
Qed.

Lemma chain_weaken (R : option event -> event -> Prop) :
  (forall p e, R None e -> R p e) ->
  forall evs p, chain R None evs -> chain R p evs.
Proof.
  intros H [|e evs] p; simpl; [tauto|]. intros [Hr Hc]. split; [now apply H | exact Hc].
Qed.

Lemma chain_app (R : option event -> event -> Prop) :
  (forall p e, R None e -> R p e) ->
  forall a b p, chain R p a -> chain R None b -> chain R p (a ++ b).
Proof.
  intros H a. induction a as [|e a IH]; simpl; intros b p Ha Hb.
  - now apply chain_weaken.
  - destruct Ha as [Hr Ha]. split; [exact Hr | now apply IH].
Qed.

Lemma chain_Forall (R : option event -> event -> Prop) (Q : event -> Prop) :
  (forall p e, R p e -> Q e) ->
  forall evs p, chain R p evs -> Forall Q evs.
Proof.
  intros H evs. induction evs as [|e evs IH]; simpl; intros p Hc; [constructor|].
  destruct Hc as [Hr Hc]. constructor; [now apply (H p) | now apply (IH (Some e))].
Qed.

Section LogFacts.
Context {RNG : Type} (L : libraries RNG).

Lemma steps_refl (w : world RNG) : steps w w [].
Proof. split; [reflexivity | now rewrite app_nil_r]. Qed.

Lemma steps_trans (w1 w2 w3 : world RNG) (a b : list event) :
  steps w1 w2 a -> steps w2 w3 b -> steps w1 w3 (a ++ b).
Proof.
  intros [H1 C1] [H2 C2]. split; [congruence|]. rewrite C2, C1. now rewrite app_assoc.
Qed.

Lemma step_ok_weaken (m : string) (G : ndarray -> Prop) (Lb : list Z -> Prop)
    (Pre : event -> Prop) (p : option event) (e : event) :
  step_ok L m G Lb Pre None e -> step_ok L m G Lb Pre p e.
Proof.
  destruct e; simpl; try tauto.
  - intros (_ & g & _ & [(_ & ? & ? & [=] & _) | [(_ & ? & ? & [=] & _) | (_ & ? & [=] & _)]]).
  - intros (_ & _ & _ & g & _ & [(_ & ? & ? & [=] & _) | [(_ & ? & ? & [=] & _) | (_ & ? & [=] & _)]]).
Qed.

Lemma clustered_matrices_app (a b : list event) :
  clustered_matrices (a ++ b) = clustered_matrices a ++ clustered_matrices b.
Proof. unfold clustered_matrices. apply flat_map_app. Qed.

Lemma trace_ok_nil {A} (R : option event -> event -> Prop) (w : world RNG) (r : result A) :
  trace_ok R 0 w r w.
Proof. exists []. split; [apply steps_refl|]. split; [exact I | reflexivity]. Qed.

(** A pass that returned, followed by the rest of the loop. *)
Lemma trace_ok_seq {A B} (R : option event -> event -> Prop) (n : nat)
    (w w1 w2 : world RNG) (a : A) (r : result B) :
  (forall p e, R None e -> R p e) ->
  trace_ok R 1 w (Ok a) w1 -> trace_ok R n w1 r w2 -> trace_ok R (S n) w r w2.
Proof.
  intros HR (evs1 & Hs1 & Hc1 & Hn1) (evs2 & Hs2 & Hc2 & Hn2).
  exists (evs1 ++ evs2). split; [eapply steps_trans; eassumption|].
  split; [now apply chain_app|].
  intros b Hb. rewrite clustered_matrices_app, length_app, (Hn1 a eq_refl), (Hn2 b Hb).
  reflexivity.
Qed.

(** A pass that raised ends the loop. *)
Lemma trace_ok_raise {A B} (R : option event -> event -> Prop) (n k : nat)
    (w w' : world RNG) (e : exn) :
  trace_ok (A:=A) R n w (Err e) w' -> trace_ok (A:=B) R k w (Err e) w'.
Proof.
  intros (evs & Hs & Hc & _). exists evs. split; [exact Hs|]. split; [exact Hc|]. discriminate.
Qed.

(** A change of the tqdm bar does not show in the trace. *)
Lemma trace_ok_bar {A} (R : option event -> event -> Prop) (n : nat)
    (w w' : world RNG) (r : result A) (bar : list (nat * nat)) :
  trace_ok R n (World (heap w) (rng w) (calls w) bar) r w' -> trace_ok R n w r w'.
Proof.
  intros (evs & [Hh Hc] & Hch & Hn). exists evs. split; [split; [exact Hh | exact Hc]|].
  split; assumption.
Qed.

(** Loops make the calls of their passes, one pass after the other; [Inv]
    is what the passes keep true of the locals, [h] the heap they leave
    alone. *)
Lemma for_range_chain {S} (R : option event -> event -> Prop) (Inv : S -> Prop)
    (h : gmap loc pyobj) (body : S -> M RNG S) :
  (forall p e, R None e -> R p e) ->
  (forall s w r w', Inv s -> heap w = h -> body s w = (r, w') ->
     tqdm_bar w' = tqdm_bar w /\ (forall s', r = Ok s' -> Inv s') /\ trace_ok R 1 w r w') ->
  forall n s w r w', Inv s -> heap w = h -> for_range n body s w = (r, w') ->
     tqdm_bar w' = tqdm_bar w /\ trace_ok R n w r w'.
Proof.
  intros HR Hbody n. induction n as [|n IH]; intros s w r w' Hinv Hh Hrun; simpl in Hrun.
  - inversion Hrun; subst. split; [reflexivity | apply trace_ok_nil].
  - unfold bind in Hrun. destruct (body s w) as [[s1|e] w1] eqn:Hb.
    + destruct (Hbody _ _ _ _ Hinv Hh Hb) as (Hbar1 & Hinv1 & Ht1).
      assert (Hh1 : heap w1 = h) by (destruct Ht1 as (? & [? _] & _); congruence).
      destruct (IH _ _ _ _ (Hinv1 _ eq_refl) Hh1 Hrun) as (Hbar2 & Ht2).
      split; [congruence|]. eapply trace_ok_seq; eassumption.
    + destruct (Hbody _ _ _ _ Hinv Hh Hb) as (Hbar1 & _ & Ht1).
      inversion Hrun; subst. split; [exact Hbar1|]. eapply trace_ok_raise; exact Ht1.
Qed.

Lemma for_tqdm_from_chain {S} (R : option event -> event -> Prop) (Inv : S -> Prop)
    (h : gmap loc pyobj) (body : S -> M RNG S) :
  (forall p e, R None e -> R p e) ->
  (forall s w r w', Inv s -> heap w = h -> body s w = (r, w') ->
     tqdm_bar w' = tqdm_bar w /\ (forall s', r = Ok s' -> Inv s') /\ trace_ok R 1 w r w') ->
  forall n done total s w r w', Inv s -> heap w = h ->
     for_tqdm_from done n total body s w = (r, w') ->
     (exists ups, tqdm_bar w' = tqdm_bar w ++ ups) /\ trace_ok R n w r w'.
Proof.
  intros HR Hbody n.
  induction n as [|n IH]; intros done total s w r w' Hinv Hh Hrun; simpl in Hrun.
  - inversion Hrun; subst. split; [exists []; now rewrite app_nil_r | apply trace_ok_nil].
  - unfold bind at 1 in Hrun. destruct (body s w) as [[s1|e] w1] eqn:Hb.
    + destruct (Hbody _ _ _ _ Hinv Hh Hb) as (Hbar1 & Hinv1 & Ht1).
      assert (Hh1 : heap w1 = h) by (destruct Ht1 as (? & [? _] & _); congruence).
      unfold bind, tqdm_update in Hrun.
      destruct (IH _ _ _ _ _ _ (Hinv1 _ eq_refl) (Hh1 : heap (World _ _ _ _) = h) Hrun)
        as ((ups & Hups) & Ht2).
      split.
      * cbn [tqdm_bar] in Hups. rewrite Hups, Hbar1, <- app_assoc. eauto.
      * eapply trace_ok_seq; [exact HR | exact Ht1 | eapply trace_ok_bar; exact Ht2].
    + destruct (Hbody _ _ _ _ Hinv Hh Hb) as (Hbar1 & _ & Ht1).
      inversion Hrun; subst. split; [|eapply trace_ok_raise; exact Ht1].
      exists []. now rewrite app_nil_r.
Qed.

(** Under tqdm the bar is drawn, empty first. *)
Lemma for_tqdm_chain {S} (R : option event -> event -> Prop) (Inv : S -> Prop)
    (h : gmap loc pyobj) (body : S -> M RNG S) :
  (forall p e, R None e -> R p e) ->
  (forall s w r w', Inv s -> heap w = h -> body s w = (r, w') ->
     tqdm_bar w' = tqdm_bar w /\ (forall s', r = Ok s' -> Inv s') /\ trace_ok R 1 w r w') ->
  forall n s w r w', Inv s -> heap w = h -> for_tqdm n body s w = (r, w') ->
     (exists ups, tqdm_bar w' = tqdm_bar w ++ (0%nat, n) :: ups) /\ trace_ok R n w r w'.
Proof.
  intros HR Hbody n s w r w' Hinv Hh Hrun. unfold for_tqdm, bind, tqdm_update in Hrun.
  destruct (for_tqdm_from_chain R Inv h body HR Hbody _ _ _ _ _ _ _ Hinv
              (Hh : heap (World _ _ _ _) = h) Hrun)
    as ((ups & Hups) & Ht).
  split.
  - exists ups. cbn [tqdm_bar] in Hups. rewrite Hups, <- app_assoc. reflexivity.
  - eapply trace_ok_bar; exact Ht.
Qed.

End LogFacts.

(** ** The trials of the tutorials' [calc_ari] *)

Section TutorialTrial.
Context {RNG : Type} (L : libraries RNG).

Lemma eqb_unrecognized (m : string) :
  ~ recognized m ->
  String.eqb m "ase" = false /\ String.eqb m "lse" = false /\ String.eqb m "sklearn" = false.
Proof.
  intros H. unfold recognized in H. repeat split; apply String.eqb_neq; tauto.
Qed.

Lemma recognized_dec (m : string) : recognized m \/ ~ recognized m.
Proof.
  unfold recognized.
  destruct (String.eqb_spec m "ase"); [tauto|].
  destruct (String.eqb_spec m "lse"); [tauto|].
  destruct (String.eqb_spec m "sklearn"); tauto.
Qed.

Lemma tutorial_trial_protocol (kn_graph : loc) (m : string) (labels_true : loc)
    (cov_type : string) (l : locals) (w : world RNG) (r : result locals) (w' : world RNG) :
  locals_ok m l ->
  Tutorial.trial L kn_graph m labels_true cov_type l w = (r, w') ->
  tqdm_bar w' = tqdm_bar w /\
  (forall l', r = Ok l' -> locals_ok m l') /\
  trace_ok (step_ok L m (fun g => heap w !! kn_graph = Some (PyArray g))
                        (fun lt => heap w !! labels_true = Some (PyList lt))
                        (fun _ => False)) 1 w r w'.
Proof.
  intros Hok Hrun.
  destruct (recognized_dec m) as [Hm | Hm].
  - unfold Tutorial.trial, choose_embedding, concatenate_if_ase_or_lse in Hrun.
    unfold ase_fit_transform, lse_fit_transform, sklearn_spectral_embedding,
      gm_fit_predict, ari_score, load_array, load_list, draw, log in Hrun.
    destruct Hm as [Hm | [Hm | Hm]]; subst m; cbn [String.eqb Ascii.eqb Bool.eqb orb] in Hrun.
    all: run_in Hrun.
    all: inversion Hrun; subst; clear Hrun; cbn [tqdm_bar heap calls].
    all: (split; [reflexivity|]); (split; [intros; left; unfold recognized; tauto|]).
    all: try (exists []; split; [apply steps_refl | split; [exact I | discriminate]]).
    all: rewrite <- ?app_assoc; cbn [app].
    all: eexists; (split; [split; [reflexivity|reflexivity]|]).
    all: (split; [chain_tac | first [discriminate | reflexivity]]).
  - destruct Hok as [Hok | Hx]; [contradiction|].
    destruct (eqb_unrecognized m Hm) as (Ea & El & Es).
    unfold Tutorial.trial, choose_embedding, concatenate_if_ase_or_lse in Hrun.
    rewrite Ea, El, Es in Hrun. cbn [orb] in Hrun.
    unfold bind, ret in Hrun. cbn beta iota in Hrun. rewrite Hx in Hrun.
    unfold local, raise in Hrun. inversion Hrun; subst.
    split; [reflexivity|]. split; [discriminate|].
    exists []. split; [apply steps_refl | split; [exact I | discriminate]].
Qed.

End TutorialTrial.

Section CalcAriLogs.
Context {RNG : Type} (L : libraries RNG).

(** What a run of the tutorials' [calc_ari] calls, whatever it returns. *)
Lemma tutorial_calc_ari_protocol (kn_graph : loc) (n_sims : Z) (m : string)
    (labels_true : loc) (cov_type : string)
    (w : world RNG) (r : result DataFrame) (w' : world RNG) :
  Tutorial.calc_ari L kn_graph n_sims m labels_true cov_type w = (r, w') ->
  tqdm_bar w' = tqdm_bar w /\
  trace_ok (step_ok L m (fun g => heap w !! kn_graph = Some (PyArray g))
                        (fun lt => heap w !! labels_true = Some (PyList lt))
                        (fun _ => False)) (Z.to_nat n_sims) w r w'.
Proof.
  intros Hrun. unfold Tutorial.calc_ari in Hrun. unfold bind at 1 in Hrun.
  destruct (for_range _ _ _ w) as [r1 w1] eqn:Hloop.
  assert (H : tqdm_bar w1 = tqdm_bar w /\
              trace_ok (step_ok L m (fun g => heap w !! kn_graph = Some (PyArray g))
                          (fun lt => heap w !! labels_true = Some (PyList lt))
                          (fun _ => False)) (Z.to_nat n_sims) w r1 w1).
  { refine (for_range_chain _ (locals_ok m) (heap w) _ _ _ _ _ _ _ _ _ eq_refl Hloop).
    - intros p e. apply step_ok_weaken.
    - intros s w0 r0 w0' Hinv Hh Hb. rewrite <- Hh.
      eapply tutorial_trial_protocol; eassumption.
    - right; reflexivity. }
  destruct H as (Hbar & evs & Hs & Hc & Hn).
  destruct r1 as [l1|e]; unfold ret in Hrun; inversion Hrun; subst.
  - split; [exact Hbar|]. exists evs. split; [exact Hs|]. split; [exact Hc|].
    intros _ _. exact (Hn l1 eq_refl).
  - split; [exact Hbar|]. exists evs. split; [exact Hs|]. split; [exact Hc | discriminate].
Qed.

(** The graph construction of the block notebooks: its value and its
    calls depend on [n_verts] and [B] alone, and the generator and the
    heap are left as they were. *)
Lemma block_model_graph_run (n_verts : Z) (B : ndarray) (w : world RNG) :
  block_model_graph L n_verts B w =
  (block_model_graph_value L n_verts B,
   World (heap w) (rng w) (calls w ++ block_model_graph_calls L n_verts B) (tqdm_bar w)).
Proof.
  unfold block_model_graph, block_model_graph_value, block_model_graph_calls.
  unfold bind, lift, svd, kneighbors, log, ret, rbind.
  destruct w as [h g c b]. cbn [heap rng calls tqdm_bar].
  destruct (prob_matrix n_verts B) as [P|e]; [|now rewrite app_nil_r].
  destruct (np_linalg_svd L P) as [USV|e]; [|reflexivity].
  destruct (latent_positions L n_verts _ _ _) as [lat|e]; [|reflexivity].
  destruct (int_sqrt n_verts) as [k|e]; [|reflexivity].
  cbn [heap rng calls tqdm_bar]. rewrite <- app_assoc. cbn [app].
  destruct (kneighbors_graph L lat k); reflexivity.
Qed.

End CalcAriLogs.

Section RegeneratingTrial.
Context {RNG : Type} (L : libraries RNG).

Lemma chain_In (R : option event -> event -> Prop) (evs : list event) :
  (forall p e, In e evs -> R p e) -> forall p, chain R p evs.
Proof.
  induction evs as [|e evs IH]; simpl; intros H p; [exact I|].
  split; [apply H; now left | apply IH; intros; apply H; now right].
Qed.

Lemma block_model_graph_calls_kind (n_verts : Z) (B : ndarray) (e : event) :
  In e (block_model_graph_calls L n_verts B) ->
  (exists P out, e = Call_svd P out) \/ (exists X k out, e = Call_kneighbors_graph X k out).
Proof.
  unfold block_model_graph_calls.
  destruct (prob_matrix n_verts B) as [P|]; [|intros []].
  intros [<- | Hin]; [left; eauto|].
  destruct (np_linalg_svd L P) as [USV|]; [|destruct Hin].
  destruct (latent_positions L n_verts _ _ _) as [lat|]; [|destruct Hin].
  destruct (int_sqrt n_verts) as [k|]; [|destruct Hin].
  destruct Hin as [<- | []]. right; eauto.
Qed.

Lemma block_model_graph_calls_build (n : Z) (b : ndarray) :
  clustered_matrices (block_model_graph_calls L n b) = [] /\
  embedded_graphs (block_model_graph_calls L n b) = [] /\
  scores (block_model_graph_calls L n b) = [].
Proof.
  unfold block_model_graph_calls.
  destruct (prob_matrix n b); [|repeat split; reflexivity].
  destruct (np_linalg_svd L _); [|repeat split; reflexivity].
  destruct (latent_positions L n _ _ _); [|repeat split; reflexivity].
  destruct (int_sqrt n); repeat split; reflexivity.
Qed.

Lemma regenerating_trial_protocol (n_verts : Z) (B : loc) (m : string) (labels_true : loc)
    (l : locals) (w : world RNG) (r : result locals) (w' : world RNG) :
  locals_ok m l ->
  Regenerating.trial L n_verts B m labels_true l w = (r, w') ->
  tqdm_bar w' = tqdm_bar w /\
  (forall l', r = Ok l' -> locals_ok m l') /\
  trace_ok (step_ok L m
              (fun g => exists b, heap w !! B = Some (PyArray b) /\
                                  block_model_graph_value L n_verts b = Ok g)
              (fun lt => heap w !! labels_true = Some (PyList lt))
              (fun e => exists b, heap w !! B = Some (PyArray b) /\
                                  In e (block_model_graph_calls L n_verts b))) 1 w r w'.
Proof.
  intros Hok Hrun. unfold Regenerating.trial in Hrun.
  unfold bind at 1 in Hrun. unfold load_array at 1 in Hrun.
  destruct (heap w !! B) as [[b|xs]|] eqn:HB.
  2,3: inversion Hrun; subst; (split; [reflexivity|]); (split; [discriminate|]);
       exists []; (split; [apply steps_refl | split; [exact I | discriminate]]).
  unfold bind at 1 in Hrun. rewrite block_model_graph_run in Hrun.
  assert (Hpre : chain (step_ok L m
             (fun g => exists b0, Some (PyArray b) = Some (PyArray b0) /\
                                 block_model_graph_value L n_verts b0 = Ok g)
             (fun lt => heap w !! labels_true = Some (PyList lt))
             (fun e => exists b0, Some (PyArray b) = Some (PyArray b0) /\
                                 In e (block_model_graph_calls L n_verts b0))) None
             (block_model_graph_calls L n_verts b)).
  { apply chain_In. intros p e0 Hin.
    destruct (block_model_graph_calls_kind _ _ _ Hin) as [(? & ? & ->) | (? & ? & ? & ->)];
      simpl; eauto. }
  destruct (block_model_graph_calls_build n_verts b) as (Hcl & _ & _).
  destruct (block_model_graph_value L n_verts b) as [g|e] eqn:Hg.
  2: { inversion Hrun; subst. split; [reflexivity|]. split; [discriminate|].
       eexists. split; [split; reflexivity|]. split; [exact Hpre | discriminate]. }
  destruct (recognized_dec m) as [Hm | Hm].
  - unfold choose_embedding, concatenate_if_ase_or_lse in Hrun.
    unfold ase_fit_transform, lse_fit_transform, sklearn_spectral_embedding,
      gm_ic_fit_predict, ari_score, load_array, load_list, draw, log in Hrun.
    destruct Hm as [Hm | [Hm | Hm]]; subst m; cbn [String.eqb Ascii.eqb Bool.eqb orb] in Hrun.
    all: run_in Hrun.
    all: inversion Hrun; subst; clear Hrun; cbn [tqdm_bar heap calls].
    all: (split; [reflexivity|]); (split; [intros; left; unfold recognized; tauto|]).
    all: rewrite <- ?app_assoc; cbn [app].
    all: eexists; (split; [split; [reflexivity|reflexivity]|]).
    all: (split; [|first [discriminate
                         | intros _ _; rewrite clustered_matrices_app, Hcl; reflexivity]]).
    all: (apply chain_app; [intros ? ?; apply step_ok_weaken | exact Hpre |]).
    all: chain_tac.
    all: eexists; (split; [eexists; split; [reflexivity | eassumption]|]); embedded_tac.
  - destruct Hok as [Hok | Hx]; [contradiction|].
    destruct (eqb_unrecognized m Hm) as (Ea & El & Es).
    unfold choose_embedding, concatenate_if_ase_or_lse in Hrun.
    rewrite Ea, El, Es in Hrun. cbn [orb] in Hrun.
    unfold bind, ret in Hrun. cbn beta iota in Hrun. rewrite Hx in Hrun.
    unfold local, raise in Hrun. inversion Hrun; subst.
    split; [reflexivity|]. split; [discriminate|].
    eexists. split; [split; reflexivity|]. split; [exact Hpre | discriminate].
Qed.

(** What a run of the regenerating [calc_ari] calls, whatever it returns. *)
Lemma regenerating_calc_ari_protocol (n_verts n_sims : Z) (B : loc) (m : string)
    (labels_true : loc) (w : world RNG) (r : result DataFrame) (w' : world RNG) :
  Regenerating.calc_ari L n_verts n_sims B m labels_true w = (r, w') ->
  (exists ups, tqdm_bar w' = tqdm_bar w ++ (0%nat, Z.to_nat n_sims) :: ups) /\
  trace_ok (step_ok L m
              (fun g => exists b, heap w !! B = Some (PyArray b) /\
                                  block_model_graph_value L n_verts b = Ok g)
              (fun lt => heap w !! labels_true = Some (PyList lt))
              (fun e => exists b, heap w !! B = Some (PyArray b) /\
                                  In e (block_model_graph_calls L n_verts b)))
           (Z.to_nat n_sims) w r w'.
Proof.
  intros Hrun. unfold Regenerating.calc_ari in Hrun. unfold bind at 1 in Hrun.
  destruct (for_tqdm _ _ _ w) as [r1 w1] eqn:Hloop.
  assert (H : (exists ups, tqdm_bar w1 = tqdm_bar w ++ (0%nat, Z.to_nat n_sims) :: ups) /\
    trace_ok (step_ok L m
              (fun g => exists b, heap w !! B = Some (PyArray b) /\
                                  block_model_graph_value L n_verts b = Ok g)
              (fun lt => heap w !! labels_true = Some (PyList lt))
              (fun e => exists b, heap w !! B = Some (PyArray b) /\
                                  In e (block_model_graph_calls L n_verts b)))
           (Z.to_nat n_sims) w r1 w1).
  { refine (for_tqdm_chain _ (locals_ok m) (heap w) _ _ _ _ _ _ _ _ _ eq_refl Hloop).
    - intros p e. apply step_ok_weaken.
    - intros s w0 r0 w0' Hinv Hh Hb. rewrite <- Hh.
      eapply regenerating_trial_protocol; eassumption.
    - right; reflexivity. }
  destruct H as (Hbar & evs & Hs & Hc & Hn).
  destruct r1 as [l1|e]; unfold ret in Hrun; inversion Hrun; subst.
  - split; [exact Hbar|]. exists evs. split; [exact Hs|]. split; [exact Hc|].
    intros _ _. exact (Hn l1 eq_refl).
  - split; [exact Hbar|]. exists evs. split; [exact Hs|]. split; [exact Hc | discriminate].
Qed.

End RegeneratingTrial.

(** ** The coordinate matrix *)
Section LogClaims.
Context {RNG : Type} (L : libraries RNG).

Lemma concatenate_axis1_ncols (a b c : ndarray) :
  concatenate_axis1 a b = Ok c -> ncols c = (ncols a + ncols b)%nat.
Proof.
  unfold concatenate_axis1. destruct (nrows a =? nrows b)%nat; [|discriminate].
  now intros [= <-].
Qed.

Lemma concatenate_axis1_nrows (a b : ndarray) :
  nrows a = nrows b -> exists c, concatenate_axis1 a b = Ok c /\ nrows c = nrows a.
Proof.
  intros H. unfold concatenate_axis1. rewrite H, Nat.eqb_refl. eauto.
Qed.

(** [np.concatenate((a, b), axis=1)] puts the rows of [b] after the rows
    of [a]. *)
Lemma concatenate_axis1_side_by_side (a b c : ndarray) :
  concatenate_axis1 a b = Ok c -> side_by_side a b c.
Proof.
  unfold concatenate_axis1. destruct (nrows a =? nrows b)%nat; [|discriminate].
  intros [= <-]. unfold side_by_side. cbn [shape data].
  split; [reflexivity|]. split; [apply length_zip_with|].
  intros i ra rb Ha Hb. rewrite lookup_zip_with, Ha. cbn. now rewrite Hb.
Qed.

Lemma side_by_side_columns (A B X : ndarray) (ca cb : nat) :
  well_shaped A -> well_shaped B -> ncols A = ca -> ncols B = cb ->
  side_by_side A B X -> has_columns (ca + cb) X.
Proof.
  intros [_ WA] [_ WB] Ha Hb (Hs & Hl & Hrows). unfold has_columns, ncols. rewrite Hs.
  cbn [snd]. split; [now rewrite Ha, Hb|].
  apply Forall_lookup. intros i row Hi.
  assert (Hlt : (i < length (data X))%nat) by (eapply lookup_lt_Some; eassumption).
  destruct (lookup_lt_is_Some_2 (data A) i ltac:(lia)) as [ra Hra].
  destruct (lookup_lt_is_Some_2 (data B) i ltac:(lia)) as [rb Hrb].
  rewrite (Hrows i ra rb Hra Hrb) in Hi. injection Hi as <-.
  rewrite length_app.
  rewrite Forall_lookup in WA, WB.
  rewrite (WA i ra Hra), (WB i rb Hrb). now rewrite Ha, Hb.
Qed.

Lemma embedded_coordinates (m : string) (G : ndarray -> Prop) (g : ndarray)
    (prev : option event) (X : ndarray) :
  G g -> embedded L m g prev X -> coordinates_of_call m G prev X.
Proof.
  intros HG [(-> & [A B] & s & -> & _ & Hc) |
             [(-> & [A B] & s & -> & _ & Hc) | (-> & s & -> & _)]];
    exists g; (split; [exact HG|]).
  - left. split; [reflexivity|]. exists A, B. split; [reflexivity|].
    now apply concatenate_axis1_side_by_side.
  - right. left. split; [reflexivity|]. exists A, B. split; [reflexivity|].
    now apply concatenate_axis1_side_by_side.
  - right. right. split; reflexivity.
Qed.

Lemma step_ok_clustered (m : string) (G : ndarray -> Prop) (Lb : list Z -> Prop)
    (Pre : event -> Prop) (p : option event) (e : event) :
  step_ok L m G Lb Pre p e -> clustered_step m G p e.
Proof.
  destruct e; simpl; try tauto.
  - intros (_ & g & HG & He). eapply embedded_coordinates; eauto.
  - intros (_ & _ & _ & g & HG & He). eapply embedded_coordinates; eauto.
Qed.

Lemma embedded_columns (m : string) (g : ndarray) (prev : option event) (X : ndarray) :
  embedding_shapes L -> embedded L m g prev X ->
  (m = "ase" \/ m = "lse" -> has_columns 4 X) /\ (m = "sklearn" -> has_columns 2 X).
Proof.
  intros [Ha Hl Hs]
    [(-> & XY & s & _ & Hr & Hc) | [(-> & XY & s & _ & Hr & Hc) | (-> & s & _ & Hr)]].
  - split; [intros _ | discriminate].
    destruct (Ha _ _ _ _ Hr) as (W1 & W2 & C1 & C2).
    apply concatenate_axis1_side_by_side in Hc.
    exact (side_by_side_columns _ _ _ 2 2 W1 W2 C1 C2 Hc).
  - split; [intros _ | discriminate].
    destruct (Hl _ _ _ _ Hr) as (W1 & W2 & C1 & C2).
    apply concatenate_axis1_side_by_side in Hc.
    exact (side_by_side_columns _ _ _ 2 2 W1 W2 C1 C2 Hc).
  - split; [intros [H|H]; discriminate H | intros _].
    destruct (Hs _ _ _ _ Hr) as [[_ W] C]. split; [exact C|].
    eapply Forall_impl; [exact W|]. intros row Hrow. cbn beta in Hrow. now rewrite Hrow, C.
Qed.

Lemma Forall_clustered_matrices (Q : ndarray -> Prop) (evs : list event) :
  Forall (fun e => match e with
                   | Call_GaussianMixture _ _ X _ => Q X
                   | Call_GaussianMixtureIC _ _ _ X _ => Q X
                   | _ => True
                   end) evs ->
  Forall Q (clustered_matrices evs).
Proof.
  induction 1 as [|e evs He _ IH]; simpl; [constructor|].
  destruct e; simpl; try exact IH; now constructor.
Qed.

Lemma step_ok_columns (m : string) (G : ndarray -> Prop) (Lb : list Z -> Prop)
    (Pre : event -> Prop) (p : option event) (e : event) :
  embedding_shapes L ->
  step_ok L m G Lb Pre p e ->
  match e with
  | Call_GaussianMixture _ _ X _ =>
      (m = "ase" \/ m = "lse" -> has_columns 4 X) /\ (m = "sklearn" -> has_columns 2 X)
  | Call_GaussianMixtureIC _ _ _ X _ =>
      (m = "ase" \/ m = "lse" -> has_columns 4 X) /\ (m = "sklearn" -> has_columns 2 X)
  | _ => True
  end.
Proof.
  intros Hcol. destruct e; simpl; try tauto.
  - intros (_ & g & _ & He). eapply embedded_columns; eauto.
  - intros (_ & _ & _ & g & _ & He). eapply embedded_columns; eauto.
Qed.

End LogClaims.

(** ** Graph construction *)
Section GraphClaims.
Context {RNG : Type} (L : libraries RNG).

(** [round_sqrt] is the integer nearest to the square root. *)
Lemma round_sqrt_nearest (n : Z) :
  0 <= n ->
  let k := round_sqrt n in
  4 * n < (2 * k + 1) * (2 * k + 1) /\ (k = 0 \/ (2 * k - 1) * (2 * k - 1) <= 4 * n).
Proof.
  intros Hn k. subst k. unfold round_sqrt.
  pose proof (Z.sqrt_spec (4 * n) ltac:(lia)) as Hs.
  pose proof (Z.sqrt_nonneg (4 * n)) as Hs0.
  set (s := Z.sqrt (4 * n)) in *. unfold Z.succ in Hs.
  pose proof (Z.div_mod (s + 1) 2 ltac:(lia)) as Hd.
  pose proof (Z.mod_pos_bound (s + 1) 2 ltac:(lia)) as Hm.
  set (k := (s + 1) / 2) in *. split; [nia|].
  destruct (Z.eq_dec k 0); [now left | right; nia].
Qed.

Lemma int_sqrt_Ok (n k : Z) :
  int_sqrt n = Ok k -> k = Z.sqrt n /\ k * k <= n < (k + 1) * (k + 1).
Proof.
  unfold int_sqrt. destruct (Z.ltb_spec n 0); [discriminate|].
  intros [= <-]. split; [reflexivity|].
  pose proof (Z.sqrt_spec n ltac:(lia)) as Hs.
  unfold Z.succ in Hs. exact Hs.
Qed.

Lemma block_model_graph_neighbor_counts (n : Z) (B : ndarray) :
  Forall (fun k => k = Z.sqrt n /\ k * k <= n < (k + 1) * (k + 1))
         (neighbor_counts (block_model_graph_calls L n B)) /\
  (forall g, block_model_graph_value L n B = Ok g ->
             neighbor_counts (block_model_graph_calls L n B) = [Z.sqrt n]).
Proof.
  unfold block_model_graph_calls, block_model_graph_value, rbind.
  destruct (prob_matrix n B) as [P|]; [|split; [constructor | discriminate]].
  destruct (np_linalg_svd L P) as [USV|]; [|split; [constructor | discriminate]].
  destruct (latent_positions L n _ _ _) as [lat|]; [|split; [constructor | discriminate]].
  destruct (int_sqrt n) as [k|] eqn:Hk; [|split; [constructor | discriminate]].
  apply int_sqrt_Ok in Hk. simpl. split.
  - constructor; [exact Hk | constructor].
  - intros _ _. now destruct Hk as [-> _].
Qed.

Lemma neighbor_counts_app (a b : list event) :
  neighbor_counts (a ++ b) = neighbor_counts a ++ neighbor_counts b.
Proof. unfold neighbor_counts. apply flat_map_app. Qed.

Lemma step_ok_neighbor_count (m : string) (G : ndarray -> Prop) (Lb : list Z -> Prop)
    (n : Z) (bs : ndarray -> Prop) (p : option event) (e : event) :
  step_ok L m G Lb (fun e => exists b, bs b /\ In e (block_model_graph_calls L n b)) p e ->
  Forall (fun k => k = Z.sqrt n /\ k * k <= n < (k + 1) * (k + 1)) (neighbor_counts [e]).
Proof.
  destruct e; simpl; intros H; try (now constructor).
  destruct H as (b & _ & Hin).
  destruct (block_model_graph_neighbor_counts n b) as [Hall _].
  rewrite Forall_forall in Hall. constructor; [|constructor]. apply Hall.
  apply list_elem_of_In. unfold neighbor_counts. apply in_flat_map.
  eexists. split; [exact Hin|]. simpl. now left.
Qed.

(** C2, as amended: in both scenario constructions, and in every trial of
    the regenerating [calc_ari], the neighbor count handed to
    [kneighbors_graph] is the integer square root of the sample count,
    [floor(sqrt(n))]; a construction that returns a graph has made that
    one call. *)
Theorem neighbor_count_floor_sqrt (n n_sims : Z) (B : ndarray) (mean_1 mean_2 : list Q)
    (Bl labels_true : loc) (m : string) (w : world RNG) :
  let floor_sqrt k := k = Z.sqrt n /\ k * k <= n < (k + 1) * (k + 1) in
  (exists evs,
     calls (snd (block_model_graph L n B w)) = calls w ++ evs /\
     Forall floor_sqrt (neighbor_counts evs) /\
     (forall g, fst (block_model_graph L n B w) = Ok g -> neighbor_counts evs = [Z.sqrt n])) /\
  (exists evs,
     calls (snd (gaussian_graph L n mean_1 mean_2 w)) = calls w ++ evs /\
     Forall floor_sqrt (neighbor_counts evs) /\
     (forall g, fst (gaussian_graph L n mean_1 mean_2 w) = Ok g ->
                neighbor_counts evs = [Z.sqrt n])) /\
  (exists evs,
     calls (snd (Regenerating.calc_ari L n n_sims Bl m labels_true w)) = calls w ++ evs /\
     Forall floor_sqrt (neighbor_counts evs)).
Proof.
  intros floor_sqrt. split; [|split].
  - rewrite block_model_graph_run. cbn [fst snd calls].
    exists (block_model_graph_calls L n B). split; [reflexivity|].
    apply block_model_graph_neighbor_counts.
  - destruct (gaussian_graph L n mean_1 mean_2 w) as [r w'] eqn:Hrun.
    unfold gaussian_graph, multivariate_normal, kneighbors, draw, log in Hrun.
    run_in Hrun.
    all: inversion Hrun; subst; clear Hrun; cbn [fst snd calls].
    all: rewrite <- ?app_assoc; cbn [app].
    all: eexists; (split; [reflexivity|]); cbn [neighbor_counts flat_map app].
    all: split; [|try discriminate].
    all: try constructor; try constructor.
    all: try (apply int_sqrt_Ok; assumption).
    all: intros _ _; apply int_sqrt_Ok in Eres0; now destruct Eres0 as [-> _].
  - destruct (Regenerating.calc_ari L n n_sims Bl m labels_true w) as [r w'] eqn:Hrun.
    destruct (regenerating_calc_ari_protocol L _ _ _ _ _ _ _ _ Hrun)
      as (_ & evs & [_ Hc] & Hch & Hcount).
    exists evs. split; [exact Hc|]. clear Hc Hrun Hcount.
    revert Hch. generalize (@None event). induction evs as [|e evs IH]; intros p Hch.
    + constructor.
    + destruct Hch as [He Hch].
      change (e :: evs) with ([e] ++ evs). rewrite neighbor_counts_app.
      apply Forall_app. split; [|now apply (IH (Some e))].
      eapply step_ok_neighbor_count. exact He.
Qed.

(** C2, as stated, fails on the 250 vectors of the Gaussian tutorial's
    first case: the graph is built with 15 neighbors, and the rounded
    square root of 250 is 16. *)
Lemma neighbor_count_250_not_rounded :
  let evs := calls (snd (gaussian_graph Toy.lib 250 [-0.33; -0.94]%Q [-0.94; 0.33]%Q Toy.w0)) in
  neighbor_counts evs = [15] /\
  round_sqrt 250 = 16 /\
  neighbor_counts evs <> [round_sqrt 250].
Proof.
  cbv zeta. split; [vm_compute; reflexivity|].
  split; [vm_compute; reflexivity | vm_compute; discriminate].
Qed.

End GraphClaims.

(** ** The graph of the regenerating notebook *)
Section RegeneratedGraph.
Context {RNG : Type} (L : libraries RNG).

Lemma embedded_at_some_state (m : string) (g : ndarray) (p : option event) (X : ndarray) :
  embedded L m g p X -> exists s, fst (coordinates L m g s) = Ok X.
Proof.
  intros [(-> & XY & s & _ & Hr & Hc) | [(-> & XY & s & _ & Hr & Hc) | (-> & s & _ & Hr)]];
    exists s; unfold coordinates; cbn [String.eqb Ascii.eqb Bool.eqb].
  - destruct (AdjacencySpectralEmbed L 2 g s) as [[XY'|e] s']; cbn [fst] in Hr |- *;
      [|discriminate Hr]. injection Hr as ->. exact Hc.
  - destruct (LaplacianSpectralEmbed L 2 g s) as [[XY'|e] s']; cbn [fst] in Hr |- *;
      [|discriminate Hr]. injection Hr as ->. exact Hc.
  - exact Hr.
Qed.

Lemma step_ok_call_ok (m : string) (n : Z) (b : ndarray) (h : gmap loc pyobj) (B : loc)
    (Lb : list Z -> Prop) (p : option event) (e : event) :
  h !! B = Some (PyArray b) ->
  step_ok L m
    (fun g => exists b, h !! B = Some (PyArray b) /\ block_model_graph_value L n b = Ok g)
    Lb
    (fun e => exists b, h !! B = Some (PyArray b) /\ In e (block_model_graph_calls L n b))
    p e ->
  call_ok L m n b e.
Proof.
  intros HB. destruct e; simpl; try tauto.
  - intros (b' & Hb' & Hin). congruence.
  - intros (b' & Hb' & Hin). congruence.
  - intros (_ & _ & b' & Hb' & Hv). congruence.
  - intros (_ & _ & b' & Hb' & Hv). congruence.
  - intros (_ & _ & b' & Hb' & Hv). congruence.
  - intros (_ & g & (b' & Hb' & Hv) & He). exists g, p. split; [congruence | exact He].
  - intros (_ & _ & _ & g & (b' & Hb' & Hv) & He). exists g, p. split; [congruence | exact He].
Qed.

Lemma regenerating_calls_ok (n_verts n_sims : Z) (B : loc) (m : string) (labels_true : loc)
    (b : ndarray) (w : world RNG) :
  heap w !! B = Some (PyArray b) ->
  exists evs,
    calls (snd (Regenerating.calc_ari L n_verts n_sims B m labels_true w)) = calls w ++ evs /\
    Forall (call_ok L m n_verts b) evs.
Proof.
  intros HB.
  destruct (Regenerating.calc_ari L n_verts n_sims B m labels_true w) as [r w'] eqn:Hrun.
  destruct (regenerating_calc_ari_protocol L _ _ _ _ _ _ _ _ Hrun) as (_ & evs & [_ Hc] & Hch & Hcount).
  exists evs. split; [exact Hc|].
  eapply chain_Forall; [|exact Hch]. intros p e. now apply step_ok_call_ok.
Qed.

Lemma call_ok_graphs (m : string) (n : Z) (b : ndarray) (evs : list event) :
  Forall (call_ok L m n b) evs ->
  Forall (fun g => block_model_graph_value L n b = Ok g) (embedded_graphs evs).
Proof.
  induction 1 as [|e evs He _ IH]; simpl; [constructor|].
  destruct e; simpl in *; try exact IH; now constructor.
Qed.

Lemma call_ok_construction (m : string) (n : Z) (b : ndarray) (evs : list event) :
  Forall (call_ok L m n b) evs ->
  Forall (fun e => In e (block_model_graph_calls L n b)) (construction_calls evs).
Proof.
  induction 1 as [|e evs He _ IH]; simpl; [constructor|].
  destruct e; simpl in *; try exact IH; now constructor.
Qed.

Lemma call_ok_clustered (m : string) (n : Z) (b : ndarray) (evs : list event) :
  Forall (call_ok L m n b) evs ->
  Forall (fun X => exists g p, block_model_graph_value L n b = Ok g /\ embedded L m g p X)
         (clustered_matrices evs).
Proof.
  induction 1 as [|e evs He _ IH]; simpl; [constructor|].
  destruct e; simpl in *; try exact IH; now constructor.
Qed.

End RegeneratedGraph.

Section RegeneratedGraphClaim.
Context {RNG : Type} (L : libraries RNG).

(** C9, as amended: in the notebook that rebuilds the graph in every
    trial, the graph and the calls that build it are functions of
    [n_verts] and the contents of [B] alone, and the construction leaves
    the generator untouched; so every trial of a call, and of any other
    call on equal parameters, embeds that same graph after the same SVD
    and k-neighbors calls. What a trial clusters is the coordinate matrix
    of that graph at the state of the generator the trial finds: the
    embedding draws from the generator as the mixture model does. *)
Theorem regenerated_graph_deterministic (n_verts n_sims1 n_sims2 : Z)
    (B1 B2 labels1 labels2 : loc) (m1 m2 : string) (b : ndarray) (w1 w2 : world RNG) :
  heap w1 !! B1 = Some (PyArray b) ->
  heap w2 !! B2 = Some (PyArray b) ->
  (forall w, block_model_graph L n_verts b w =
             (block_model_graph_value L n_verts b,
              World (heap w) (rng w) (calls w ++ block_model_graph_calls L n_verts b)
                    (tqdm_bar w))) /\
  exists evs1 evs2,
    calls (snd (Regenerating.calc_ari L n_verts n_sims1 B1 m1 labels1 w1)) = calls w1 ++ evs1 /\
    calls (snd (Regenerating.calc_ari L n_verts n_sims2 B2 m2 labels2 w2)) = calls w2 ++ evs2 /\
    Forall (fun g => block_model_graph_value L n_verts b = Ok g)
           (embedded_graphs evs1 ++ embedded_graphs evs2) /\
    Forall (fun e => In e (block_model_graph_calls L n_verts b))
           (construction_calls evs1 ++ construction_calls evs2) /\
    Forall (fun X => exists g s, block_model_graph_value L n_verts b = Ok g /\
                                 fst (coordinates L m1 g s) = Ok X)
           (clustered_matrices evs1).
Proof.
  intros HB1 HB2. split; [intros w; apply block_model_graph_run|].
  destruct (regenerating_calls_ok L n_verts n_sims1 B1 m1 labels1 b w1 HB1) as (evs1 & Hc1 & Hok1).
  destruct (regenerating_calls_ok L n_verts n_sims2 B2 m2 labels2 b w2 HB2) as (evs2 & Hc2 & Hok2).
  exists evs1, evs2. split; [exact Hc1|]. split; [exact Hc2|]. split; [|split].
  - apply Forall_app. split; eapply call_ok_graphs; eassumption.
  - apply Forall_app. split; eapply call_ok_construction; eassumption.
  - eapply Forall_impl; [exact (call_ok_clustered L _ _ _ _ Hok1)|].
    intros X (g & p & Hg & He). destruct (embedded_at_some_state L _ _ _ _ He) as [s Hs].
    exists g, s. split; assumption.
Qed.

End RegeneratedGraphClaim.

(** ** Runs that return *)
Section Returns.
Context {RNG : Type} (L : libraries RNG).

Lemma scores_app (a b : list event) : scores (a ++ b) = scores a ++ scores b.
Proof. unfold scores. apply flat_map_app. Qed.

(** When the routines return on what it hands them, a trial of the
    tutorials' [calc_ari] returns, with one more row: the method and the
    score of its one scoring call. *)
Lemma tutorial_trial_returns (kn_graph : loc) (m : string) (labels_true : loc)
    (cov_type : string) (g : ndarray) (lt : list Z) (l : locals) (w : world RNG) :
  heap w !! kn_graph = Some (PyArray g) ->
  heap w !! labels_true = Some (PyList lt) ->
  returns_on L m (GaussianMixture L 2 cov_type) g lt ->
  exists l' w' s evs,
    Tutorial.trial L kn_graph m labels_true cov_type l w = (Ok l', w') /\
    steps w w' evs /\
    rows l' = rows l ++ [trial_record m s] /\
    scores evs = [s].
Proof.
  intros HG HL [Hco Hmix Hsc].
  destruct (Hco (rng w)) as (X & s1 & Ec).
  destruct (Hmix _ _ _ Ec) as (lab & s2 & Em).
  destruct (Hsc _ _ _ _ _ Ec Em) as (q & Eq_).
  unfold coordinates in Ec.
  unfold Tutorial.trial, choose_embedding, concatenate_if_ase_or_lse.
  unfold ase_fit_transform, lse_fit_transform, sklearn_spectral_embedding,
    gm_fit_predict, ari_score, load_array, load_list, draw, log.
  unfold local, bind, ret, raise, lift.
  destruct (String.eqb m "ase");
    [|destruct (String.eqb m "lse"); [|destruct (String.eqb m "sklearn"); [|discriminate Ec]]];
    cbn [orb].
  - rewrite HG. cbn.
    destruct (AdjacencySpectralEmbed L 2 g (rng w)) as [[XY|e] s0]; [|discriminate Ec].
    injection Ec as Ec <-. cbn. rewrite Ec. cbn. rewrite Em. cbn. rewrite HL. cbn. rewrite Eq_.
    do 4 eexists. split; [reflexivity|]. split; [|split].
    + split; [reflexivity|]. cbn. rewrite <- !app_assoc. reflexivity.
    + reflexivity.
    + reflexivity.
  - rewrite HG. cbn.
    destruct (LaplacianSpectralEmbed L 2 g (rng w)) as [[XY|e] s0]; [|discriminate Ec].
    injection Ec as Ec <-. cbn. rewrite Ec. cbn. rewrite Em. cbn. rewrite HL. cbn. rewrite Eq_.
    do 4 eexists. split; [reflexivity|]. split; [|split].
    + split; [reflexivity|]. cbn. rewrite <- !app_assoc. reflexivity.
    + reflexivity.
    + reflexivity.
  - rewrite HG. cbn. rewrite Ec. cbn. rewrite Em. cbn. rewrite HL. cbn. rewrite Eq_.
    do 4 eexists. split; [reflexivity|]. split; [|split].
    + split; [reflexivity|]. cbn. rewrite <- !app_assoc. reflexivity.
    + reflexivity.
    + reflexivity.
Qed.

(** A loop whose passes all return, each with one more row. *)
Section LoopReturns.
Context (m : string) (h : gmap loc pyobj) (body : locals -> M RNG locals).
Hypothesis body_returns : forall l w, heap w = h ->
  exists l' w' s evs,
    body l w = (Ok l', w') /\ steps w w' evs /\
    rows l' = rows l ++ [trial_record m s] /\ scores evs = [s].

Lemma for_range_returns (n : nat) (l : locals) (w : world RNG) :
  heap w = h ->
  exists l' w' evs,
    for_range n body l w = (Ok l', w') /\ steps w w' evs /\
    rows l' = rows l ++ map (trial_record m) (scores evs) /\
    length (scores evs) = n.
Proof.
  revert l w. induction n as [|n IH]; intros l w Hh.
  - exists l, w, []. simpl. split; [reflexivity|]. split; [apply steps_refl|].
    split; [now rewrite app_nil_r | reflexivity].
  - destruct (body_returns l w Hh) as (l1 & w1 & s & evs1 & Hb & Hs1 & Hr1 & Hsc1).
    assert (Hh1 : heap w1 = h) by (destruct Hs1; congruence).
    destruct (IH l1 w1 Hh1) as (l2 & w2 & evs2 & Hloop & Hs2 & Hr2 & Hsc2).
    exists l2, w2, (evs1 ++ evs2). simpl. unfold bind. rewrite Hb, Hloop.
    split; [reflexivity|]. split; [eapply steps_trans; eassumption|].
    rewrite scores_app, Hsc1, Hr2, Hr1, <- app_assoc, length_app, Hsc2.
    split; reflexivity.
Qed.

Lemma for_tqdm_from_returns (n done total : nat) (l : locals) (w : world RNG) :
  heap w = h ->
  exists l' w' evs,
    for_tqdm_from done n total body l w = (Ok l', w') /\ steps w w' evs /\
    rows l' = rows l ++ map (trial_record m) (scores evs) /\
    length (scores evs) = n.
Proof.
  revert done l w. induction n as [|n IH]; intros done l w Hh.
  - exists l, w, []. simpl. split; [reflexivity|]. split; [apply steps_refl|].
    split; [now rewrite app_nil_r | reflexivity].
  - destruct (body_returns l w Hh) as (l1 & w1 & s & evs1 & Hb & Hs1 & Hr1 & Hsc1).
    assert (Hh1 : heap w1 = h) by (destruct Hs1; congruence).
    destruct (IH (Datatypes.S done) l1
                 (World (heap w1) (rng w1) (calls w1)
                        (tqdm_bar w1 ++ [(Datatypes.S done, total)])) Hh1)
      as (l2 & w2 & evs2 & Hloop & Hs2 & Hr2 & Hsc2).
    exists l2, w2, (evs1 ++ evs2). simpl. unfold bind at 1. rewrite Hb.
    unfold bind, tqdm_update. rewrite Hloop.
    split; [reflexivity|]. split.
    { eapply steps_trans; [exact Hs1|]. destruct Hs2 as [A B]. split; [exact A | exact B]. }
    rewrite scores_app, Hsc1, Hr2, Hr1, <- app_assoc, length_app, Hsc2.
    split; reflexivity.
Qed.

Lemma for_tqdm_returns (n : nat) (l : locals) (w : world RNG) :
  heap w = h ->
  exists l' w' evs,
    for_tqdm n body l w = (Ok l', w') /\ steps w w' evs /\
    rows l' = rows l ++ map (trial_record m) (scores evs) /\
    length (scores evs) = n.
Proof.
  intros Hh. unfold for_tqdm, bind, tqdm_update.
  destruct (for_tqdm_from_returns n 0 n l
              (World (heap w) (rng w) (calls w) (tqdm_bar w ++ [(0%nat, n)])) Hh)
    as (l2 & w2 & evs2 & Hloop & [A B] & Hr2 & Hsc2).
  exists l2, w2, evs2. rewrite Hloop. split; [reflexivity|].
  split; [split; [exact A | exact B]|]. split; assumption.
Qed.

End LoopReturns.

(** A trial of the regenerating [calc_ari] returns too, when the graph
    can be built. *)
Lemma regenerating_trial_returns (n_verts : Z) (B : loc) (m : string) (labels_true : loc)
    (b g : ndarray) (lt : list Z) (l : locals) (w : world RNG) :
  heap w !! B = Some (PyArray b) ->
  block_model_graph_value L n_verts b = Ok g ->
  heap w !! labels_true = Some (PyList lt) ->
  returns_on L m (GaussianMixtureIC L 2 2 "all") g lt ->
  exists l' w' s evs,
    Regenerating.trial L n_verts B m labels_true l w = (Ok l', w') /\
    steps w w' evs /\
    rows l' = rows l ++ [trial_record m s] /\
    scores evs = [s].
Proof.
  intros HB Hg HL [Hco Hmix Hsc].
  destruct (Hco (rng w)) as (X & s1 & Ec).
  destruct (Hmix _ _ _ Ec) as (lab & s2 & Em).
  destruct (Hsc _ _ _ _ _ Ec Em) as (q & Eq_).
  unfold coordinates in Ec.
  destruct (block_model_graph_calls_build L n_verts b) as (_ & _ & Hbm).
  unfold Regenerating.trial. unfold bind at 1. unfold load_array at 1. rewrite HB.
  unfold bind at 1. rewrite block_model_graph_run, Hg.
  unfold choose_embedding, concatenate_if_ase_or_lse.
  unfold ase_fit_transform, lse_fit_transform, sklearn_spectral_embedding,
    gm_ic_fit_predict, ari_score, load_array, load_list, draw, log.
  unfold local, bind, ret, raise, lift.
  destruct (String.eqb m "ase");
    [|destruct (String.eqb m "lse"); [|destruct (String.eqb m "sklearn"); [|discriminate Ec]]];
    cbn [orb].
  - cbn.
    destruct (AdjacencySpectralEmbed L 2 g (rng w)) as [[XY|e] s0]; [|discriminate Ec].
    injection Ec as Ec <-. cbn. rewrite Ec. cbn. rewrite Em. cbn. rewrite HL. cbn. rewrite Eq_.
    do 4 eexists. split; [reflexivity|]. split; [|split].
    + split; [reflexivity|]. cbn. rewrite <- !app_assoc. reflexivity.
    + reflexivity.
    + rewrite scores_app, Hbm. reflexivity.
  - cbn.
    destruct (LaplacianSpectralEmbed L 2 g (rng w)) as [[XY|e] s0]; [|discriminate Ec].
    injection Ec as Ec <-. cbn. rewrite Ec. cbn. rewrite Em. cbn. rewrite HL. cbn. rewrite Eq_.
    do 4 eexists. split; [reflexivity|]. split; [|split].
    + split; [reflexivity|]. cbn. rewrite <- !app_assoc. reflexivity.
    + reflexivity.
    + rewrite scores_app, Hbm. reflexivity.
  - cbn. rewrite Ec. cbn. rewrite Em. cbn. rewrite HL. cbn. rewrite Eq_.
    do 4 eexists. split; [reflexivity|]. split; [|split].
    + split; [reflexivity|]. cbn. rewrite <- !app_assoc. reflexivity.
    + reflexivity.
    + rewrite scores_app, Hbm. reflexivity.
Qed.

(** A call of the tutorials' [calc_ari] then returns the scores of its
    log. *)
Lemma tutorial_calc_ari_returns (kn_graph : loc) (n_sims : Z) (m : string)
    (labels_true : loc) (cov_type : string) (g : ndarray) (lt : list Z) (w : world RNG) :
  heap w !! kn_graph = Some (PyArray g) ->
  heap w !! labels_true = Some (PyList lt) ->
  returns_on L m (GaussianMixture L 2 cov_type) g lt ->
  exists w' evs,
    Tutorial.calc_ari L kn_graph n_sims m labels_true cov_type w
    = (Ok (map (trial_record m) (scores evs)), w') /\
    steps w w' evs /\ length (scores evs) = Z.to_nat n_sims.
Proof.
  intros HG HL Hc.
  destruct (for_range_returns m (heap w)
              (Tutorial.trial L kn_graph m labels_true cov_type)) with
    (n := Z.to_nat n_sims) (l := Locals [] None None) (w := w)
    as (l' & w' & evs & Hloop & Hs & Hrows & Hlen); [|reflexivity|].
  { intros l0 w0 Hh. apply tutorial_trial_returns with (g := g) (lt := lt);
      [now rewrite Hh | now rewrite Hh | exact Hc]. }
  exists w', evs. unfold Tutorial.calc_ari, bind. rewrite Hloop.
  unfold ret, pd_DataFrame. rewrite Hrows. cbn [rows app]. auto.
Qed.

Lemma regenerating_calc_ari_returns (n_verts n_sims : Z) (B : loc) (m : string)
    (labels_true : loc) (b g : ndarray) (lt : list Z) (w : world RNG) :
  heap w !! B = Some (PyArray b) ->
  block_model_graph_value L n_verts b = Ok g ->
  heap w !! labels_true = Some (PyList lt) ->
  returns_on L m (GaussianMixtureIC L 2 2 "all") g lt ->
  exists w' evs,
    Regenerating.calc_ari L n_verts n_sims B m labels_true w
    = (Ok (map (trial_record m) (scores evs)), w') /\
    steps w w' evs /\ length (scores evs) = Z.to_nat n_sims.
Proof.
  intros HB Hg HL Hc.
  destruct (for_tqdm_returns m (heap w)
              (Regenerating.trial L n_verts B m labels_true)) with
    (n := Z.to_nat n_sims) (l := Locals [] None None) (w := w)
    as (l' & w' & evs & Hloop & Hs & Hrows & Hlen); [|reflexivity|].
  { intros l0 w0 Hh. apply regenerating_trial_returns with (b := b) (g := g) (lt := lt);
      [now rewrite Hh | exact Hg | now rewrite Hh | exact Hc]. }
  exists w', evs. unfold Regenerating.calc_ari, bind. rewrite Hloop.
  unfold ret, pd_DataFrame. rewrite Hrows. cbn [rows app]. auto.
Qed.

(** C5: when the library routines return on what the trials hand them,
    [calc_ari] returns a frame of exactly [n_sims] rows (none for a count
    below one); the rows are, in the order of the scoring calls, the
    method name paired with the score of each call. The tutorials'
    version needs the graph and the labels it is handed, the regenerating
    version the block matrix, a graph that can be built from it, and the
    labels. *)
Theorem calc_ari_returns_records (kn_graph B labels_true : loc) (n_verts n_sims : Z)
    (m cov_type : string) (w : world RNG) :
  (forall g lt,
     heap w !! kn_graph = Some (PyArray g) ->
     heap w !! labels_true = Some (PyList lt) ->
     returns_on L m (GaussianMixture L 2 cov_type) g lt ->
     exists df w' evs,
       Tutorial.calc_ari L kn_graph n_sims m labels_true cov_type w = (Ok df, w') /\
       calls w' = calls w ++ evs /\
       length df = Z.to_nat n_sims /\
       df = map (fun s => {| test := m; ari := s |}) (scores evs)) /\
  (forall b g lt,
     heap w !! B = Some (PyArray b) ->
     block_model_graph_value L n_verts b = Ok g ->
     heap w !! labels_true = Some (PyList lt) ->
     returns_on L m (GaussianMixtureIC L 2 2 "all") g lt ->
     exists df w' evs,
       Regenerating.calc_ari L n_verts n_sims B m labels_true w = (Ok df, w') /\
       calls w' = calls w ++ evs /\
       length df = Z.to_nat n_sims /\
       df = map (fun s => {| test := m; ari := s |}) (scores evs)).
Proof.
  split.
  - intros g lt HG HL Hc.
    destruct (tutorial_calc_ari_returns _ n_sims _ _ cov_type _ _ _ HG HL Hc)
      as (w' & evs & Hrun & [_ Hcalls] & Hlen).
    eexists _, w', evs. split; [exact Hrun|]. split; [exact Hcalls|].
    split; [now rewrite length_map | reflexivity].
  - intros b g lt HB Hg HL Hc.
    destruct (regenerating_calc_ari_returns n_verts n_sims _ _ _ _ _ _ _ HB Hg HL Hc)
      as (w' & evs & Hrun & [_ Hcalls] & Hlen).
    eexists _, w', evs. split; [exact Hrun|]. split; [exact Hcalls|].
    split; [now rewrite length_map | reflexivity].
Qed.

(** C4: in every run of either [calc_ari], every matrix the mixture model
    is fitted on is what the embedding call made just before it returned
    from the graph of the run, embedded into two dimensions by the
    selected method's routine: for "ase" and "lse" the two returned
    matrices side by side, each row of the first followed by the same row
    of the second, and for "sklearn" the returned matrix itself. When the
    routines return, the call returns after one such fit per trial. *)
Theorem calc_ari_clusters_coordinates (kn_graph B labels_true : loc) (n_verts n_sims : Z)
    (m cov_type : string) (w : world RNG) :
  (exists evs,
     calls (snd (Tutorial.calc_ari L kn_graph n_sims m labels_true cov_type w))
     = calls w ++ evs /\
     chain (clustered_step m (fun g => heap w !! kn_graph = Some (PyArray g))) None evs /\
     (forall g lt,
        heap w !! kn_graph = Some (PyArray g) ->
        heap w !! labels_true = Some (PyList lt) ->
        returns_on L m (GaussianMixture L 2 cov_type) g lt ->
        (exists df,
           fst (Tutorial.calc_ari L kn_graph n_sims m labels_true cov_type w) = Ok df) /\
        length (clustered_matrices evs) = Z.to_nat n_sims)) /\
  (exists evs,
     calls (snd (Regenerating.calc_ari L n_verts n_sims B m labels_true w))
     = calls w ++ evs /\
     chain (clustered_step m
              (fun g => exists b, heap w !! B = Some (PyArray b) /\
                                  block_model_graph_value L n_verts b = Ok g)) None evs /\
     (forall b g lt,
        heap w !! B = Some (PyArray b) ->
        block_model_graph_value L n_verts b = Ok g ->
        heap w !! labels_true = Some (PyList lt) ->
        returns_on L m (GaussianMixtureIC L 2 2 "all") g lt ->
        (exists df,
           fst (Regenerating.calc_ari L n_verts n_sims B m labels_true w) = Ok df) /\
        length (clustered_matrices evs) = Z.to_nat n_sims)).
Proof.
  split.
  - destruct (Tutorial.calc_ari L kn_graph n_sims m labels_true cov_type w) as [r w'] eqn:Hrun.
    destruct (tutorial_calc_ari_protocol L _ _ _ _ _ _ _ _ Hrun)
      as (_ & evs & [_ Hc] & Hch & Hcount).
    exists evs. split; [exact Hc|]. split.
    + eapply chain_impl; [|exact Hch]. intros p e. apply step_ok_clustered.
    + intros g lt HG HL Hret.
      destruct (tutorial_calc_ari_returns _ n_sims _ _ cov_type _ _ _ HG HL Hret)
        as (w1 & evs1 & Hrun1 & _ & _).
      rewrite Hrun in Hrun1. injection Hrun1 as -> _. cbn [fst].
      split; [eauto | exact (Hcount _ eq_refl)].
  - destruct (Regenerating.calc_ari L n_verts n_sims B m labels_true w) as [r w'] eqn:Hrun.
    destruct (regenerating_calc_ari_protocol L _ _ _ _ _ _ _ _ Hrun)
      as (_ & evs & [_ Hc] & Hch & Hcount).
    exists evs. split; [exact Hc|]. split.
    + eapply chain_impl; [|exact Hch]. intros p e. apply step_ok_clustered.
    + intros b g lt HB Hg HL Hret.
      destruct (regenerating_calc_ari_returns n_verts n_sims _ _ _ _ _ _ _ HB Hg HL Hret)
        as (w1 & evs1 & Hrun1 & _ & _).
      rewrite Hrun in Hrun1. injection Hrun1 as -> _. cbn [fst].
      split; [eauto | exact (Hcount _ eq_refl)].
Qed.

(** C10: when the embedding routines return arrays of [n_components]
    columns, every matrix handed to the mixture model has 4 columns under
    "ase" and "lse" (two 2-column embeddings side by side) and 2 columns
    under "sklearn": its shape says so and each of its rows holds that
    many numbers. When the routines return, the call returns after
    handing over one such matrix per trial. *)
Theorem clustered_matrix_columns (kn_graph B labels_true : loc) (n_verts n_sims : Z)
    (m cov_type : string) (w : world RNG) :
  embedding_shapes L ->
  (exists evs,
     calls (snd (Tutorial.calc_ari L kn_graph n_sims m labels_true cov_type w))
     = calls w ++ evs /\
     Forall (fun X => (m = "ase" \/ m = "lse" -> has_columns 4 X) /\
                      (m = "sklearn" -> has_columns 2 X))
            (clustered_matrices evs) /\
     (forall g lt,
        heap w !! kn_graph = Some (PyArray g) ->
        heap w !! labels_true = Some (PyList lt) ->
        returns_on L m (GaussianMixture L 2 cov_type) g lt ->
        (exists df,
           fst (Tutorial.calc_ari L kn_graph n_sims m labels_true cov_type w) = Ok df) /\
        length (clustered_matrices evs) = Z.to_nat n_sims)) /\
  (exists evs,
     calls (snd (Regenerating.calc_ari L n_verts n_sims B m labels_true w))
     = calls w ++ evs /\
     Forall (fun X => (m = "ase" \/ m = "lse" -> has_columns 4 X) /\
                      (m = "sklearn" -> has_columns 2 X))
            (clustered_matrices evs) /\
     (forall b g lt,
        heap w !! B = Some (PyArray b) ->
        block_model_graph_value L n_verts b = Ok g ->
        heap w !! labels_true = Some (PyList lt) ->
        returns_on L m (GaussianMixtureIC L 2 2 "all") g lt ->
        (exists df,
           fst (Regenerating.calc_ari L n_verts n_sims B m labels_true w) = Ok df) /\
        length (clustered_matrices evs) = Z.to_nat n_sims)).
Proof.
  intros Hcol. split.
  - destruct (Tutorial.calc_ari L kn_graph n_sims m labels_true cov_type w) as [r w'] eqn:Hrun.
    destruct (tutorial_calc_ari_protocol L _ _ _ _ _ _ _ _ Hrun)
      as (_ & evs & [_ Hc] & Hch & Hcount).
    exists evs. split; [exact Hc|]. split.
    + apply Forall_clustered_matrices.
      eapply chain_Forall; [|exact Hch]. intros p e. now apply step_ok_columns.
    + intros g lt HG HL Hret.
      destruct (tutorial_calc_ari_returns _ n_sims _ _ cov_type _ _ _ HG HL Hret)
        as (w1 & evs1 & Hrun1 & _ & _).
      rewrite Hrun in Hrun1. injection Hrun1 as -> _. cbn [fst].
      split; [eauto | exact (Hcount _ eq_refl)].
  - destruct (Regenerating.calc_ari L n_verts n_sims B m labels_true w) as [r w'] eqn:Hrun.
    destruct (regenerating_calc_ari_protocol L _ _ _ _ _ _ _ _ Hrun)
      as (_ & evs & [_ Hc] & Hch & Hcount).
    exists evs. split; [exact Hc|]. split.
    + apply Forall_clustered_matrices.
      eapply chain_Forall; [|exact Hch]. intros p e. now apply step_ok_columns.
    + intros b g lt HB Hg HL Hret.
      destruct (regenerating_calc_ari_returns n_verts n_sims _ _ _ _ _ _ _ HB Hg HL Hret)
        as (w1 & evs1 & Hrun1 & _ & _).
      rewrite Hrun in Hrun1. injection Hrun1 as -> _. cbn [fst].
      split; [eauto | exact (Hcount _ eq_refl)].
Qed.

End Returns.

(** ** What a call leaves behind *)
Section Generator.
Context {RNG : Type} (L : libraries RNG).

Lemma replay_app (a b : list event) (s : RNG) :
  replay L (a ++ b) s = replay L b (replay L a s).
Proof. unfold replay. apply fold_left_app. Qed.

Lemma replay_construction (n : Z) (b : ndarray) (s : RNG) :
  replay L (block_model_graph_calls L n b) s = s.
Proof.
  unfold block_model_graph_calls.
  destruct (prob_matrix n b); [|reflexivity].
  destruct (np_linalg_svd L _); [|reflexivity].
  destruct (latent_positions L n _ _ _); [|reflexivity].
  destruct (int_sqrt n); reflexivity.
Qed.

(** The generator after a trial is the generator after its logged calls. *)
Lemma tutorial_trial_generator (kn_graph : loc) (m : string) (labels_true : loc)
    (cov_type : string) (l : locals) (w : world RNG) (r : result locals) (w' : world RNG) :
  Tutorial.trial L kn_graph m labels_true cov_type l w = (r, w') ->
  exists evs, steps w w' evs /\ rng w' = replay L evs (rng w).
Proof.
  intros Hrun.
  unfold Tutorial.trial, choose_embedding, concatenate_if_ase_or_lse in Hrun.
  unfold ase_fit_transform, lse_fit_transform, sklearn_spectral_embedding,
    gm_fit_predict, ari_score, load_array, load_list, draw, log in Hrun.
  destruct l as [rs [x|] [y|]];
    (destruct (String.eqb m "ase");
     [|destruct (String.eqb m "lse"); [|destruct (String.eqb m "sklearn")]]);
    cbn [orb] in Hrun.
  all: run_in Hrun.
  all: inversion Hrun; subst; clear Hrun; cbn [heap calls rng].
  all: try (exists []; split; [apply steps_refl | reflexivity]).
  all: rewrite <- ?app_assoc; cbn [app].
  all: eexists; (split; [split; reflexivity|]).
  all: cbn [replay fold_left generator_after].
  all: repeat match goal with
              | E : ?f = (_, _) |- context [?f] => rewrite E; cbn [snd]
              end.
  all: reflexivity.
Qed.

Lemma regenerating_trial_generator (n_verts : Z) (B : loc) (m : string)
    (labels_true : loc) (l : locals) (w : world RNG) (r : result locals) (w' : world RNG) :
  Regenerating.trial L n_verts B m labels_true l w = (r, w') ->
  exists evs, steps w w' evs /\ rng w' = replay L evs (rng w).
Proof.
  intros Hrun. unfold Regenerating.trial in Hrun.
  unfold bind at 1 in Hrun. unfold load_array at 1 in Hrun.
  destruct (heap w !! B) as [[b|xs]|] eqn:HB.
  2,3: inversion Hrun; subst; exists []; split; [apply steps_refl | reflexivity].
  unfold bind at 1 in Hrun. rewrite block_model_graph_run in Hrun.
  pose proof (replay_construction n_verts b (rng w)) as Hbm.
  destruct (block_model_graph_value L n_verts b) as [g|e] eqn:Hg.
  2: { inversion Hrun; subst. eexists. split; [split; reflexivity|].
       cbn [rng]. now rewrite Hbm. }
  unfold choose_embedding, concatenate_if_ase_or_lse in Hrun.
  unfold ase_fit_transform, lse_fit_transform, sklearn_spectral_embedding,
    gm_ic_fit_predict, ari_score, load_array, load_list, draw, log in Hrun.
  destruct l as [rs [x|] [y|]];
    (destruct (String.eqb m "ase");
     [|destruct (String.eqb m "lse"); [|destruct (String.eqb m "sklearn")]]);
    cbn [orb] in Hrun.
  all: run_in Hrun.
  all: inversion Hrun; subst; clear Hrun; cbn [heap calls rng].
  all: rewrite <- ?app_assoc; cbn [app].
  all: eexists; (split; [split; reflexivity|]).
  all: first [rewrite replay_app, Hbm | rewrite Hbm]; cbn [replay fold_left generator_after].
  all: repeat match goal with
              | E : ?f = (_, _) |- context [?f] => rewrite E; cbn [snd]
              end.
  all: reflexivity.
Qed.

Section LoopGenerator.
Context (body : locals -> M RNG locals).
Hypothesis body_generator : forall l w r w', body l w = (r, w') ->
  exists evs, steps w w' evs /\ rng w' = replay L evs (rng w).

Lemma for_range_generator (n : nat) (l : locals) (w : world RNG) (r : result locals)
    (w' : world RNG) :
  for_range n body l w = (r, w') ->
  exists evs, steps w w' evs /\ rng w' = replay L evs (rng w).
Proof.
  revert l w. induction n as [|n IH]; intros l w Hrun; simpl in Hrun.
  - unfold ret in Hrun. injection Hrun as _ <-. exists [].
    split; [apply steps_refl | reflexivity].
  - unfold bind in Hrun. destruct (body l w) as [[l1|e] w1] eqn:Hb.
    + destruct (body_generator _ _ _ _ Hb) as (evs1 & Hs1 & Hr1).
      destruct (IH _ _ Hrun) as (evs2 & Hs2 & Hr2).
      exists (evs1 ++ evs2). split; [eapply steps_trans; eassumption|].
      now rewrite replay_app, <- Hr1.
    + injection Hrun as _ <-. eapply body_generator; eassumption.
Qed.

Lemma for_tqdm_from_generator (n done total : nat) (l : locals) (w : world RNG)
    (r : result locals) (w' : world RNG) :
  for_tqdm_from done n total body l w = (r, w') ->
  exists evs, steps w w' evs /\ rng w' = replay L evs (rng w).
Proof.
  revert done l w. induction n as [|n IH]; intros done l w Hrun; simpl in Hrun.
  - unfold ret in Hrun. injection Hrun as _ <-. exists [].
    split; [apply steps_refl | reflexivity].
  - unfold bind at 1 in Hrun. destruct (body l w) as [[l1|e] w1] eqn:Hb.
    + destruct (body_generator _ _ _ _ Hb) as (evs1 & Hs1 & Hr1).
      unfold bind, tqdm_update in Hrun.
      destruct (IH _ _ _ Hrun) as (evs2 & [A B] & Hr2).
      exists (evs1 ++ evs2). split.
      { eapply steps_trans; [exact Hs1|]. split; [exact A | exact B]. }
      cbn [rng] in Hr2. now rewrite replay_app, <- Hr1.
    + injection Hrun as _ <-. eapply body_generator; eassumption.
Qed.

End LoopGenerator.

(** C8, as amended: a call of [calc_ari] leaves every object of the heap
    as it was, the graph, the block matrix and the label list it was
    handed among them, but it is not free of side effects: the routines
    it calls draw from numpy's global generator, which after the call is
    in the state that the logged calls, replayed in order, leave it in.
    The tutorials' version draws no progress bar, and the regenerating
    version redraws the tqdm bar, starting with the empty bar. *)
Theorem calc_ari_frame (kn_graph B labels_true : loc) (n_verts n_sims : Z)
    (m cov_type : string) (w : world RNG) :
  (let w' := snd (Tutorial.calc_ari L kn_graph n_sims m labels_true cov_type w) in
   heap w' = heap w /\
   heap w' !! kn_graph = heap w !! kn_graph /\
   heap w' !! labels_true = heap w !! labels_true /\
   tqdm_bar w' = tqdm_bar w /\
   exists evs, calls w' = calls w ++ evs /\ rng w' = replay L evs (rng w)) /\
  (let w' := snd (Regenerating.calc_ari L n_verts n_sims B m labels_true w) in
   heap w' = heap w /\
   heap w' !! B = heap w !! B /\
   heap w' !! labels_true = heap w !! labels_true /\
   (exists ups, tqdm_bar w' = tqdm_bar w ++ (0%nat, Z.to_nat n_sims) :: ups) /\
   exists evs, calls w' = calls w ++ evs /\ rng w' = replay L evs (rng w)).
Proof.
  split.
  - destruct (Tutorial.calc_ari L kn_graph n_sims m labels_true cov_type w) as [r w'] eqn:Hrun.
    destruct (tutorial_calc_ari_protocol L _ _ _ _ _ _ _ _ Hrun) as (Hbar & evs & [Hh _] & _ & _).
    cbn [snd]. rewrite Hh. do 4 (split; [auto|]).
    unfold Tutorial.calc_ari in Hrun. unfold bind in Hrun.
    destruct (for_range _ _ _ w) as [r1 w1] eqn:Hloop.
    destruct (for_range_generator _ (tutorial_trial_generator kn_graph m labels_true cov_type)
                _ _ _ _ _ Hloop) as (evs' & [_ Hc] & Hr).
    assert (w' = w1) as -> by (destruct r1; unfold ret in Hrun; congruence).
    exists evs'. split; assumption.
  - destruct (Regenerating.calc_ari L n_verts n_sims B m labels_true w) as [r w'] eqn:Hrun.
    destruct (regenerating_calc_ari_protocol L _ _ _ _ _ _ _ _ Hrun)
      as (Hbar & evs & [Hh _] & _ & _).
    cbn [snd]. rewrite Hh. do 4 (split; [auto|]).
    unfold Regenerating.calc_ari, for_tqdm in Hrun. unfold bind at 1 in Hrun.
    unfold bind at 1 in Hrun. unfold tqdm_update at 1 in Hrun. cbv beta iota in Hrun.
    match type of Hrun with
    | context [for_tqdm_from ?d ?k ?t ?body ?l0 ?W] =>
        destruct (for_tqdm_from d k t body l0 W) as [r1 w1] eqn:Hloop;
        destruct (for_tqdm_from_generator body
                    (regenerating_trial_generator n_verts B m labels_true)
                    _ _ _ _ _ _ _ Hloop) as (evs' & [_ Hc] & Hr)
    end.
    assert (w' = w1) as -> by (destruct r1; unfold ret in Hrun; congruence).
    exists evs'. split; assumption.
Qed.

End Generator.

(** ** An unrecognized method *)
Section Unrecognized.
Context {RNG : Type} (L : libraries RNG).

Lemma tutorial_trial_unrecognized (kn_graph : loc) (m : string) (labels_true : loc)
    (cov_type : string) (l : locals) (w : world RNG) :
  ~ recognized m -> Xhat l = None ->
  Tutorial.trial L kn_graph m labels_true cov_type l w = (Err (UnboundLocalError "Xhat"), w).
Proof.
  intros Hm Hx. destruct (eqb_unrecognized m Hm) as (Ea & El & Es).
  unfold Tutorial.trial, choose_embedding, concatenate_if_ase_or_lse.
  rewrite Ea, El, Es. cbn [orb]. unfold bind, ret. cbn beta iota. now rewrite Hx.
Qed.

Lemma regenerating_trial_unrecognized (n_verts : Z) (B : loc) (m : string)
    (labels_true : loc) (l : locals) (w : world RNG) :
  ~ recognized m -> Xhat l = None ->
  exists e w' evs,
    Regenerating.trial L n_verts B m labels_true l w = (Err e, w') /\
    steps w w' evs /\ tqdm_bar w' = tqdm_bar w /\
    clustered_matrices evs = [] /\ embedded_graphs evs = [] /\
    (forall b g, heap w !! B = Some (PyArray b) ->
                 block_model_graph_value L n_verts b = Ok g ->
                 e = UnboundLocalError "Xhat").
Proof.
  intros Hm Hx. destruct (eqb_unrecognized m Hm) as (Ea & El & Es).
  unfold Regenerating.trial. unfold bind at 1. unfold load_array at 1.
  destruct (heap w !! B) as [[b|xs]|] eqn:HB.
  2,3: do 2 eexists; exists []; (split; [reflexivity|]); (split; [apply steps_refl|]);
       repeat (split; [reflexivity|]); intros ? ? [=].
  unfold bind at 1. rewrite block_model_graph_run.
  destruct (block_model_graph_calls_build L n_verts b) as (Hc & He & _).
  destruct (block_model_graph_value L n_verts b) as [g|e] eqn:Hg.
  - unfold choose_embedding, concatenate_if_ase_or_lse.
    rewrite Ea, El, Es. cbn [orb]. unfold bind, ret. cbn beta iota. rewrite Hx.
    do 2 eexists; exists (block_model_graph_calls L n_verts b).
    split; [reflexivity|]. split; [split; reflexivity|]. split; [reflexivity|].
    split; [exact Hc|]. split; [exact He|]. reflexivity.
  - do 2 eexists; exists (block_model_graph_calls L n_verts b).
    split; [reflexivity|]. split; [split; reflexivity|]. split; [reflexivity|].
    split; [exact Hc|]. split; [exact He|]. intros b' g' [= <-] Hg'. congruence.
Qed.

(** C1: what the code does on a method outside "ase", "lse", "sklearn".
    With at least one trial the first trial stops at the read of the
    unbound local [Xhat], an [UnboundLocalError]: the tutorials' version
    has then made no library call at all, the regenerating version only
    the calls that build the graph, and no embedding or clustering call.
    With no trial to run the empty frame is returned and nothing is
    raised. No error naming the unsupported method exists. *)
Theorem calc_ari_unrecognized_method (kn_graph B labels_true : loc) (n_verts n_sims : Z)
    (m cov_type : string) (w : world RNG) :
  ~ recognized m ->
  (1 <= n_sims ->
   Tutorial.calc_ari L kn_graph n_sims m labels_true cov_type w
   = (Err (UnboundLocalError "Xhat"), w)) /\
  (n_sims <= 0 ->
   Tutorial.calc_ari L kn_graph n_sims m labels_true cov_type w = (Ok [], w)) /\
  (1 <= n_sims ->
   exists e w' evs,
     Regenerating.calc_ari L n_verts n_sims B m labels_true w = (Err e, w') /\
     calls w' = calls w ++ evs /\
     clustered_matrices evs = [] /\ embedded_graphs evs = [] /\
     (forall b g, heap w !! B = Some (PyArray b) ->
                  block_model_graph_value L n_verts b = Ok g ->
                  e = UnboundLocalError "Xhat")).
Proof.
  intros Hm. split; [|split].
  - intros Hn. unfold Tutorial.calc_ari.
    destruct (Z.to_nat n_sims) as [|n] eqn:En; [lia|].
    cbn [for_range]. unfold bind.
    now rewrite tutorial_trial_unrecognized.
  - intros Hn. unfold Tutorial.calc_ari.
    replace (Z.to_nat n_sims) with 0%nat by lia. reflexivity.
  - intros Hn. unfold Regenerating.calc_ari, for_tqdm.
    destruct (Z.to_nat n_sims) as [|n] eqn:En; [lia|].
    cbn [for_tqdm_from]. unfold bind at 1 2. unfold tqdm_update at 1. unfold bind at 1.
    destruct (regenerating_trial_unrecognized n_verts B m labels_true (Locals [] None None)
                (World (heap w) (rng w) (calls w) (tqdm_bar w ++ [(0%nat, S n)])) Hm eq_refl)
      as (e & w' & evs & Hrun & [_ Hcalls] & _ & Hc & He & Herr).
    rewrite Hrun. exists e, w', evs.
    split; [reflexivity|]. split; [exact Hcalls|]. split; [exact Hc|]. split; [exact He|].
    exact Herr.
Qed.

End Unrecognized.

(** ** The small libraries return on the six-vertex graph *)

Lemma toy_partition_length (n g : nat) : length (Toy.toy_partition n g) = n.
Proof.
  unfold Toy.toy_partition.
  destruct (g mod 3 =? 2)%nat; [apply length_replicate|].
  pose proof (Nat.Div0.div_le_upper_bound n 2 n ltac:(lia)) as Hd.
  destruct (Nat.even g); rewrite length_app, !length_replicate; lia.
Qed.

Lemma full_well_shaped (r c : nat) (x : Q) : well_shaped (Toy.full r c x).
Proof.
  split; cbn; [apply length_replicate|].
  apply Forall_forall. intros row Hin. apply elem_of_replicate in Hin as [-> _].
  apply length_replicate.
Qed.

Lemma toy_coordinates_rows (m : string) (g : ndarray) (s : nat) (X : ndarray) (s' : nat) :
  coordinates Toy.lib m g s = (Ok X, s') -> nrows X = nrows g.
Proof.
  unfold coordinates.
  destruct (String.eqb m "ase");
    [|destruct (String.eqb m "lse"); [|destruct (String.eqb m "sklearn"); [|discriminate]]];
    cbn; unfold concatenate_axis1; cbn; rewrite ?Nat.eqb_refl; intros [= <- <-]; reflexivity.
Qed.

Lemma toy_coordinates_return (m : string) (g : ndarray) (s : nat) :
  recognized m -> exists X s', coordinates Toy.lib m g s = (Ok X, s').
Proof.
  intros [-> | [-> | ->]]; unfold coordinates; cbn; unfold concatenate_axis1; cbn;
    rewrite ?Nat.eqb_refl; eauto.
Qed.

Lemma toy_returns_on (m : string) (g : ndarray) (lt : list Z) :
  recognized m -> length lt = nrows g ->
  returns_on Toy.lib m (GaussianMixture Toy.lib 2 "full") g lt.
Proof.
  intros Hm Hlen. constructor.
  - intros s. now apply toy_coordinates_return.
  - intros s X s' _. cbn. eauto.
  - intros s X s' labels s'' Ec Em. cbn in Em. injection Em as <- _.
    cbn. unfold Toy.toy_ari.
    rewrite toy_partition_length, (toy_coordinates_rows _ _ _ _ _ Ec), Hlen, Nat.eqb_refl.
    eauto.
Qed.

Lemma toy_returns_on_ic (m : string) (g : ndarray) (lt : list Z) :
  recognized m -> length lt = nrows g ->
  returns_on Toy.lib m (GaussianMixtureIC Toy.lib 2 2 "all") g lt.
Proof.
  intros Hm Hlen. constructor.
  - intros s. now apply toy_coordinates_return.
  - intros s X s' _. cbn. eauto.
  - intros s X s' labels s'' Ec Em. cbn in Em. injection Em as <- _.
    cbn. unfold Toy.toy_ari.
    rewrite toy_partition_length, (toy_coordinates_rows _ _ _ _ _ Ec), Hlen, Nat.eqb_refl.
    eauto.
Qed.

Lemma toy_lib_shapes : embedding_shapes Toy.lib.
Proof.
  constructor; cbn [AdjacencySpectralEmbed LaplacianSpectralEmbed spectral_embedding Toy.lib].
  - intros k g s XY [= <-]. cbn [fst snd].
    split; [apply full_well_shaped|]. split; [apply full_well_shaped|]. split; reflexivity.
  - intros k g s XY [= <-]. cbn [fst snd].
    split; [apply full_well_shaped|]. split; [apply full_well_shaped|]. split; reflexivity.
  - intros k g s X [= <-]. split; [apply full_well_shaped | reflexivity].
Qed.

Lemma lse_recognized : recognized "lse".
Proof. right. left. reflexivity. Qed.

Lemma ase_recognized : recognized "ase".
Proof. left. reflexivity. Qed.

Lemma sklearn_recognized : recognized "sklearn".
Proof. right. right. reflexivity. Qed.

Lemma pca_unrecognized : ~ recognized "pca".
Proof. intros [H | [H | H]]; discriminate H. Qed.

(** ** Concrete runs *)

Lemma regenerated_graph_deterministic_witness :
  exists evs1 evs2,
    calls (snd (Regenerating.calc_ari Toy.lib 6 3 1%positive "ase" 2%positive Toy.w6))
    = calls Toy.w6 ++ evs1 /\
    calls (snd (Regenerating.calc_ari Toy.lib 6 2 1%positive "lse" 2%positive Toy.w6_later))
    = calls Toy.w6_later ++ evs2 /\
    Forall (fun g => block_model_graph_value Toy.lib 6 BlockTutorial.B_affinity = Ok g)
           (embedded_graphs evs1 ++ embedded_graphs evs2) /\
    Forall (fun e => In e (block_model_graph_calls Toy.lib 6 BlockTutorial.B_affinity))
           (construction_calls evs1 ++ construction_calls evs2) /\
    Forall (fun X => exists g s,
                block_model_graph_value Toy.lib 6 BlockTutorial.B_affinity = Ok g /\
                fst (coordinates Toy.lib "ase" g s) = Ok X)
           (clustered_matrices evs1).
Proof.
  destruct (regenerated_graph_deterministic Toy.lib 6 3 2 1%positive 1%positive
              2%positive 2%positive "ase" "lse" BlockTutorial.B_affinity Toy.w6 Toy.w6_later
              eq_refl eq_refl)
    as (_ & H).
  exact H.
Defined.

(** C9, as stated, fails where the embedding draws from the generator:
    the two trials of one call build the same graph and cluster two
    different coordinate matrices. *)
Lemma trials_cluster_different_matrices :
  exists g X X',
    embedded_graphs (calls (snd (Regenerating.calc_ari Toy.lib 6 2 1%positive "ase" 2%positive
                                   Toy.w6)))
    = [g; g] /\
    clustered_matrices (calls (snd (Regenerating.calc_ari Toy.lib 6 2 1%positive "ase"
                                      2%positive Toy.w6)))
    = [X; X'] /\
    X <> X'.
Proof.
  do 3 eexists. split; [vm_compute; reflexivity|]. split; [vm_compute; reflexivity|].
  intros H. discriminate H.
Qed.

(** C8, as stated, fails on the generator: one trial leaves numpy's
    global generator in another state than it found it in, while the
    heap is as it was. *)
Lemma calc_ari_advances_generator :
  let w' := snd (Tutorial.calc_ari Toy.lib 3%positive 1 "sklearn" 2%positive "full" Toy.w6) in
  rng w' <> rng Toy.w6 /\ heap w' = heap Toy.w6.
Proof. split; [vm_compute; discriminate | vm_compute; reflexivity]. Qed.

Lemma calc_ari_returns_records_witness :
  (exists df w' evs,
     Tutorial.calc_ari Toy.lib 3%positive 3 "ase" 2%positive "full" Toy.w6 = (Ok df, w') /\
     calls w' = calls Toy.w6 ++ evs /\
     length df = Z.to_nat 3 /\
     df = map (fun s => {| test := "ase"; ari := s |}) (scores evs)) /\
  (exists df w' evs,
     Regenerating.calc_ari Toy.lib 6 3 1%positive "ase" 2%positive Toy.w6 = (Ok df, w') /\
     calls w' = calls Toy.w6 ++ evs /\
     length df = Z.to_nat 3 /\
     df = map (fun s => {| test := "ase"; ari := s |}) (scores evs)).
Proof.
  destruct (calc_ari_returns_records Toy.lib 3%positive 1%positive 2%positive 6 3 "ase" "full"
              Toy.w6) as [Ht Hr].
  split.
  - apply (Ht Toy.graph6 (labels_lse 6)); [reflexivity | reflexivity |].
    apply toy_returns_on; [exact ase_recognized | reflexivity].
  - apply (Hr BlockTutorial.B_affinity Toy.graph6 (labels_lse 6));
      [reflexivity | vm_compute; reflexivity | reflexivity |].
    apply toy_returns_on_ic; [exact ase_recognized | reflexivity].
Defined.

Lemma calc_ari_clusters_coordinates_witness :
  (exists evs,
     calls (snd (Tutorial.calc_ari Toy.lib 3%positive 3 "lse" 2%positive "full" Toy.w6))
     = calls Toy.w6 ++ evs /\
     chain (clustered_step "lse" (fun g => heap Toy.w6 !! 3%positive = Some (PyArray g)))
           None evs /\
     (exists df,
        fst (Tutorial.calc_ari Toy.lib 3%positive 3 "lse" 2%positive "full" Toy.w6) = Ok df) /\
     length (clustered_matrices evs) = Z.to_nat 3) /\
  (exists evs,
     calls (snd (Regenerating.calc_ari Toy.lib 6 3 1%positive "lse" 2%positive Toy.w6))
     = calls Toy.w6 ++ evs /\
     chain (clustered_step "lse"
              (fun g => exists b, heap Toy.w6 !! 1%positive = Some (PyArray b) /\
                                  block_model_graph_value Toy.lib 6 b = Ok g)) None evs /\
     (exists df,
        fst (Regenerating.calc_ari Toy.lib 6 3 1%positive "lse" 2%positive Toy.w6) = Ok df) /\
     length (clustered_matrices evs) = Z.to_nat 3).
Proof.
  destruct (calc_ari_clusters_coordinates Toy.lib 3%positive 1%positive 2%positive 6 3
              "lse" "full" Toy.w6) as [(evs1 & Hc1 & Hch1 & Hr1) (evs2 & Hc2 & Hch2 & Hr2)].
  split.
  - exists evs1. split; [exact Hc1|]. split; [exact Hch1|].
    apply (Hr1 Toy.graph6 (labels_lse 6)); [reflexivity | reflexivity |].
    apply toy_returns_on; [exact lse_recognized | reflexivity].
  - exists evs2. split; [exact Hc2|]. split; [exact Hch2|].
    apply (Hr2 BlockTutorial.B_affinity Toy.graph6 (labels_lse 6));
      [reflexivity | vm_compute; reflexivity | reflexivity |].
    apply toy_returns_on_ic; [exact lse_recognized | reflexivity].
Defined.

Lemma clustered_matrix_columns_witness :
  (exists evs,
     calls (snd (Tutorial.calc_ari Toy.lib 3%positive 3 "lse" 2%positive "full" Toy.w6))
     = calls Toy.w6 ++ evs /\
     Forall (fun X => ("lse" = "ase" \/ "lse" = "lse" -> has_columns 4 X) /\
                      ("lse" = "sklearn" -> has_columns 2 X))
            (clustered_matrices evs) /\
     (exists df,
        fst (Tutorial.calc_ari Toy.lib 3%positive 3 "lse" 2%positive "full" Toy.w6) = Ok df) /\
     length (clustered_matrices evs) = Z.to_nat 3) /\
  (exists evs,
     calls (snd (Regenerating.calc_ari Toy.lib 6 3 1%positive "sklearn" 2%positive Toy.w6))
     = calls Toy.w6 ++ evs /\
     Forall (fun X => ("sklearn" = "ase" \/ "sklearn" = "lse" -> has_columns 4 X) /\
                      ("sklearn" = "sklearn" -> has_columns 2 X))
            (clustered_matrices evs) /\
     (exists df,
        fst (Regenerating.calc_ari Toy.lib 6 3 1%positive "sklearn" 2%positive Toy.w6)
        = Ok df) /\
     length (clustered_matrices evs) = Z.to_nat 3).
Proof.
  split.
  - destruct (clustered_matrix_columns Toy.lib 3%positive 1%positive 2%positive 6 3
                "lse" "full" Toy.w6 toy_lib_shapes) as [(evs & Hc & Hall & Hr) _].
    exists evs. split; [exact Hc|]. split; [exact Hall|].
    apply (Hr Toy.graph6 (labels_lse 6)); [reflexivity | reflexivity |].
    apply toy_returns_on; [exact lse_recognized | reflexivity].
  - destruct (clustered_matrix_columns Toy.lib 3%positive 1%positive 2%positive 6 3
                "sklearn" "full" Toy.w6 toy_lib_shapes) as [_ (evs & Hc & Hall & Hr)].
    exists evs. split; [exact Hc|]. split; [exact Hall|].
    apply (Hr BlockTutorial.B_affinity Toy.graph6 (labels_lse 6));
      [reflexivity | vm_compute; reflexivity | reflexivity |].
    apply toy_returns_on_ic; [exact sklearn_recognized | reflexivity].
Defined.

Lemma calc_ari_unrecognized_method_witness :
  (1 <= 2 ->
   Tutorial.calc_ari Toy.lib 3%positive 2 "pca" 2%positive "full" Toy.w6
   = (Err (UnboundLocalError "Xhat"), Toy.w6)) /\
  (2 <= 0 ->
   Tutorial.calc_ari Toy.lib 3%positive 2 "pca" 2%positive "full" Toy.w6 = (Ok [], Toy.w6)) /\
  (1 <= 2 ->
   exists e w' evs,
     Regenerating.calc_ari Toy.lib 6 2 1%positive "pca" 2%positive Toy.w6 = (Err e, w') /\
     calls w' = calls Toy.w6 ++ evs /\
     clustered_matrices evs = [] /\ embedded_graphs evs = [] /\
     (forall b g, heap Toy.w6 !! 1%positive = Some (PyArray b) ->
                  block_model_graph_value Toy.lib 6 b = Ok g ->
                  e = UnboundLocalError "Xhat")).
Proof.
  apply (calc_ari_unrecognized_method Toy.lib 3%positive 1%positive 2%positive 6 2
           "pca" "full" Toy.w6).
  exact pca_unrecognized.
Defined.

(** The failing input of C1, run: one trial under "pca" raises the
    unbound-local error of [Xhat], and no trial at all returns the empty
    frame without any error. *)
Example calc_ari_pca :
  fst (Tutorial.calc_ari Toy.lib 3%positive 1 "pca" 2%positive "full" Toy.w6)
  = Err (UnboundLocalError "Xhat") /\
  fst (Tutorial.calc_ari Toy.lib 3%positive 0 "pca" 2%positive "full" Toy.w6) = Ok [] /\
  fst (Regenerating.calc_ari Toy.lib 6 1 1%positive "pca" 2%positive Toy.w6)
  = Err (UnboundLocalError "Xhat").
Proof. repeat split; vm_compute; reflexivity. Qed.

(** Three trials under "ase" on the six-vertex graph: three rows, and the
    mixture model was handed three 6 x 4 matrices. *)
Example calc_ari_ase_run :
  let '(r, w') := Tutorial.calc_ari Toy.lib 3%positive 3 "ase" 2%positive "full" Toy.w6 in
  r = Ok [{| test := "ase"; ari := 1 |}; {| test := "ase"; ari := 1 |};
          {| test := "ase"; ari := 1 # 4 |}] /\
  map shape (clustered_matrices (calls w')) = [(6, 4); (6, 4); (6, 4)]%nat /\
  heap w' = heap Toy.w6.
Proof. vm_compute. repeat split; reflexivity. Qed.

(** Each row the mixture model is fitted on under "ase" is the row of the
    first returned matrix followed by the row of the second; the second
    trial finds the generator two draws further. *)
Example calc_ari_ase_rows :
  map data (clustered_matrices (calls (snd
    (Tutorial.calc_ari Toy.lib 3%positive 2 "ase" 2%positive "full" Toy.w6))))
  = [replicate 6 [0; 0; 0; 0]; replicate 6 [2; 2; -2; -2]]%Q.
Proof. vm_compute. reflexivity. Qed.

(** Under "sklearn" the matrices have two columns. *)
Example calc_ari_sklearn_run :
  map shape (clustered_matrices (calls (snd
    (Regenerating.calc_ari Toy.lib 6 2 1%positive "sklearn" 2%positive Toy.w6))))
  = [(6, 2); (6, 2)]%nat.
Proof. vm_compute. reflexivity. Qed.

(** * Further properties of the notebooks *)

(** ** Labels for any count *)

(** X1: the label list is balanced for every count; it is empty up to
    [n = 1], never longer than [n], and it has [n] entries exactly when
    [n] is even: an odd count loses its last sample. *)
Theorem labels_lse_length_even_iff (n : Z) :
  count_occ Z.eq_dec (labels_lse n) 0 = count_occ Z.eq_dec (labels_lse n) 1 /\
  (n <= 1 -> labels_lse n = []) /\
  (0 <= n ->
   (length (labels_lse n) <= Z.to_nat n)%nat /\
   (length (labels_lse n) = Z.to_nat n <-> Z.even n = true) /\
   (Z.odd n = true -> S (length (labels_lse n)) = Z.to_nat n)).
Proof.
  rewrite labels_lse_replicate. set (k := Z.to_nat (int_half n)).
  split; [|split].
  - rewrite !count_occ_app.
    assert (H0 : forall (a b : Z) m, a <> b -> count_occ Z.eq_dec (replicate m a) b = 0%nat).
    { intros a b m Hab. induction m as [|m IH]; simpl; [reflexivity|].
      destruct (Z.eq_dec a b); [contradiction | exact IH]. }
    assert (H1 : forall (a : Z) m, count_occ Z.eq_dec (replicate m a) a = m).
    { intros a m. induction m as [|m IH]; simpl; [reflexivity|].
      destruct (Z.eq_dec a a); [now rewrite IH | contradiction]. }
    rewrite !H1, !H0 by discriminate. lia.
  - intros Hn. subst k. unfold int_half.
    assert (Hq : Z.quot n 2 <= 0).
    { destruct (Z.le_gt_cases 0 n).
      - rewrite Z.quot_div_nonneg by lia.
        assert (n / 2 < 1) by (apply Z.div_lt_upper_bound; lia). lia.
      - pose proof (Z.quot_opp_l n 2 ltac:(lia)) as Ho.
        pose proof (Z.quot_pos (- n) 2 ltac:(lia) ltac:(lia)). lia. }
    replace (Z.to_nat (Z.quot n 2)) with 0%nat by lia. reflexivity.
  - intros Hn. rewrite length_app, !length_replicate. subst k.
    rewrite int_half_nonneg by lia.
    pose proof (Z.div_mod n 2 ltac:(lia)) as Hd.
    pose proof (Z.mod_pos_bound n 2 ltac:(lia)) as Hm.
    assert (Hk : 0 <= n / 2) by (apply Z.div_pos; lia).
    rewrite Z.even_spec, Z.odd_spec. unfold Z.Even, Z.Odd.
    split; [lia|]. split; [split|].
    + intros H. exists (n / 2). lia.
    + intros [m Hm']. lia.
    + intros [m Hm']. lia.
Qed.

(** ** The probability matrix of any block matrix *)

Lemma np_zeros_Ok (r c : Z) :
  0 <= r -> 0 <= c ->
  np_zeros r c = Ok {| shape := (Z.to_nat r, Z.to_nat c);
                       data := replicate (Z.to_nat r) (replicate (Z.to_nat c) 0%Q) |}.
Proof.
  intros Hr Hc. unfold np_zeros.
  destruct (Z.ltb_spec r 0); [lia|]. destruct (Z.ltb_spec c 0); [lia|]. reflexivity.
Qed.

Lemma setitem_block_well_shaped (a : ndarray) (r0 r1 c0 c1 : Z) (v : Q) :
  well_shaped a -> well_shaped (setitem_block a r0 r1 c0 c1 v).
Proof.
  intros [Hl Hr]. unfold well_shaped, setitem_block, nrows, ncols. simpl. split.
  - rewrite length_imap. exact Hl.
  - apply Forall_forall. intros row Hin.
    apply list_elem_of_lookup in Hin. destruct Hin as [i Hi].
    rewrite list_lookup_imap in Hi.
    destruct (data a !! i) as [row0|] eqn:Hrow; [|discriminate]. simpl in Hi.
    assert (Hlen : length row0 = snd (shape a)).
    { rewrite Forall_forall in Hr. apply Hr. eapply list_elem_of_lookup_2; eauto. }
    destruct (in_slice _ r0 r1 i); injection Hi as <-; [|exact Hlen].
    now rewrite length_imap.
Qed.

(** The entries and the shape of the matrix, from the four entries of [B]
    that the cell reads. *)
Lemma prob_matrix_entries (n : Z) (B : ndarray) (b00 b01 b10 b11 : Q) :
  0 <= n ->
  getitem B 0 0 = Ok b00 -> getitem B 0 1 = Ok b01 ->
  getitem B 1 0 = Ok b10 -> getitem B 1 1 = Ok b11 ->
  exists P,
    prob_matrix n B = Ok P /\
    shape P = (Z.to_nat n, Z.to_nat n) /\ well_shaped P /\
    forall i j, 0 <= i < n -> 0 <= j < n ->
      getitem P (Z.to_nat i) (Z.to_nat j)
      = Ok (match group n i, group n j with
            | O, O => b00 | O, _ => b01 | _, O => b10 | _, _ => b11
            end).
Proof.
  intros Hn H00 H01 H10 H11. unfold prob_matrix.
  rewrite (np_zeros_Ok n n Hn Hn). cbn [rbind]. rewrite H00, H11, H01, H10. cbn [rbind].
  eexists. split; [reflexivity|]. split; [reflexivity|]. split.
  - do 4 apply setitem_block_well_shaped.
    split; simpl; [apply length_replicate|].
    apply Forall_forall. intros row Hin. apply elem_of_replicate in Hin as [-> _].
    apply length_replicate.
  - intros i j Hi Hj.
    assert (Hh : 0 <= int_half n <= n).
    { rewrite int_half_nonneg by lia. split; [apply Z.div_pos; lia|].
      apply Z.div_le_upper_bound; lia. }
    pose proof (getitem_zeros (Z.to_nat n) (Z.to_nat n) (Z.to_nat i) (Z.to_nat j)
                  ltac:(lia) ltac:(lia)) as H0.
    do 4 eapply getitem_setitem_block in H0.
    rewrite H0. clear H0. unfold nrows, ncols, setitem_block, shape. simpl fst. simpl snd.
    unfold group. fold (int_half n).
    assert (Hs : forall lo hi k, 0 <= lo <= n -> 0 <= hi <= n -> 0 <= k ->
               in_slice (Z.to_nat n) lo hi (Z.to_nat k) = ((lo <=? k) && (k <? hi))).
    { intros lo hi k Hlo Hhi Hk.
      apply eq_true_iff_eq. rewrite in_slice_spec by lia.
      rewrite andb_true_iff, Z.leb_le, Z.ltb_lt. lia. }
    rewrite !Hs by lia.
    destruct (Z.ltb_spec i (int_half n)), (Z.ltb_spec j (int_half n));
      repeat match goal with
             | |- context [?a <=? ?b] => destruct (Z.leb_spec a b); try lia
             | |- context [?a <? ?b] => destruct (Z.ltb_spec a b); try lia
             end; reflexivity.
Qed.

Lemma prob_matrix_negative (n : Z) (B : ndarray) :
  n < 0 -> prob_matrix n B = Err (ValueError "negative dimensions are not allowed").
Proof.
  intros Hn. unfold prob_matrix, np_zeros. destruct (Z.ltb_spec n 0); [reflexivity | lia].
Qed.

Lemma prob_matrix_Ok_inv (n : Z) (B P : ndarray) :
  prob_matrix n B = Ok P ->
  0 <= n /\
  exists b00 b01 b10 b11,
    getitem B 0 0 = Ok b00 /\ getitem B 0 1 = Ok b01 /\
    getitem B 1 0 = Ok b10 /\ getitem B 1 1 = Ok b11.
Proof.
  intros HP.
  assert (Hn : 0 <= n).
  { destruct (Z.le_gt_cases 0 n) as [H|H]; [exact H|].
    rewrite prob_matrix_negative in HP by lia. discriminate. }
  split; [exact Hn|].
  unfold prob_matrix in HP. rewrite (np_zeros_Ok n n Hn Hn) in HP.
  cbn [rbind] in HP.
  destruct (getitem B 0 0) as [b00|]; [|discriminate]. cbn [rbind] in HP.
  destruct (getitem B 1 1) as [b11|]; [|discriminate]. cbn [rbind] in HP.
  destruct (getitem B 0 1) as [b01|]; [|discriminate]. cbn [rbind] in HP.
  destruct (getitem B 1 0) as [b10|]; [|discriminate].
  exists b00, b01, b10, b11. auto.
Qed.

(** X2: when the probability matrix is defined. A negative [n_verts] is
    refused by [np.zeros] whatever [B] is; otherwise the matrix is built
    exactly when [B] has the entries (0,0), (1,1), (0,1) and (1,0), the
    only failure is an [IndexError], and nothing else of [B] is read. *)
Theorem prob_matrix_defined (n : Z) (B : ndarray) :
  (n < 0 -> prob_matrix n B = Err (ValueError "negative dimensions are not allowed")) /\
  (0 <= n ->
   ((exists P, prob_matrix n B = Ok P) <->
    (exists b00 b01 b10 b11,
       getitem B 0 0 = Ok b00 /\ getitem B 0 1 = Ok b01 /\
       getitem B 1 0 = Ok b10 /\ getitem B 1 1 = Ok b11)) /\
   (forall e, prob_matrix n B = Err e -> exists msg, e = IndexError msg) /\
   (forall b00 b01 b10 b11,
      getitem B 0 0 = Ok b00 -> getitem B 0 1 = Ok b01 ->
      getitem B 1 0 = Ok b10 -> getitem B 1 1 = Ok b11 ->
      prob_matrix n B = prob_matrix n (NdArray (2%nat, 2%nat) [[b00; b01]; [b10; b11]]))).
Proof.
  split.
  - apply prob_matrix_negative.
  - intros Hn.
    assert (Hget : forall i j e, getitem B i j = Err e -> exists msg, e = IndexError msg).
    { intros i j e. unfold getitem. destruct (data B !! i) as [row|]; [|intros [= <-]; eauto].
      destruct (row !! j); [discriminate | intros [= <-]; eauto]. }
    split; [split|split].
    + intros [P HP]. now apply prob_matrix_Ok_inv in HP.
    + intros (b00 & b01 & b10 & b11 & H00 & H01 & H10 & H11).
      destruct (prob_matrix_entries n B _ _ _ _ Hn H00 H01 H10 H11) as (P & HP & _).
      eauto.
    + intros e He. unfold prob_matrix in He. rewrite (np_zeros_Ok n n Hn Hn) in He.
      cbn [rbind] in He.
      destruct (getitem B 0 0) as [b00|] eqn:E00; [|injection He as <-; eapply Hget; eauto].
      cbn [rbind] in He.
      destruct (getitem B 1 1) as [b11|] eqn:E11; [|injection He as <-; eapply Hget; eauto].
      cbn [rbind] in He.
      destruct (getitem B 0 1) as [b01|] eqn:E01; [|injection He as <-; eapply Hget; eauto].
      cbn [rbind] in He.
      destruct (getitem B 1 0) as [b10|] eqn:E10; [|injection He as <-; eapply Hget; eauto].
      discriminate He.
    + intros b00 b01 b10 b11 H00 H01 H10 H11. unfold prob_matrix.
      rewrite H00, H01, H10, H11. reflexivity.
Qed.

(** X3: the block structure of the probability matrix. It is [n] by [n]
    with rows of length [n]; two vertices of the same group have the same
    row, so there are at most two distinct rows; and a symmetric block
    matrix ([B[0,1] = B[1,0]], as in both cases of the notebooks) gives a
    symmetric probability matrix. *)
Theorem prob_matrix_block_structure (n : Z) (B P : ndarray) :
  prob_matrix n B = Ok P ->
  shape P = (Z.to_nat n, Z.to_nat n) /\ well_shaped P /\
  (forall i i' j, 0 <= i < n -> 0 <= i' < n -> 0 <= j < n -> group n i = group n i' ->
     getitem P (Z.to_nat i) (Z.to_nat j) = getitem P (Z.to_nat i') (Z.to_nat j)) /\
  (getitem B 0 1 = getitem B 1 0 ->
   forall i j, 0 <= i < n -> 0 <= j < n ->
     getitem P (Z.to_nat i) (Z.to_nat j) = getitem P (Z.to_nat j) (Z.to_nat i)).
Proof.
  intros HP.
  destruct (prob_matrix_Ok_inv n B P HP)
    as (Hn & b00 & b01 & b10 & b11 & H00 & H01 & H10 & H11).
  destruct (prob_matrix_entries n B _ _ _ _ Hn H00 H01 H10 H11) as (P' & HP' & Hsh & Hws & Hent).
  assert (P' = P) by congruence. subst P'.
  split; [exact Hsh|]. split; [exact Hws|]. split.
  - intros i i' j Hi Hi' Hj Hg. rewrite !Hent by lia. now rewrite Hg.
  - intros Hsym i j Hi Hj. rewrite !Hent by lia.
    assert (b01 = b10) by congruence. subst b10.
    destruct (group n i), (group n j); reflexivity.
Qed.

Lemma prob_matrix_block_structure_witness :
  exists P, prob_matrix 5 BlockTutorial.B_affinity = Ok P /\
  shape P = (Z.to_nat 5, Z.to_nat 5) /\ well_shaped P /\
  (forall i i' j, 0 <= i < 5 -> 0 <= i' < 5 -> 0 <= j < 5 -> group 5 i = group 5 i' ->
     getitem P (Z.to_nat i) (Z.to_nat j) = getitem P (Z.to_nat i') (Z.to_nat j)) /\
  (getitem BlockTutorial.B_affinity 0 1 = getitem BlockTutorial.B_affinity 1 0 ->
   forall i j, 0 <= i < 5 -> 0 <= j < 5 ->
     getitem P (Z.to_nat i) (Z.to_nat j) = getitem P (Z.to_nat j) (Z.to_nat i)).
Proof.
  eexists. split; [vm_compute; reflexivity|].
  apply (prob_matrix_block_structure 5 BlockTutorial.B_affinity). vm_compute. reflexivity.
Defined.

(** ** Shapes of the latent positions *)

Lemma slice_bound_le (len : nat) (x : Z) : (slice_bound len x <= len)%nat.
Proof. unfold slice_bound. destruct (Z.ltb_spec x 0); lia. Qed.

Lemma getitem_block_well_shaped (a : ndarray) (r0 r1 c0 c1 : Z) :
  well_shaped a -> well_shaped (getitem_block a r0 r1 c0 c1).
Proof.
  intros [Hl Hr]. unfold well_shaped, getitem_block, nrows, ncols in *. cbn [shape data fst snd].
  pose proof (slice_bound_le (fst (shape a)) r1) as Hr1.
  pose proof (slice_bound_le (snd (shape a)) c1) as Hc1.
  split.
  - rewrite length_map, length_take, length_drop. lia.
  - apply Forall_forall. intros row Hin.
    apply list_elem_of_In, in_map_iff in Hin. destruct Hin as (row0 & <- & Hin).
    assert (Hlen : length row0 = snd (shape a)).
    { rewrite Forall_forall in Hr. apply Hr.
      apply list_elem_of_In in Hin.
      eapply subseteq_drop, subseteq_take. exact Hin. }
    rewrite length_take, length_drop. lia.
Qed.

Lemma transpose_well_shaped (a : ndarray) :
  length (data a) = nrows a -> well_shaped (transpose a).
Proof.
  intros Hl. unfold well_shaped, transpose, nrows, ncols in *. cbn [shape data fst snd].
  split.
  - now rewrite length_map, length_seq.
  - apply Forall_forall. intros row Hin.
    apply list_elem_of_In, in_map_iff in Hin. destruct Hin as (j & <- & _).
    now rewrite length_map.
Qed.

Lemma np_diag_well_shaped (v : list Q) : well_shaped (np_diag v).
Proof.
  unfold well_shaped, np_diag, nrows, ncols. cbn [shape data fst snd]. split.
  - apply length_imap.
  - apply Forall_forall. intros row Hin.
    apply list_elem_of_lookup in Hin. destruct Hin as [i Hi].
    rewrite list_lookup_imap in Hi. destruct (v !! i); [|discriminate].
    injection Hi as <-. apply length_imap.
Qed.

Lemma map_array_well_shaped (f : Q -> Q) (a : ndarray) :
  well_shaped a -> well_shaped (map_array f a).
Proof.
  intros [Hl Hr]. unfold well_shaped, map_array, nrows, ncols in *. cbn [shape data fst snd].
  split; [now rewrite length_map|].
  apply Forall_forall. intros row Hin.
  apply list_elem_of_In, in_map_iff in Hin. destruct Hin as (row0 & <- & Hin).
  rewrite length_map. rewrite Forall_forall in Hr. apply Hr. now apply list_elem_of_In.
Qed.

Lemma matmul_Ok (a b : ndarray) :
  length (data a) = nrows a -> ncols a = nrows b ->
  exists c, matmul a b = Ok c /\ shape c = (nrows a, ncols b) /\ well_shaped c.
Proof.
  intros Hl He. unfold matmul. rewrite He, Nat.eqb_refl. eexists. split; [reflexivity|].
  split; [reflexivity|]. unfold well_shaped, nrows, ncols. cbn [shape data fst snd]. split.
  - now rewrite length_map.
  - apply Forall_forall. intros row Hin.
    apply list_elem_of_In, in_map_iff in Hin. destruct Hin as (row0 & <- & _).
    unfold transpose. cbn [data]. now rewrite !length_map, length_seq.
Qed.

Lemma concatenate_axis0_Ok (a b : ndarray) :
  well_shaped a -> well_shaped b -> ncols a = ncols b ->
  exists c, concatenate_axis0 a b = Ok c /\
            shape c = ((nrows a + nrows b)%nat, ncols a) /\ well_shaped c.
Proof.
  intros [Hla Hra] [Hlb Hrb] He. unfold concatenate_axis0.
  destruct (Nat.eqb_spec (ncols a) (ncols b)) as [_|Hne]; [|contradiction].
  eexists. split; [reflexivity|]. split; [reflexivity|].
  unfold well_shaped, nrows, ncols in *. cbn [shape data fst snd]. split.
  - rewrite length_app. lia.
  - apply Forall_app. split; [exact Hra | now rewrite He].
Qed.

Lemma getslice_length (v : list Q) (hi : Z) :
  0 <= hi -> length (getslice v 0 hi) = Nat.min (Z.to_nat hi) (length v).
Proof.
  intros H. unfold getslice, slice_bound. simpl Z.ltb.
  destruct (Z.ltb_spec hi 0); [lia|]. rewrite length_take, length_drop. simpl. lia.
Qed.

(** The slices, products and concatenation of the latent positions fit
    together for every [n >= 0]. *)
Lemma latent_positions_Ok {RNG} (L : libraries RNG) (n : Z) (U V : ndarray) (S : list Q) :
  0 <= n ->
  shape U = (Z.to_nat n, Z.to_nat n) -> shape V = (Z.to_nat n, Z.to_nat n) ->
  well_shaped U -> well_shaped V -> length S = Z.to_nat n ->
  exists M,
    latent_positions L n U S V = Ok M /\
    shape M = (Z.to_nat n, Nat.min 2 (Z.to_nat n)) /\ well_shaped M.
Proof.
  intros Hn HU HV WU WV HS. unfold latent_positions.
  assert (Hh : 0 <= int_half n <= n).
  { rewrite int_half_nonneg by lia. split; [apply Z.div_pos; lia|].
    apply Z.div_le_upper_bound; lia. }
  set (D := map_array (np_sqrt L) (np_diag (getslice S 0 2))).
  assert (WD : well_shaped D) by apply map_array_well_shaped, np_diag_well_shaped.
  assert (HD : shape D = (Nat.min 2 (Z.to_nat n), Nat.min 2 (Z.to_nat n))).
  { unfold D, map_array, np_diag. cbn [shape]. rewrite getslice_length by lia.
    rewrite HS. reflexivity. }
  set (A := getitem_block U 0 (int_half n) 0 2).
  assert (WA : well_shaped A) by now apply getitem_block_well_shaped.
  assert (HA : shape A = (Z.to_nat (int_half n), Nat.min 2 (Z.to_nat n))).
  { unfold A, getitem_block, nrows, ncols. rewrite HU. cbn [shape fst snd].
    rewrite !slice_bound_nonneg by lia. f_equal; try lia.
    unfold slice_bound. simpl. lia. }
  destruct (matmul_Ok A D) as (X & EX & HX & WX).
  { apply WA. } { unfold ncols, nrows. now rewrite HA, HD. }
  rewrite EX. cbn [rbind].
  set (C := getitem_block (transpose V) (int_half n) n 0 2).
  assert (WC : well_shaped C).
  { apply getitem_block_well_shaped, transpose_well_shaped, WV. }
  assert (HC : shape C = ((Z.to_nat n - Z.to_nat (int_half n))%nat, Nat.min 2 (Z.to_nat n))).
  { unfold C, getitem_block, transpose, nrows, ncols. rewrite HV. cbn [shape fst snd].
    rewrite !slice_bound_nonneg by lia. f_equal; try lia.
    unfold slice_bound. simpl. lia. }
  destruct (matmul_Ok C D) as (Y & EY & HY & WY).
  { apply WC. } { unfold ncols, nrows. now rewrite HC, HD. }
  rewrite EY. cbn [rbind].
  destruct (concatenate_axis0_Ok X Y WX WY) as (M & EM & HM & WM).
  { unfold ncols. now rewrite HX, HY. }
  exists M. split; [exact EM|]. split; [|exact WM].
  rewrite HM. unfold nrows, ncols. rewrite HX, HY. unfold nrows, ncols.
  rewrite HA, HC, HD. cbn [fst snd]. f_equal. lia.
Qed.

(** X4: the latent position matrix has one row per vertex. For square
    factors [U], [V] of size [n] and [n] singular values it is defined for
    every [n >= 0], of shape (n, min(2, n)), odd [n] included: [int(n/2)]
    rows from [U] and the other [n - int(n/2)] from [V.T]. For an odd [n]
    that is one row more than [labels_lse] has labels. *)
Theorem latent_positions_shape {RNG} (L : libraries RNG) (n : Z) (U V : ndarray) (S : list Q) :
  0 <= n ->
  shape U = (Z.to_nat n, Z.to_nat n) -> shape V = (Z.to_nat n, Z.to_nat n) ->
  well_shaped U -> well_shaped V -> length S = Z.to_nat n ->
  exists M,
    latent_positions L n U S V = Ok M /\
    shape M = (Z.to_nat n, Nat.min 2 (Z.to_nat n)) /\ well_shaped M /\
    (Z.even n = true -> nrows M = length (labels_lse n)) /\
    (Z.odd n = true -> nrows M = Datatypes.S (length (labels_lse n))).
Proof.
  intros Hn HU HV WU WV HS.
  destruct (latent_positions_Ok L n U V S Hn HU HV WU WV HS) as (M & EM & HM & WM).
  exists M. split; [exact EM|]. split; [exact HM|]. split; [exact WM|].
  unfold nrows. rewrite HM, labels_lse_length, int_half_nonneg by lia. cbn [fst].
  pose proof (Z.div_mod n 2 ltac:(lia)) as Hd.
  split; intros Hp.
  - rewrite Zmod_even, Hp in Hd. lia.
  - rewrite Zmod_odd, Hp in Hd. lia.
Qed.

Lemma latent_positions_shape_witness :
  exists M,
    latent_positions Toy.lib 5 (Toy.full 5 5 1) (replicate 5 1%Q) (Toy.full 5 5 2) = Ok M /\
    shape M = (Z.to_nat 5, Nat.min 2 (Z.to_nat 5)) /\ well_shaped M /\
    (Z.even 5 = true -> nrows M = length (labels_lse 5)) /\
    (Z.odd 5 = true -> nrows M = Datatypes.S (length (labels_lse 5))).
Proof.
  apply (latent_positions_shape Toy.lib 5); try reflexivity; try lia.
  - split; [reflexivity|]. repeat constructor.
  - split; [reflexivity|]. repeat constructor.
Defined.

(** ** From the block matrix to the k-neighbors call *)

Lemma prob_matrix_shape (n : Z) (B P : ndarray) :
  prob_matrix n B = Ok P ->
  0 <= n /\ shape P = (Z.to_nat n, Z.to_nat n) /\ well_shaped P.
Proof.
  intros HP.
  destruct (prob_matrix_Ok_inv n B P HP)
    as (Hn & b00 & b01 & b10 & b11 & H00 & H01 & H10 & H11).
  destruct (prob_matrix_entries n B _ _ _ _ Hn H00 H01 H10 H11) as (P' & HP' & Hsh & Hws & _).
  assert (P' = P) by congruence. subst P'. auto.
Qed.

Lemma toy_svd_shapes : svd_shapes Toy.lib.
Proof.
  intros P U S V Hsq WP E. cbn in E. unfold Toy.toy_svd in E.
  destruct (Nat.eqb_spec (nrows P) (ncols P)) as [_|Hne]; [|contradiction].
  injection E as <- <- <-. rewrite length_replicate. auto.
Qed.

Lemma toy_sampler_shapes : sampler_shapes Toy.lib.
Proof.
  intros mean cov size s X s' E. cbn in E. unfold Toy.toy_normal in E.
  destruct (Z.ltb_spec size 0); [discriminate|].
  injection E as <- <-. split; [lia | reflexivity].
Qed.

(** X5: once [B] has its four entries and the SVD has returned, the
    block-model construction reaches [kneighbors_graph]: the slices, the
    two products and the concatenation cannot fail, whatever the parity
    of [n]. The call is made on a latent position matrix with one row per
    vertex and [min(2, n)] columns, with [floor(sqrt(n))] neighbors, and
    its outcome is the outcome of the construction. *)
Theorem block_model_graph_reaches_kneighbors {RNG} (L : libraries RNG) (n : Z)
    (B P U V : ndarray) (S : list Q) (w : world RNG) :
  svd_shapes L ->
  prob_matrix n B = Ok P ->
  np_linalg_svd L P = Ok (U, S, V) ->
  exists lat,
    latent_positions L n U S V = Ok lat /\
    shape lat = (Z.to_nat n, Nat.min 2 (Z.to_nat n)) /\ well_shaped lat /\
    block_model_graph L n B w =
      (kneighbors_graph L lat (Z.sqrt n),
       World (heap w) (rng w)
         (calls w ++ [Call_svd P (Ok (U, S, V));
                      Call_kneighbors_graph lat (Z.sqrt n)
                        (kneighbors_graph L lat (Z.sqrt n))])
         (tqdm_bar w)).
Proof.
  intros Hsvd HP HUSV.
  destruct (prob_matrix_shape n B P HP) as (Hn & HshP & WP).
  destruct (Hsvd P U S V) as (HU & HV & HS & WU & WV);
    [unfold nrows, ncols; now rewrite HshP | exact WP | exact HUSV |].
  rewrite HshP in HU, HV. unfold nrows in HS. rewrite HshP in HS. cbn [fst] in HS.
  destruct (latent_positions_Ok L n U V S Hn HU HV WU WV HS) as (lat & Elat & Hlat & Wlat).
  exists lat. split; [exact Elat|]. split; [exact Hlat|]. split; [exact Wlat|].
  rewrite block_model_graph_run.
  unfold block_model_graph_value, block_model_graph_calls.
  rewrite HP. cbn [rbind]. rewrite HUSV. cbn [rbind fst snd]. rewrite Elat. cbn [rbind].
  unfold int_sqrt. destruct (Z.ltb_spec n 0); [lia|]. cbn [rbind]. unfold toarray.
  destruct (kneighbors_graph L lat (Z.sqrt n)); reflexivity.
Qed.

Lemma block_model_graph_reaches_kneighbors_witness :
  exists lat,
    latent_positions Toy.lib 5 P5_affinity (replicate 5 1%Q) P5_affinity = Ok lat /\
    shape lat = (Z.to_nat 5, Nat.min 2 (Z.to_nat 5)) /\ well_shaped lat /\
    block_model_graph Toy.lib 5 BlockTutorial.B_affinity Toy.w0 =
      (kneighbors_graph Toy.lib lat (Z.sqrt 5),
       World (heap Toy.w0) (rng Toy.w0)
         (calls Toy.w0 ++ [Call_svd P5_affinity (Ok (P5_affinity, replicate 5 1%Q, P5_affinity));
                           Call_kneighbors_graph lat (Z.sqrt 5)
                             (kneighbors_graph Toy.lib lat (Z.sqrt 5))])
         (tqdm_bar Toy.w0)).
Proof.
  apply (block_model_graph_reaches_kneighbors Toy.lib 5 BlockTutorial.B_affinity
           P5_affinity P5_affinity P5_affinity (replicate 5 1%Q) Toy.w0).
  - exact toy_svd_shapes.
  - vm_compute. reflexivity.
  - vm_compute. reflexivity.
Defined.

(** ** The vertices of the Gaussian graphs *)

Lemma neighbor_inputs_app (a b : list event) :
  neighbor_inputs (a ++ b) = neighbor_inputs a ++ neighbor_inputs b.
Proof. unfold neighbor_inputs. apply flat_map_app. Qed.

(** X6: in the Gaussian construction the matrix handed to
    [kneighbors_graph] has exactly as many rows as [labels_lse] has
    labels, for every sample count, odd ones included: both are twice
    [int(n/2)]. The two means then have the same length, which is the
    number of columns; and the construction touches no object. A
    construction that returns has made that one call, on [n >= 0]. *)
Theorem gaussian_graph_vertices {RNG} (L : libraries RNG) (n : Z) (mean_1 mean_2 : list Q)
    (w : world RNG) :
  sampler_shapes L ->
  exists evs,
    calls (snd (gaussian_graph L n mean_1 mean_2 w)) = calls w ++ evs /\
    heap (snd (gaussian_graph L n mean_1 mean_2 w)) = heap w /\
    Forall (fun X => shape X = (length (labels_lse n), length mean_1) /\
                     length mean_2 = length mean_1)
           (neighbor_inputs evs) /\
    (forall g, fst (gaussian_graph L n mean_1 mean_2 w) = Ok g ->
               0 <= n /\ length (neighbor_inputs evs) = 1%nat).
Proof.
  intros Hs.
  unfold gaussian_graph, multivariate_normal, kneighbors, draw, log, bind, lift, ret.
  destruct w as [h g c b]. cbn [heap rng calls tqdm_bar].
  destruct (np_random_multivariate_normal L mean_1 (np_eye 2) (int_half n) g)
    as [[X|e] g1] eqn:E1; cbn [heap rng calls tqdm_bar fst snd].
  2: { eexists. split; [reflexivity|]. split; [reflexivity|].
       split; [constructor | discriminate]. }
  destruct (np_random_multivariate_normal L mean_2 (np_eye 2) (int_half n) g1)
    as [[Y|e] g2] eqn:E2; cbn [heap rng calls tqdm_bar fst snd].
  2: { eexists. split; [now rewrite <- app_assoc|]. split; [reflexivity|].
       split; [constructor | discriminate]. }
  destruct (Hs _ _ _ _ _ _ E1) as [Hh HX]. destruct (Hs _ _ _ _ _ _ E2) as [_ HY].
  unfold concatenate_axis0, ncols. rewrite HX, HY. cbn [fst snd].
  destruct (Nat.eqb_spec (length mean_1) (length mean_2)) as [Hlen|Hlen];
    cbn [heap rng calls tqdm_bar fst snd].
  2: { eexists. split; [now rewrite <- app_assoc|]. split; [reflexivity|].
       split; [constructor | discriminate]. }
  unfold int_sqrt. destruct (Z.ltb_spec n 0) as [Hn|Hn]; cbn [heap rng calls tqdm_bar fst snd].
  { eexists. split; [now rewrite <- app_assoc|]. split; [reflexivity|].
    split; [constructor | discriminate]. }
  assert (Hin : forall out,
    Forall (fun X0 => shape X0 = (length (labels_lse n), length mean_1) /\
                      length mean_2 = length mean_1)
      (neighbor_inputs
         [Call_multivariate_normal mean_1 (np_eye 2) (int_half n) (Ok X);
          Call_multivariate_normal mean_2 (np_eye 2) (int_half n) (Ok Y);
          Call_kneighbors_graph
            {| shape := ((nrows X + nrows Y)%nat, length mean_1); data := data X ++ data Y |}
            (Z.sqrt n) out])).
  { intros out. cbn. constructor; [|constructor]. split; [|now symmetry].
    cbn [shape]. unfold nrows. rewrite HX, HY, labels_lse_length. cbn [fst].
    f_equal. lia. }
  destruct (kneighbors_graph L _ (Z.sqrt n)) as [kn|e] eqn:Ek;
    cbn [heap rng calls tqdm_bar fst snd].
  - eexists. split; [rewrite <- !app_assoc; reflexivity|]. split; [reflexivity|].
    split; [apply Hin|]. intros _ _. split; [exact Hn | reflexivity].
  - eexists. split; [rewrite <- !app_assoc; reflexivity|]. split; [reflexivity|].
    split; [apply Hin | discriminate].
Qed.

Lemma gaussian_graph_vertices_witness :
  exists evs,
    calls (snd (gaussian_graph Toy.lib 5 [-0.33; -0.94]%Q [-0.94; 0.33]%Q Toy.w0))
    = calls Toy.w0 ++ evs /\
    heap (snd (gaussian_graph Toy.lib 5 [-0.33; -0.94]%Q [-0.94; 0.33]%Q Toy.w0))
    = heap Toy.w0 /\
    Forall (fun X => shape X = (length (labels_lse 5), length [-0.33; -0.94]%Q) /\
                     length [-0.94; 0.33]%Q = length [-0.33; -0.94]%Q)
           (neighbor_inputs evs) /\
    (forall g, fst (gaussian_graph Toy.lib 5 [-0.33; -0.94]%Q [-0.94; 0.33]%Q Toy.w0) = Ok g ->
               0 <= 5 /\ length (neighbor_inputs evs) = 1%nat).
Proof.
  apply (gaussian_graph_vertices Toy.lib 5 [-0.33; -0.94]%Q [-0.94; 0.33]%Q Toy.w0).
  exact toy_sampler_shapes.
Defined.

(** ** What the scores are computed from *)
Section ScoreFlow.
Context {RNG : Type} (L : libraries RNG).

Lemma step_ok_scored (m : string) (G : ndarray -> Prop) (h : gmap loc pyobj)
    (labels_true : loc) (Pre : event -> Prop) (p : option event) (e : event) :
  step_ok L m G (fun lt => h !! labels_true = Some (PyList lt)) Pre p e ->
  scored_step L h labels_true p e.
Proof. destruct e; simpl; tauto. Qed.

(** A trial that returns has appended one row: the method and the score
    of its one scoring call. *)
Lemma tutorial_trial_rows (kn_graph : loc) (m : string) (labels_true : loc)
    (cov_type : string) (l : locals) (w : world RNG) (l' : locals) (w' : world RNG) :
  Tutorial.trial L kn_graph m labels_true cov_type l w = (Ok l', w') ->
  exists evs s, steps w w' evs /\ rows l' = rows l ++ [trial_record m s] /\ scores evs = [s].
Proof.
  intros Hrun.
  unfold Tutorial.trial, choose_embedding, concatenate_if_ase_or_lse in Hrun.
  unfold ase_fit_transform, lse_fit_transform, sklearn_spectral_embedding,
    gm_fit_predict, ari_score, load_array, load_list, draw, log in Hrun.
  destruct l as [rs [x|] [y|]];
    (destruct (String.eqb m "ase");
     [|destruct (String.eqb m "lse"); [|destruct (String.eqb m "sklearn")]]);
    cbn [orb] in Hrun.
  all: run_in Hrun.
  all: try discriminate Hrun.
  all: inversion Hrun; subst; clear Hrun; cbn [heap calls rows].
  all: rewrite <- ?app_assoc; cbn [app].
  all: eexists; eexists; (split; [split; reflexivity|]); split; reflexivity.
Qed.

Lemma regenerating_trial_rows (n_verts : Z) (B : loc) (m : string) (labels_true : loc)
    (l : locals) (w : world RNG) (l' : locals) (w' : world RNG) :
  Regenerating.trial L n_verts B m labels_true l w = (Ok l', w') ->
  exists evs s, steps w w' evs /\ rows l' = rows l ++ [trial_record m s] /\ scores evs = [s].
Proof.
  intros Hrun. unfold Regenerating.trial in Hrun.
  unfold bind at 1 in Hrun. unfold load_array at 1 in Hrun.
  destruct (heap w !! B) as [[b|xs]|] eqn:HB; try discriminate Hrun.
  unfold bind at 1 in Hrun. rewrite block_model_graph_run in Hrun.
  destruct (block_model_graph_calls_build L n_verts b) as (_ & _ & Hsc).
  destruct (block_model_graph_value L n_verts b) as [g|e] eqn:Hg; [|discriminate Hrun].
  unfold choose_embedding, concatenate_if_ase_or_lse in Hrun.
  unfold ase_fit_transform, lse_fit_transform, sklearn_spectral_embedding,
    gm_ic_fit_predict, ari_score, load_array, load_list, draw, log in Hrun.
  destruct l as [rs [x|] [y|]];
    (destruct (String.eqb m "ase");
     [|destruct (String.eqb m "lse"); [|destruct (String.eqb m "sklearn")]]);
    cbn [orb] in Hrun.
  all: run_in Hrun.
  all: try discriminate Hrun.
  all: inversion Hrun; subst; clear Hrun; cbn [heap calls rows].
  all: rewrite <- ?app_assoc; cbn [app].
  all: eexists; eexists; (split; [split; reflexivity|]).
  all: rewrite scores_app, Hsc; split; reflexivity.
Qed.

Section LoopRows.
Context (m : string) (body : locals -> M RNG locals).
Hypothesis body_rows : forall l w l' w', body l w = (Ok l', w') ->
  exists evs s, steps w w' evs /\ rows l' = rows l ++ [trial_record m s] /\ scores evs = [s].

Lemma for_range_rows (n : nat) (l : locals) (w : world RNG) (l' : locals) (w' : world RNG) :
  for_range n body l w = (Ok l', w') ->
  exists evs, steps w w' evs /\
              rows l' = rows l ++ map (trial_record m) (scores evs) /\
              length (scores evs) = n.
Proof.
  revert l w. induction n as [|n IH]; intros l w Hrun; simpl in Hrun.
  - unfold ret in Hrun. inversion Hrun; subst. exists [].
    split; [apply steps_refl|]. split; [now rewrite app_nil_r | reflexivity].
  - unfold bind in Hrun. destruct (body l w) as [[l1|e] w1] eqn:Hb; [|discriminate].
    destruct (body_rows _ _ _ _ Hb) as (evs1 & s & Hs1 & Hr1 & Hsc1).
    destruct (IH _ _ Hrun) as (evs2 & Hs2 & Hr2 & Hsc2).
    exists (evs1 ++ evs2). split; [eapply steps_trans; eassumption|].
    rewrite scores_app, Hsc1, Hr2, Hr1, <- app_assoc, length_app, Hsc2.
    split; reflexivity.
Qed.

Lemma for_tqdm_from_rows (n done total : nat) (l : locals) (w : world RNG)
    (l' : locals) (w' : world RNG) :
  for_tqdm_from done n total body l w = (Ok l', w') ->
  exists evs, steps w w' evs /\
              rows l' = rows l ++ map (trial_record m) (scores evs) /\
              length (scores evs) = n.
Proof.
  revert done l w. induction n as [|n IH]; intros done l w Hrun; simpl in Hrun.
  - unfold ret in Hrun. inversion Hrun; subst. exists [].
    split; [apply steps_refl|]. split; [now rewrite app_nil_r | reflexivity].
  - unfold bind at 1 in Hrun. destruct (body l w) as [[l1|e] w1] eqn:Hb; [|discriminate].
    destruct (body_rows _ _ _ _ Hb) as (evs1 & s & Hs1 & Hr1 & Hsc1).
    unfold bind, tqdm_update in Hrun.
    destruct (IH _ _ _ Hrun) as (evs2 & [A B] & Hr2 & Hsc2).
    exists (evs1 ++ evs2). split.
    { eapply steps_trans; [exact Hs1|]. split; [exact A | exact B]. }
    rewrite scores_app, Hsc1, Hr2, Hr1, <- app_assoc, length_app, Hsc2.
    split; reflexivity.
Qed.

Lemma for_tqdm_rows (n : nat) (l : locals) (w : world RNG) (l' : locals) (w' : world RNG) :
  for_tqdm n body l w = (Ok l', w') ->
  exists evs, steps w w' evs /\
              rows l' = rows l ++ map (trial_record m) (scores evs) /\
              length (scores evs) = n.
Proof.
  intros Hrun. unfold for_tqdm, bind, tqdm_update in Hrun.
  destruct (for_tqdm_from_rows _ _ _ _ _ _ _ Hrun) as (evs & [A B] & Hr & Hsc).
  exists evs. split; [split; [exact A | exact B]|]. split; assumption.
Qed.

End LoopRows.

(** A call of the tutorials' [calc_ari] that returns: its frame is the
    scores of its log, in order. *)
Lemma tutorial_calc_ari_rows (kn_graph : loc) (n_sims : Z) (m : string) (labels_true : loc)
    (cov_type : string) (w : world RNG) (df : DataFrame) (w' : world RNG) :
  Tutorial.calc_ari L kn_graph n_sims m labels_true cov_type w = (Ok df, w') ->
  exists evs, steps w w' evs /\
              df = map (trial_record m) (scores evs) /\
              length (scores evs) = Z.to_nat n_sims.
Proof.
  intros Hrun. unfold Tutorial.calc_ari in Hrun. unfold bind in Hrun.
  destruct (for_range _ _ _ w) as [[l1|e] w1] eqn:Hloop; [|discriminate].
  unfold ret in Hrun. inversion Hrun; subst.
  destruct (for_range_rows m _ (tutorial_trial_rows kn_graph m labels_true cov_type)
              _ _ _ _ _ Hloop) as (evs & Hs & Hr & Hlen).
  exists evs. split; [exact Hs|]. split; [exact Hr | exact Hlen].
Qed.

Lemma regenerating_calc_ari_rows (n_verts n_sims : Z) (B : loc) (m : string)
    (labels_true : loc) (w : world RNG) (df : DataFrame) (w' : world RNG) :
  Regenerating.calc_ari L n_verts n_sims B m labels_true w = (Ok df, w') ->
  exists evs, steps w w' evs /\
              df = map (trial_record m) (scores evs) /\
              length (scores evs) = Z.to_nat n_sims.
Proof.
  intros Hrun. unfold Regenerating.calc_ari in Hrun. unfold bind in Hrun.
  destruct (for_tqdm _ _ _ w) as [[l1|e] w1] eqn:Hloop; [|discriminate].
  unfold ret in Hrun. inversion Hrun; subst.
  destruct (for_tqdm_rows m _ (regenerating_trial_rows n_verts B m labels_true)
              _ _ _ _ _ Hloop) as (evs & Hs & Hr & Hlen).
  exists evs. split; [exact Hs|]. split; [exact Hr | exact Hlen].
Qed.

(** X7: where the scores come from, in both versions of [calc_ari] and
    without any assumption on the libraries. Every call of
    [adjusted_rand_score] compares the label list stored at [labels_true]
    with what the mixture model returned in the call just before, and a
    call of [calc_ari] that returns gives back exactly the scores of
    those calls, one row per trial in call order, each under the method's
    name. *)
Theorem calc_ari_scores_flow (kn_graph B labels_true : loc) (n_verts n_sims : Z)
    (m cov_type : string) (w : world RNG) :
  (exists evs,
     calls (snd (Tutorial.calc_ari L kn_graph n_sims m labels_true cov_type w))
     = calls w ++ evs /\
     chain (scored_step L (heap w) labels_true) None evs /\
     (forall df, fst (Tutorial.calc_ari L kn_graph n_sims m labels_true cov_type w) = Ok df ->
                 df = map (trial_record m) (scores evs) /\
                 length df = Z.to_nat n_sims)) /\
  (exists evs,
     calls (snd (Regenerating.calc_ari L n_verts n_sims B m labels_true w))
     = calls w ++ evs /\
     chain (scored_step L (heap w) labels_true) None evs /\
     (forall df, fst (Regenerating.calc_ari L n_verts n_sims B m labels_true w) = Ok df ->
                 df = map (trial_record m) (scores evs) /\
                 length df = Z.to_nat n_sims)).
Proof.
  split.
  - destruct (Tutorial.calc_ari L kn_graph n_sims m labels_true cov_type w) as [r w'] eqn:Hrun.
    destruct (tutorial_calc_ari_protocol L _ _ _ _ _ _ _ _ Hrun)
      as (_ & evs & [_ Hc] & Hch & _).
    exists evs. split; [exact Hc|]. split.
    + eapply chain_impl; [|exact Hch]. intros p e. apply step_ok_scored.
    + cbn [fst]. intros df ->.
      destruct (tutorial_calc_ari_rows _ _ _ _ _ _ _ _ Hrun) as (evs' & [_ Hc'] & Hdf & Hlen).
      assert (evs' = evs) by (rewrite Hc in Hc'; now apply app_inv_head in Hc').
      subst evs'. split; [exact Hdf|]. now rewrite Hdf, length_map.
  - destruct (Regenerating.calc_ari L n_verts n_sims B m labels_true w) as [r w'] eqn:Hrun.
    destruct (regenerating_calc_ari_protocol L _ _ _ _ _ _ _ _ Hrun)
      as (_ & evs & [_ Hc] & Hch & _).
    exists evs. split; [exact Hc|]. split.
    + eapply chain_impl; [|exact Hch]. intros p e. apply step_ok_scored.
    + cbn [fst]. intros df ->.
      destruct (regenerating_calc_ari_rows _ _ _ _ _ _ _ _ Hrun)
        as (evs' & [_ Hc'] & Hdf & Hlen).
      assert (evs' = evs) by (rewrite Hc in Hc'; now apply app_inv_head in Hc').
      subst evs'. split; [exact Hdf|]. now rewrite Hdf, length_map.
Qed.

End ScoreFlow.

(** ** The tables of the case cells *)

Lemma insert_key_idem (k : string) (ks : list string) :
  insert_key k (insert_key k ks) = insert_key k ks.
Proof.
  assert (Hr : String.compare k k = Eq).
  { pose proof (String.compare_antisym k k) as H.
    destruct (String.compare k k); simpl in H; congruence. }
  induction ks as [|k' ks IH]; simpl.
  - now rewrite Hr.
  - destruct (String.compare k k') eqn:Hc; simpl.
    + now rewrite Hc.
    + now rewrite Hr.
    + now rewrite Hc, IH.
Qed.

Lemma group_keys_uniform (m : string) (s : list Q) (df : DataFrame) :
  s <> [] -> group_keys (map (trial_record m) s ++ df) = insert_key m (group_keys df).
Proof.
  intros Hne. induction s as [|x s IH]; [congruence|].
  destruct s as [|y s]; [reflexivity|].
  change (group_keys (map (trial_record m) (x :: y :: s) ++ df))
    with (insert_key m (group_keys (map (trial_record m) (y :: s) ++ df))).
  rewrite IH by discriminate. apply insert_key_idem.
Qed.

Lemma group_scores_app (k : string) (a b : DataFrame) :
  group_scores k (a ++ b) = group_scores k a ++ group_scores k b.
Proof. unfold group_scores, DataFrame. now rewrite filter_app, map_app. Qed.

Lemma group_scores_uniform (k m : string) (s : list Q) :
  group_scores k (map (trial_record m) s) = if decide (m = k) then s else [].
Proof.
  unfold group_scores, DataFrame. induction s as [|x s IH]; simpl.
  - now destruct (decide (m = k)).
  - destruct (decide (m = k)) as [E|E].
    + rewrite filter_cons_True by exact E. simpl. now rewrite IH.
    + rewrite filter_cons_False by exact E. exact IH.
Qed.

Lemma recognized_keys (m1 m2 m3 : string) :
  recognized m1 -> recognized m2 -> recognized m3 ->
  m1 <> m2 -> m1 <> m3 -> m2 <> m3 ->
  insert_key m1 (insert_key m2 (insert_key m3 [])) = ["ase"; "lse"; "sklearn"].
Proof.
  unfold recognized.
  intros [-> | [-> | ->]] [-> | [-> | ->]] [-> | [-> | ->]] H12 H13 H23;
    try congruence; reflexivity.
Qed.

(** The table of three runs of distinct methods: one row per method, its
    value the mean of that run's scores. *)
Lemma three_frames_table (m1 m2 m3 : string) (s1 s2 s3 : list Q) :
  s1 <> [] -> s2 <> [] -> s3 <> [] -> m1 <> m2 -> m1 <> m3 -> m2 <> m3 ->
  exists table,
    groupby_mean (pd_concat [map (trial_record m1) s1; map (trial_record m2) s2;
                             map (trial_record m3) s3]) = Ok table /\
    map fst table = insert_key m1 (insert_key m2 (insert_key m3 [])) /\
    loc_row m1 table = Some (mean s1) /\
    loc_row m2 table = Some (mean s2) /\
    loc_row m3 table = Some (mean s3).
Proof.
  intros H1 H2 H3 H12 H13 H23.
  unfold pd_concat. cbn [concat]. rewrite app_nil_r.
  set (df := map (trial_record m1) s1 ++ map (trial_record m2) s2 ++ map (trial_record m3) s3).
  assert (Hk : group_keys df = insert_key m1 (insert_key m2 (insert_key m3 []))).
  { unfold df. rewrite !group_keys_uniform by assumption.
    rewrite <- (app_nil_r (map (trial_record m3) s3)).
    now rewrite group_keys_uniform by assumption. }
  assert (Hs : forall k, group_scores k df =
                 (if decide (m1 = k) then s1 else []) ++
                 (if decide (m2 = k) then s2 else []) ++
                 (if decide (m3 = k) then s3 else [])).
  { intros k. unfold df. now rewrite !group_scores_app, !group_scores_uniform. }
  exists (groupby_test_mean df). split.
  { unfold groupby_mean. destruct df as [|r df'] eqn:Edf; [|reflexivity].
    destruct s1; [congruence | discriminate Edf]. }
  unfold groupby_test_mean. rewrite Hk. split.
  { rewrite map_map. cbn [fst]. apply map_id. }
  split; [|split].
  - rewrite (loc_row_map (fun k => mean (group_scores k df))) by (apply insert_key_In; now left).
    rewrite Hs. rewrite decide_True by reflexivity.
    rewrite !decide_False by congruence. now rewrite !app_nil_r.
  - rewrite (loc_row_map (fun k => mean (group_scores k df)))
      by (apply insert_key_In; right; apply insert_key_In; now left).
    rewrite Hs. rewrite (decide_True (P := m2 = m2)) by reflexivity.
    rewrite !decide_False by congruence. now rewrite app_nil_r.
  - rewrite (loc_row_map (fun k => mean (group_scores k df)))
      by (apply insert_key_In; right; apply insert_key_In; right; apply insert_key_In; now left).
    rewrite Hs. rewrite (decide_True (P := m3 = m3)) by reflexivity.
    rewrite !decide_False by congruence. reflexivity.
Qed.

(** Two objects allocated one after the other sit at different addresses. *)
Lemma alloc_twice_lookup (h : gmap loc pyobj) (o1 o2 : pyobj) :
  let l1 := fresh (dom h) in
  let h1 := <[l1 := o1]> h in
  let l2 := fresh (dom h1) in
  <[l2 := o2]> h1 !! l1 = Some o1 /\ <[l2 := o2]> h1 !! l2 = Some o2.
Proof.
  intros l1 h1 l2.
  assert (Hne : l2 <> l1).
  { intros E. pose proof (is_fresh (dom h1)) as Hf. fold l2 in Hf. apply Hf.
    rewrite E. apply elem_of_dom_2 with o1. apply lookup_insert_eq. }
  split.
  - rewrite lookup_insert_ne by exact Hne. apply lookup_insert_eq.
  - apply lookup_insert_eq.
Qed.

Section CaseCells.
Context {RNG : Type} (L : libraries RNG).

Lemma scores_nonempty (n_sims : Z) (s : list Q) :
  1 <= n_sims -> length s = Z.to_nat n_sims -> s <> [].
Proof. intros Hn Hl E. rewrite E in Hl. simpl in Hl. lia. Qed.

(** X8: a case cell of the block-model tutorial, end to end. When the
    graph can be built and, for each of the three methods, the routines
    return on what a trial hands them, with at least one trial and three
    different recognized methods, the cell returns a table with the rows
    "ase", "lse", "sklearn" in that order, whatever the order of the runs;
    the value of each method is the binary64 mean of the scores of its own
    run, and the runs score one after the other, [n_sims] times each. *)
Theorem block_tutorial_case_table (n n_sims : Z) (B g : ndarray) (m1 m2 m3 : string)
    (w : world RNG) :
  1 <= n_sims ->
  recognized m1 -> recognized m2 -> recognized m3 ->
  m1 <> m2 -> m1 <> m3 -> m2 <> m3 ->
  block_model_graph_value L n B = Ok g ->
  returns_on L m1 (GaussianMixture L 2 "full") g (labels_lse n) ->
  returns_on L m2 (GaussianMixture L 2 "full") g (labels_lse n) ->
  returns_on L m3 (GaussianMixture L 2 "full") g (labels_lse n) ->
  exists table w' evs s1 s2 s3,
    BlockTutorial.case L n n_sims B m1 m2 m3 w = (Ok table, w') /\
    calls w' = calls w ++ evs /\
    scores evs = s1 ++ s2 ++ s3 /\
    length s1 = Z.to_nat n_sims /\ length s2 = Z.to_nat n_sims /\
    length s3 = Z.to_nat n_sims /\
    map fst table = ["ase"; "lse"; "sklearn"] /\
    loc_row m1 table = Some (mean s1) /\
    loc_row m2 table = Some (mean s2) /\
    loc_row m3 table = Some (mean s3).
Proof.
  intros Hn R1 R2 R3 D12 D13 D23 Hg C1 C2 C3.
  destruct (alloc_twice_lookup (heap w) (PyList (labels_lse n)) (PyArray g)) as [Hlab Hkn].
  unfold BlockTutorial.case.
  unfold bind at 1. unfold alloc at 1. cbv beta iota zeta.
  unfold bind at 1. rewrite block_model_graph_run, Hg. cbv beta iota.
  cbn [heap rng calls tqdm_bar].
  unfold bind at 1. unfold alloc at 1. cbv beta iota zeta. cbn [heap rng calls tqdm_bar].
  set (l1 := fresh (dom (heap w))) in *.
  set (h1 := <[l1 := PyList (labels_lse n)]> (heap w)) in *.
  set (l2 := fresh (dom h1)) in *.
  set (h2 := <[l2 := PyArray g]> h1) in *.
  set (w3 := World h2 (rng w) (calls w ++ block_model_graph_calls L n B) (tqdm_bar w)).
  destruct (tutorial_calc_ari_returns L l2 n_sims m1 l1 "full" g (labels_lse n) w3 Hkn Hlab C1)
    as (w4 & evs1 & E1 & [Hh1 Hc1] & Hl1).
  unfold bind at 1. rewrite E1. cbv beta iota.
  destruct (tutorial_calc_ari_returns L l2 n_sims m2 l1 "full" g (labels_lse n) w4
              ltac:(rewrite Hh1; exact Hkn) ltac:(rewrite Hh1; exact Hlab) C2)
    as (w5 & evs2 & E2 & [Hh2 Hc2] & Hl2).
  unfold bind at 1. rewrite E2. cbv beta iota.
  destruct (tutorial_calc_ari_returns L l2 n_sims m3 l1 "full" g (labels_lse n) w5
              ltac:(rewrite Hh2, Hh1; exact Hkn) ltac:(rewrite Hh2, Hh1; exact Hlab) C3)
    as (w6 & evs3 & E3 & [Hh3 Hc3] & Hl3).
  unfold bind at 1. rewrite E3. cbv beta iota.
  destruct (three_frames_table m1 m2 m3 (scores evs1) (scores evs2) (scores evs3))
    as (table & Et & Hkeys & T1 & T2 & T3);
    try assumption; try (eapply scores_nonempty; eassumption).
  unfold lift, DataFrame. rewrite Et.
  exists table, w6, (block_model_graph_calls L n B ++ evs1 ++ evs2 ++ evs3),
    (scores evs1), (scores evs2), (scores evs3).
  split; [reflexivity|]. split.
  { rewrite Hc3, Hc2, Hc1. unfold w3. cbn [calls]. now rewrite <- !app_assoc. }
  split.
  { destruct (block_model_graph_calls_build L n B) as (_ & _ & Hb).
    now rewrite !scores_app, Hb. }
  rewrite Hkeys, (recognized_keys m1 m2 m3) by assumption. auto 10.
Qed.

(** X9: a case cell of the notebook that rebuilds the graph in every
    trial, end to end: under the same conditions, with [GaussianMixtureIC]
    as the mixture model, the same table, the value of each method being
    the binary64 mean of the scores of its own run. *)
Theorem regenerating_case_table (n n_sims : Z) (B g : ndarray) (m1 m2 m3 : string)
    (w : world RNG) :
  1 <= n_sims ->
  recognized m1 -> recognized m2 -> recognized m3 ->
  m1 <> m2 -> m1 <> m3 -> m2 <> m3 ->
  block_model_graph_value L n B = Ok g ->
  returns_on L m1 (GaussianMixtureIC L 2 2 "all") g (labels_lse n) ->
  returns_on L m2 (GaussianMixtureIC L 2 2 "all") g (labels_lse n) ->
  returns_on L m3 (GaussianMixtureIC L 2 2 "all") g (labels_lse n) ->
  exists table w' evs s1 s2 s3,
    Regenerating.case L n n_sims B m1 m2 m3 w = (Ok table, w') /\
    calls w' = calls w ++ evs /\
    scores evs = s1 ++ s2 ++ s3 /\
    length s1 = Z.to_nat n_sims /\ length s2 = Z.to_nat n_sims /\
    length s3 = Z.to_nat n_sims /\
    map fst table = ["ase"; "lse"; "sklearn"] /\
    loc_row m1 table = Some (mean s1) /\
    loc_row m2 table = Some (mean s2) /\
    loc_row m3 table = Some (mean s3).
Proof.
  intros Hn R1 R2 R3 D12 D13 D23 Hg C1 C2 C3.
  destruct (alloc_twice_lookup (heap w) (PyArray B) (PyList (labels_lse n))) as [HB Hlab].
  unfold Regenerating.case.
  unfold bind at 1. unfold alloc at 1. cbv beta iota zeta.
  unfold bind at 1. unfold alloc at 1. cbv beta iota zeta. cbn [heap rng calls tqdm_bar].
  set (l1 := fresh (dom (heap w))) in *.
  set (h1 := <[l1 := PyArray B]> (heap w)) in *.
  set (l2 := fresh (dom h1)) in *.
  set (h2 := <[l2 := PyList (labels_lse n)]> h1) in *.
  set (w3 := World h2 (rng w) (calls w) (tqdm_bar w)).
  destruct (regenerating_calc_ari_returns L n n_sims l1 m1 l2 B g (labels_lse n) w3
              HB Hg Hlab C1)
    as (w4 & evs1 & E1 & [Hh1 Hc1] & Hl1).
  unfold bind at 1. rewrite E1. cbv beta iota.
  destruct (regenerating_calc_ari_returns L n n_sims l1 m2 l2 B g (labels_lse n) w4
              ltac:(rewrite Hh1; exact HB) Hg ltac:(rewrite Hh1; exact Hlab) C2)
    as (w5 & evs2 & E2 & [Hh2 Hc2] & Hl2).
  unfold bind at 1. rewrite E2. cbv beta iota.
  destruct (regenerating_calc_ari_returns L n n_sims l1 m3 l2 B g (labels_lse n) w5
              ltac:(rewrite Hh2, Hh1; exact HB) Hg ltac:(rewrite Hh2, Hh1; exact Hlab) C3)
    as (w6 & evs3 & E3 & [Hh3 Hc3] & Hl3).
  unfold bind at 1. rewrite E3. cbv beta iota.
  destruct (three_frames_table m1 m2 m3 (scores evs1) (scores evs2) (scores evs3))
    as (table & Et & Hkeys & T1 & T2 & T3);
    try assumption; try (eapply scores_nonempty; eassumption).
  unfold lift, DataFrame. rewrite Et.
  exists table, w6, (evs1 ++ evs2 ++ evs3), (scores evs1), (scores evs2), (scores evs3).
  split; [reflexivity|]. split.
  { rewrite Hc3, Hc2, Hc1. unfold w3. cbn [calls]. now rewrite <- !app_assoc. }
  split; [now rewrite !scores_app|].
  rewrite Hkeys, (recognized_keys m1 m2 m3) by assumption. auto 10.
Qed.

End CaseCells.

Lemma block_tutorial_case_table_witness :
  exists table w' evs s1 s2 s3,
    BlockTutorial.case Toy.lib 6 2 BlockTutorial.B_affinity "lse" "ase" "sklearn" Toy.w0
    = (Ok table, w') /\
    calls w' = calls Toy.w0 ++ evs /\
    scores evs = s1 ++ s2 ++ s3 /\
    length s1 = Z.to_nat 2 /\ length s2 = Z.to_nat 2 /\ length s3 = Z.to_nat 2 /\
    map fst table = ["ase"; "lse"; "sklearn"] /\
    loc_row "lse" table = Some (mean s1) /\
    loc_row "ase" table = Some (mean s2) /\
    loc_row "sklearn" table = Some (mean s3).
Proof.
  apply (block_tutorial_case_table Toy.lib 6 2 BlockTutorial.B_affinity Toy.graph6
           "lse" "ase" "sklearn" Toy.w0).
  - lia.
  - right. left. reflexivity.
  - left. reflexivity.
  - right. right. reflexivity.
  - discriminate.
  - discriminate.
  - discriminate.
  - vm_compute. reflexivity.
  - apply toy_returns_on; [exact lse_recognized | reflexivity].
  - apply toy_returns_on; [exact ase_recognized | reflexivity].
  - apply toy_returns_on; [exact sklearn_recognized | reflexivity].
Defined.

Lemma regenerating_case_table_witness :
  exists table w' evs s1 s2 s3,
    Regenerating.case Toy.lib 6 2 BlockTutorial.B_affinity "lse" "ase" "sklearn" Toy.w0
    = (Ok table, w') /\
    calls w' = calls Toy.w0 ++ evs /\
    scores evs = s1 ++ s2 ++ s3 /\
    length s1 = Z.to_nat 2 /\ length s2 = Z.to_nat 2 /\ length s3 = Z.to_nat 2 /\
    map fst table = ["ase"; "lse"; "sklearn"] /\
    loc_row "lse" table = Some (mean s1) /\
    loc_row "ase" table = Some (mean s2) /\
    loc_row "sklearn" table = Some (mean s3).
Proof.
  apply (regenerating_case_table Toy.lib 6 2 BlockTutorial.B_affinity Toy.graph6
           "lse" "ase" "sklearn" Toy.w0).
  - lia.
  - right. left. reflexivity.
  - left. reflexivity.
  - right. right. reflexivity.
  - discriminate.
  - discriminate.
  - discriminate.
  - vm_compute. reflexivity.
  - apply toy_returns_on_ic; [exact lse_recognized | reflexivity].
  - apply toy_returns_on_ic; [exact ase_recognized | reflexivity].
  - apply toy_returns_on_ic; [exact sklearn_recognized | reflexivity].
Defined.

(** ** A case cell without trials *)
Section NoTrials.
Context {RNG : Type} (L : libraries RNG).

(** X10: with no trial to run ([n_sims <= 0]) every case cell ends in the
    [KeyError] of grouping a frame that has no column "test", whatever
    the three method names are, recognized or not. The regenerating
    notebook has then made no library call at all; the tutorials have
    built their graph and nothing more. *)
Theorem case_without_trials (n n_sims : Z) (B : ndarray) (mean_1 mean_2 : list Q)
    (m1 m2 m3 : string) (w : world RNG) :
  n_sims <= 0 ->
  (fst (Regenerating.case L n n_sims B m1 m2 m3 w) = Err (LibraryError "KeyError: 'test'") /\
   calls (snd (Regenerating.case L n n_sims B m1 m2 m3 w)) = calls w) /\
  (forall g, block_model_graph_value L n B = Ok g ->
     fst (BlockTutorial.case L n n_sims B m1 m2 m3 w) = Err (LibraryError "KeyError: 'test'") /\
     calls (snd (BlockTutorial.case L n n_sims B m1 m2 m3 w))
     = calls w ++ block_model_graph_calls L n B) /\
  (forall g,
     fst (gaussian_graph L n mean_1 mean_2 (snd (alloc (PyList (labels_lse n)) w))) = Ok g ->
     fst (GaussianTutorial.case L n n_sims mean_1 mean_2 m1 m2 m3 w)
     = Err (LibraryError "KeyError: 'test'") /\
     calls (snd (GaussianTutorial.case L n n_sims mean_1 mean_2 m1 m2 m3 w))
     = calls (snd (gaussian_graph L n mean_1 mean_2 (snd (alloc (PyList (labels_lse n)) w))))).
Proof.
  intros Hn. assert (H0 : Z.to_nat n_sims = 0%nat) by lia.
  split; [|split].
  - unfold Regenerating.case, Regenerating.calc_ari, for_tqdm. rewrite H0.
    split; reflexivity.
  - intros g Hg.
    destruct (BlockTutorial.case L n n_sims B m1 m2 m3 w) as [r w'] eqn:E.
    unfold BlockTutorial.case, Tutorial.calc_ari in E. rewrite H0 in E.
    unfold bind at 1 in E. unfold alloc at 1 in E. cbv beta iota zeta in E.
    unfold bind at 1 in E. rewrite block_model_graph_run, Hg in E.
    injection E as <- <-. split; reflexivity.
  - intros g Hg.
    destruct (GaussianTutorial.case L n n_sims mean_1 mean_2 m1 m2 m3 w) as [r w'] eqn:E.
    unfold GaussianTutorial.case, Tutorial.calc_ari in E. rewrite H0 in E.
    unfold bind at 1 in E.
    destruct (alloc (PyList (labels_lse n)) w) as [[l1|e] w1] eqn:Ea; [|discriminate Ea].
    cbn [snd] in Hg |- *. unfold bind at 1 in E.
    destruct (gaussian_graph L n mean_1 mean_2 w1) as [r2 w2]. cbn [fst snd] in Hg |- *.
    subst r2. injection E as <- <-. split; reflexivity.
Qed.

End NoTrials.

Lemma case_without_trials_witness :
  (fst (Regenerating.case Toy.lib 6 0 BlockTutorial.B_affinity "pca" "ase" "sklearn" Toy.w0)
   = Err (LibraryError "KeyError: 'test'") /\
   calls (snd (Regenerating.case Toy.lib 6 0 BlockTutorial.B_affinity "pca" "ase" "sklearn"
                 Toy.w0)) = calls Toy.w0) /\
  (forall g, block_model_graph_value Toy.lib 6 BlockTutorial.B_affinity = Ok g ->
     fst (BlockTutorial.case Toy.lib 6 0 BlockTutorial.B_affinity "pca" "ase" "sklearn" Toy.w0)
     = Err (LibraryError "KeyError: 'test'") /\
     calls (snd (BlockTutorial.case Toy.lib 6 0 BlockTutorial.B_affinity "pca" "ase" "sklearn"
                   Toy.w0))
     = calls Toy.w0 ++ block_model_graph_calls Toy.lib 6 BlockTutorial.B_affinity) /\
  (forall g,
     fst (gaussian_graph Toy.lib 6 [-0.33; -0.94]%Q [-0.94; 0.33]%Q
            (snd (alloc (PyList (labels_lse 6)) Toy.w0))) = Ok g ->
     fst (GaussianTutorial.case Toy.lib 6 0 [-0.33; -0.94]%Q [-0.94; 0.33]%Q
            "pca" "ase" "sklearn" Toy.w0)
     = Err (LibraryError "KeyError: 'test'") /\
     calls (snd (GaussianTutorial.case Toy.lib 6 0 [-0.33; -0.94]%Q [-0.94; 0.33]%Q
                   "pca" "ase" "sklearn" Toy.w0))
     = calls (snd (gaussian_graph Toy.lib 6 [-0.33; -0.94]%Q [-0.94; 0.33]%Q
                     (snd (alloc (PyList (labels_lse 6)) Toy.w0))))).
Proof.
  apply (case_without_trials Toy.lib 6 0 BlockTutorial.B_affinity
           [-0.33; -0.94]%Q [-0.94; 0.33]%Q "pca" "ase" "sklearn" Toy.w0).
  lia.
Defined.

(** ** The embedding calls of the tutorials *)
Section EmbeddingCalls.
Context {RNG : Type} (L : libraries RNG).

Lemma step_ok_embedding (m : string) (h : gmap loc pyobj) (kn_graph : loc) (g : ndarray)
    (Lb : list Z -> Prop) (p : option event) (e : event) :
  h !! kn_graph = Some (PyArray g) ->
  step_ok L m (fun a => h !! kn_graph = Some (PyArray a)) Lb (fun _ => False) p e ->
  embedding_step m g e.
Proof.
  intros Hg. destruct e; simpl; try tauto.
  all: intros (Hm & Hk & Ha); repeat split; congruence.
Qed.

Lemma embedding_step_graphs (m : string) (g : ndarray) (evs : list event) :
  Forall (embedding_step m g) evs ->
  construction_calls evs = [] /\ Forall (fun a => a = g) (embedded_graphs evs).
Proof.
  induction 1 as [|e evs He _ [IH1 IH2]]; simpl; [split; constructor|].
  destruct e; simpl in *; try contradiction; try (split; assumption).
  all: destruct He as (_ & _ & ->); split; [assumption | now constructor].
Qed.

(** X11: the tutorials' [calc_ari] works on the graph it is handed and on
    nothing else. Every embedding call of a run is a call of the selected
    method's own routine, into two dimensions, on the array stored at
    [kn_graph]; the run never computes an SVD, never builds a k-neighbors
    graph and never samples; and under an unrecognized method it makes no
    library call at all. *)
Theorem calc_ari_embeds_given_graph (kn_graph labels_true : loc) (n_sims : Z)
    (m cov_type : string) (g : ndarray) (w : world RNG) :
  heap w !! kn_graph = Some (PyArray g) ->
  exists evs,
    calls (snd (Tutorial.calc_ari L kn_graph n_sims m labels_true cov_type w))
    = calls w ++ evs /\
    Forall (embedding_step m g) evs /\
    construction_calls evs = [] /\
    Forall (fun a => a = g) (embedded_graphs evs) /\
    (~ recognized m -> evs = []).
Proof.
  intros Hg.
  destruct (Tutorial.calc_ari L kn_graph n_sims m labels_true cov_type w) as [r w'] eqn:Hrun.
  destruct (tutorial_calc_ari_protocol L _ _ _ _ _ _ _ _ Hrun) as (_ & evs & [_ Hc] & Hch & _).
  assert (Hall : Forall (embedding_step m g) evs).
  { eapply chain_Forall; [|exact Hch]. intros p e. now apply step_ok_embedding. }
  exists evs. split; [exact Hc|]. split; [exact Hall|].
  destruct (embedding_step_graphs m g evs Hall) as [H1 H2].
  split; [exact H1|]. split; [exact H2|].
  intros Hm. destruct evs as [|e evs]; [reflexivity|]. exfalso. apply Hm.
  destruct Hch as [He _]. unfold recognized.
  destruct e; simpl in He; try contradiction; try tauto.
  - destruct He as (_ & g0 & _ & [(-> & _) | [(-> & _) | (-> & _)]]); tauto.
  - destruct He as (_ & _ & _ & g0 & _ & [(-> & _) | [(-> & _) | (-> & _)]]); tauto.
Qed.

End EmbeddingCalls.

Lemma calc_ari_embeds_given_graph_witness :
  exists evs,
    calls (snd (Tutorial.calc_ari Toy.lib 3%positive 2 "lse" 2%positive "full" Toy.w6))
    = calls Toy.w6 ++ evs /\
    Forall (embedding_step "lse" Toy.graph6) evs /\
    construction_calls evs = [] /\
    Forall (fun a => a = Toy.graph6) (embedded_graphs evs) /\
    (~ recognized "lse" -> evs = []).
Proof.
  apply (calc_ari_embeds_given_graph Toy.lib 3%positive 2%positive 2 "lse" "full"
           Toy.graph6 Toy.w6).
  reflexivity.
Defined.

(** ** The case cells of the Gaussian tutorial *)
Section GaussianCase.
Context {RNG : Type} (L : libraries RNG).

(** The Gaussian construction leaves the heap alone and scores nothing. *)
Lemma gaussian_graph_log (n : Z) (mean_1 mean_2 : list Q) (w : world RNG) :
  exists evs,
    steps w (snd (gaussian_graph L n mean_1 mean_2 w)) evs /\ scores evs = [].
Proof.
  unfold gaussian_graph, multivariate_normal, kneighbors, draw, log, bind, lift, ret.
  destruct w as [h g c b]. cbn [heap rng calls tqdm_bar].
  destruct (np_random_multivariate_normal L mean_1 (np_eye 2) (int_half n) g)
    as [[X|e] g1]; cbn [heap rng calls tqdm_bar fst snd].
  2: { eexists. split; [split; reflexivity | reflexivity]. }
  destruct (np_random_multivariate_normal L mean_2 (np_eye 2) (int_half n) g1)
    as [[Y|e] g2]; cbn [heap rng calls tqdm_bar fst snd].
  2: { eexists. split; [split; [reflexivity | cbn [calls]; now rewrite <- app_assoc]|].
       reflexivity. }
  destruct (concatenate_axis0 X Y) as [lat|e]; cbn [heap rng calls tqdm_bar fst snd].
  2: { eexists. split; [split; [reflexivity | cbn [calls]; now rewrite <- app_assoc]|].
       reflexivity. }
  destruct (int_sqrt n) as [k|e]; cbn [heap rng calls tqdm_bar fst snd].
  2: { eexists. split; [split; [reflexivity | cbn [calls]; now rewrite <- app_assoc]|].
       reflexivity. }
  destruct (kneighbors_graph L lat k) as [kn|e]; cbn [heap rng calls tqdm_bar fst snd].
  all: eexists; (split; [split; [reflexivity | cbn [calls]; now rewrite <- !app_assoc]|]).
  all: reflexivity.
Qed.

Lemma frame_round2_keys (t : list (string * Q)) : map fst (frame_round2 t) = map fst t.
Proof. unfold frame_round2. rewrite map_map. reflexivity. Qed.

(** X14: a case cell of the Gaussian tutorial, end to end. When the
    sampled graph is built and, for each of the three methods, the
    routines return on what a trial hands them, with at least one trial
    and three different recognized methods, the cell returns the rows
    "ase", "lse", "sklearn" in that order, each with the binary64 mean of
    the scores of its own run, rounded as [.round(2)] rounds it. *)
Theorem gaussian_tutorial_case_table (n n_sims : Z) (mean_1 mean_2 : list Q) (g : ndarray)
    (m1 m2 m3 : string) (w : world RNG) :
  1 <= n_sims ->
  recognized m1 -> recognized m2 -> recognized m3 ->
  m1 <> m2 -> m1 <> m3 -> m2 <> m3 ->
  fst (gaussian_graph L n mean_1 mean_2 (snd (alloc (PyList (labels_lse n)) w))) = Ok g ->
  returns_on L m1 (GaussianMixture L 2 "full") g (labels_lse n) ->
  returns_on L m2 (GaussianMixture L 2 "full") g (labels_lse n) ->
  returns_on L m3 (GaussianMixture L 2 "full") g (labels_lse n) ->
  exists table w' evs s1 s2 s3,
    GaussianTutorial.case L n n_sims mean_1 mean_2 m1 m2 m3 w = (Ok table, w') /\
    calls w' = calls w ++ evs /\
    scores evs = s1 ++ s2 ++ s3 /\
    length s1 = Z.to_nat n_sims /\ length s2 = Z.to_nat n_sims /\
    length s3 = Z.to_nat n_sims /\
    map fst table = ["ase"; "lse"; "sklearn"] /\
    loc_row m1 table = Some (round2 (mean s1)) /\
    loc_row m2 table = Some (round2 (mean s2)) /\
    loc_row m3 table = Some (round2 (mean s3)).
Proof.
  intros Hn R1 R2 R3 D12 D13 D23 Hg C1 C2 C3.
  destruct (alloc_twice_lookup (heap w) (PyList (labels_lse n)) (PyArray g)) as [Hlab Hkn].
  unfold GaussianTutorial.case.
  unfold bind at 1. unfold alloc at 1. cbv beta iota zeta.
  unfold alloc in Hg. cbv beta iota zeta in Hg. cbn [snd] in Hg.
  set (l1 := fresh (dom (heap w))) in *.
  set (h1 := <[l1 := PyList (labels_lse n)]> (heap w)) in *.
  set (l2 := fresh (dom h1)) in *.
  set (h2 := <[l2 := PyArray g]> h1) in *.
  set (w1 := World h1 (rng w) (calls w) (tqdm_bar w)) in *.
  destruct (gaussian_graph_log n mean_1 mean_2 w1) as (evs0 & [Hh0 Hc0] & Hs0).
  unfold bind at 1.
  destruct (gaussian_graph L n mean_1 mean_2 w1) as [r w2] eqn:Eg.
  cbn [fst snd] in Hg, Hh0, Hc0. subst r. cbv beta iota.
  unfold w1 in Hh0, Hc0. cbn [heap calls] in Hh0, Hc0.
  unfold bind at 1. unfold alloc at 1. cbv beta iota zeta. rewrite Hh0.
  fold l2. fold h2.
  set (w3 := World h2 (rng w2) (calls w2) (tqdm_bar w2)).
  destruct (tutorial_calc_ari_returns L l2 n_sims m1 l1 "full" g (labels_lse n) w3
              Hkn Hlab C1)
    as (w4 & evs1 & E1 & [Hh1 Hc1] & Hl1).
  unfold bind at 1. rewrite E1. cbv beta iota.
  destruct (tutorial_calc_ari_returns L l2 n_sims m2 l1 "full" g (labels_lse n) w4
              ltac:(rewrite Hh1; exact Hkn) ltac:(rewrite Hh1; exact Hlab) C2)
    as (w5 & evs2 & E2 & [Hh2 Hc2] & Hl2).
  unfold bind at 1. rewrite E2. cbv beta iota.
  destruct (tutorial_calc_ari_returns L l2 n_sims m3 l1 "full" g (labels_lse n) w5
              ltac:(rewrite Hh2, Hh1; exact Hkn) ltac:(rewrite Hh2, Hh1; exact Hlab) C3)
    as (w6 & evs3 & E3 & [Hh3 Hc3] & Hl3).
  unfold bind at 1. rewrite E3. cbv beta iota.
  destruct (three_frames_table m1 m2 m3 (scores evs1) (scores evs2) (scores evs3))
    as (table & Et & Hkeys & T1 & T2 & T3);
    try assumption; try (eapply scores_nonempty; eassumption).
  unfold bind, lift, ret, DataFrame. rewrite Et.
  exists (frame_round2 table), w6, (evs0 ++ evs1 ++ evs2 ++ evs3),
    (scores evs1), (scores evs2), (scores evs3).
  split; [reflexivity|]. split.
  { rewrite Hc3, Hc2, Hc1. unfold w3. cbn [calls]. rewrite Hc0. now rewrite <- !app_assoc. }
  split; [now rewrite !scores_app, Hs0|].
  rewrite frame_round2_keys, Hkeys, (recognized_keys m1 m2 m3) by assumption.
  rewrite !loc_row_round2, T1, T2, T3. auto 10.
Qed.

End GaussianCase.

Lemma gaussian_tutorial_case_table_witness :
  exists table w' evs s1 s2 s3,
    GaussianTutorial.case Toy.lib 6 2 [-0.33; -0.94]%Q [-0.94; 0.33]%Q "lse" "ase" "sklearn"
      Toy.w0 = (Ok table, w') /\
    calls w' = calls Toy.w0 ++ evs /\
    scores evs = s1 ++ s2 ++ s3 /\
    length s1 = Z.to_nat 2 /\ length s2 = Z.to_nat 2 /\ length s3 = Z.to_nat 2 /\
    map fst table = ["ase"; "lse"; "sklearn"] /\
    loc_row "lse" table = Some (round2 (mean s1)) /\
    loc_row "ase" table = Some (round2 (mean s2)) /\
    loc_row "sklearn" table = Some (round2 (mean s3)).
Proof.
  apply (gaussian_tutorial_case_table Toy.lib 6 2 [-0.33; -0.94]%Q [-0.94; 0.33]%Q Toy.graph6
           "lse" "ase" "sklearn" Toy.w0).
  - lia.
  - right. left. reflexivity.
  - left. reflexivity.
  - right. right. reflexivity.
  - discriminate.
  - discriminate.
  - discriminate.
  - vm_compute. reflexivity.
  - apply toy_returns_on; [exact lse_recognized | reflexivity].
  - apply toy_returns_on; [exact ase_recognized | reflexivity].
  - apply toy_returns_on; [exact sklearn_recognized | reflexivity].
Defined.

(** ** The graph is rebuilt in every trial *)
Section Rebuilds.
Context {RNG : Type} (L : libraries RNG).

Lemma construction_calls_app (a b : list event) :
  construction_calls (a ++ b) = construction_calls a ++ construction_calls b.
Proof. unfold construction_calls. apply flat_map_app. Qed.

Lemma block_model_graph_calls_construction (n : Z) (b : ndarray) :
  construction_calls (block_model_graph_calls L n b) = block_model_graph_calls L n b /\
  (forall g, block_model_graph_value L n b = Ok g ->
             length (block_model_graph_calls L n b) = 2%nat).
Proof.
  unfold block_model_graph_calls, block_model_graph_value, rbind.
  destruct (prob_matrix n b); [|split; [reflexivity | discriminate]].
  destruct (np_linalg_svd L _); [|split; [reflexivity | discriminate]].
  destruct (latent_positions L n _ _ _); [|split; [reflexivity | discriminate]].
  destruct (int_sqrt n); split; first [reflexivity | discriminate].
Qed.

(** A trial that returns has built the graph once. *)
Lemma regenerating_trial_construction (n_verts : Z) (B : loc) (m : string)
    (labels_true : loc) (b : ndarray) (l : locals) (w : world RNG) (l' : locals)
    (w' : world RNG) :
  heap w !! B = Some (PyArray b) ->
  Regenerating.trial L n_verts B m labels_true l w = (Ok l', w') ->
  exists evs, steps w w' evs /\
              construction_calls evs = block_model_graph_calls L n_verts b /\
              length (block_model_graph_calls L n_verts b) = 2%nat.
Proof.
  intros HB Hrun. unfold Regenerating.trial in Hrun.
  unfold bind at 1 in Hrun. unfold load_array at 1 in Hrun. rewrite HB in Hrun.
  unfold bind at 1 in Hrun. rewrite block_model_graph_run in Hrun.
  destruct (block_model_graph_calls_construction n_verts b) as (Hcc & Hlen).
  destruct (block_model_graph_value L n_verts b) as [g|e] eqn:Hg; [|discriminate Hrun].
  specialize (Hlen g eq_refl).
  unfold choose_embedding, concatenate_if_ase_or_lse in Hrun.
  unfold ase_fit_transform, lse_fit_transform, sklearn_spectral_embedding,
    gm_ic_fit_predict, ari_score, load_array, load_list, draw, log in Hrun.
  destruct l as [rs [x|] [y|]];
    (destruct (String.eqb m "ase");
     [|destruct (String.eqb m "lse"); [|destruct (String.eqb m "sklearn")]]);
    cbn [orb] in Hrun.
  all: run_in Hrun.
  all: try discriminate Hrun.
  all: inversion Hrun; subst; clear Hrun; cbn [heap calls rows].
  all: rewrite <- ?app_assoc; cbn [app].
  all: eexists; (split; [split; reflexivity|]).
  all: rewrite construction_calls_app, Hcc; cbn [construction_calls flat_map app].
  all: rewrite app_nil_r; split; [reflexivity | exact Hlen].
Qed.

Lemma for_tqdm_from_construction (c : list event) (h : gmap loc pyobj)
    (body : locals -> M RNG locals) :
  (forall l w l' w', heap w = h -> body l w = (Ok l', w') ->
     exists evs, steps w w' evs /\ construction_calls evs = c /\ length c = 2%nat) ->
  forall n done total l w l' w', heap w = h ->
    for_tqdm_from done n total body l w = (Ok l', w') ->
    exists evs, steps w w' evs /\
                construction_calls evs = concat (replicate n c) /\
                length (construction_calls evs) = (2 * n)%nat.
Proof.
  intros Hbody n. induction n as [|n IH]; intros done total l w l' w' Hh Hrun; simpl in Hrun.
  - unfold ret in Hrun. inversion Hrun; subst. exists [].
    split; [apply steps_refl|]. split; reflexivity.
  - unfold bind at 1 in Hrun. destruct (body l w) as [[l1|e] w1] eqn:Hb; [|discriminate].
    destruct (Hbody _ _ _ _ Hh Hb) as (evs1 & Hs1 & Hc1 & Hlen).
    unfold bind, tqdm_update in Hrun.
    assert (Hh1 : heap w1 = h) by (destruct Hs1; congruence).
    destruct (IH _ _ _ _ _ _ (Hh1 : heap (World _ _ _ _) = h) Hrun)
      as (evs2 & [A B] & Hc2 & Hl2).
    exists (evs1 ++ evs2). split.
    { eapply steps_trans; [exact Hs1|]. split; [exact A | exact B]. }
    rewrite construction_calls_app, length_app, Hl2, Hc1, Hc2, Hlen.
    split; [reflexivity | lia].
Qed.

(** X15: the notebook that takes [n_verts] and [B] rebuilds its graph in
    every trial. A call that returns has repeated the construction calls
    of [n_verts] and the contents of [B] once per trial, in order: with
    [n_sims] trials that is [n_sims] singular value decompositions and
    [n_sims] k-neighbors graphs, all on the same arguments. *)
Theorem regenerating_rebuilds_every_trial (n_verts n_sims : Z) (B : loc) (m : string)
    (labels_true : loc) (b : ndarray) (w : world RNG) :
  heap w !! B = Some (PyArray b) ->
  (exists df, fst (Regenerating.calc_ari L n_verts n_sims B m labels_true w) = Ok df) ->
  exists evs,
    calls (snd (Regenerating.calc_ari L n_verts n_sims B m labels_true w)) = calls w ++ evs /\
    construction_calls evs
    = concat (replicate (Z.to_nat n_sims) (block_model_graph_calls L n_verts b)) /\
    length (construction_calls evs) = (2 * Z.to_nat n_sims)%nat.
Proof.
  intros HB [df Hdf].
  destruct (Regenerating.calc_ari L n_verts n_sims B m labels_true w) as [r w'] eqn:Hrun.
  cbn [fst snd] in Hdf |- *. subst r.
  unfold Regenerating.calc_ari, for_tqdm in Hrun. unfold bind at 1 in Hrun.
  unfold bind at 1 in Hrun. unfold tqdm_update at 1 in Hrun. cbv beta iota in Hrun.
  match type of Hrun with
  | context [for_tqdm_from ?d ?k ?t ?body ?l0 ?W] =>
      destruct (for_tqdm_from d k t body l0 W) as [[l1|e] w1] eqn:Hloop;
        [|discriminate Hrun];
      destruct (for_tqdm_from_construction (block_model_graph_calls L n_verts b) (heap w) body)
        with (n := k) (done := d) (total := t) (l := l0) (w := W) (l' := l1) (w' := w1)
        as (evs & [_ Hc] & Hcc & Hlen); [|reflexivity|exact Hloop|]
  end.
  { intros l0 w0 l' w'0 Hh Hb.
    eapply regenerating_trial_construction; [|exact Hb]. now rewrite Hh. }
  unfold ret in Hrun. injection Hrun as _ <-.
  exists evs. split; [exact Hc|]. split; assumption.
Qed.

End Rebuilds.

Lemma regenerating_rebuilds_every_trial_witness :
  exists evs,
    calls (snd (Regenerating.calc_ari Toy.lib 6 3 1%positive "ase" 2%positive Toy.w6))
    = calls Toy.w6 ++ evs /\
    construction_calls evs
    = concat (replicate (Z.to_nat 3)
                (block_model_graph_calls Toy.lib 6 BlockTutorial.B_affinity)) /\
    length (construction_calls evs) = (2 * Z.to_nat 3)%nat.
Proof.
  apply (regenerating_rebuilds_every_trial Toy.lib 6 3 1%positive "ase" 2%positive
           BlockTutorial.B_affinity Toy.w6).
  - reflexivity.
  - eexists. vm_compute. reflexivity.
Defined.

(** ** Where an exception comes from *)
Section Raises.
Context {RNG : Type} (L : libraries RNG).

Lemma tutorial_trial_outcome (kn_graph : loc) (m : string) (labels_true : loc)
    (cov_type : string) (g : ndarray) (lt : list Z) (l : locals) (w : world RNG)
    (r : result locals) (w' : world RNG) :
  recognized m ->
  heap w !! kn_graph = Some (PyArray g) ->
  heap w !! labels_true = Some (PyList lt) ->
  Tutorial.trial L kn_graph m labels_true cov_type l w = (r, w') ->
  exists evs, steps w w' evs /\ log_outcome r evs.
Proof.
  intros Hm HG HL Hrun.
  unfold Tutorial.trial, choose_embedding, concatenate_if_ase_or_lse in Hrun.
  unfold ase_fit_transform, lse_fit_transform, sklearn_spectral_embedding,
    gm_fit_predict, ari_score, load_array, load_list, draw, log in Hrun.
  destruct Hm as [Hm | [Hm | Hm]]; subst m; cbn [String.eqb Ascii.eqb Bool.eqb orb] in Hrun.
  all: run_in Hrun.
  all: try congruence.
  all: inversion Hrun; subst; clear Hrun; cbn [heap calls].
  all: rewrite <- ?app_assoc; cbn [app].
  all: eexists; (split; [split; reflexivity|]); cbn [log_outcome].
  all: try (repeat (first [exact I | constructor]); fail).
  all: match goal with
       | |- exists evs0 ev, [?a] = _ /\ _ => exists [], a
       | |- exists evs0 ev, [?a; ?b] = _ /\ _ => exists [a], b
       | |- exists evs0 ev, [?a; ?b; ?c] = _ /\ _ => exists [a; b], c
       end.
  all: split; [reflexivity|]; split; [repeat (first [exact I | constructor])|].
  all: cbn [raised_by]; eauto.
Qed.

Lemma for_range_outcome (h : gmap loc pyobj) (body : locals -> M RNG locals) :
  (forall l w r w', heap w = h -> body l w = (r, w') ->
     exists evs, steps w w' evs /\ log_outcome r evs) ->
  forall n l w r w', heap w = h -> for_range n body l w = (r, w') ->
     exists evs, steps w w' evs /\ log_outcome r evs.
Proof.
  intros Hbody n. induction n as [|n IH]; intros l w r w' Hh Hrun; simpl in Hrun.
  - unfold ret in Hrun. inversion Hrun; subst. exists [].
    split; [apply steps_refl | constructor].
  - unfold bind in Hrun. destruct (body l w) as [[l1|e] w1] eqn:Hb.
    + destruct (Hbody _ _ _ _ Hh Hb) as (evs1 & Hs1 & Ho1).
      assert (Hh1 : heap w1 = h) by (destruct Hs1; congruence).
      destruct (IH _ _ _ _ Hh1 Hrun) as (evs2 & Hs2 & Ho2).
      exists (evs1 ++ evs2). split; [eapply steps_trans; eassumption|].
      cbn [log_outcome] in Ho1. destruct r as [l2|e]; cbn [log_outcome] in Ho2 |- *.
      * apply Forall_app. split; assumption.
      * destruct Ho2 as (evs0 & ev & -> & Hr & He).
        exists (evs1 ++ evs0), ev. rewrite app_assoc. split; [reflexivity|].
        split; [apply Forall_app; split; assumption | exact He].
    + injection Hrun as <- <-. eapply Hbody; eassumption.
Qed.

(** X16: where an exception of the tutorials' [calc_ari] comes from.
    With a recognized method, a graph at [kn_graph] and a label list at
    [labels_true], a call that raises has raised in its last library
    call: every call logged before it returned, and the exception is the
    one that last routine raised, or, after a graspologic embedding, the
    one of putting its two matrices side by side. Nothing is caught and
    nothing is retried. *)
Theorem calc_ari_raises_at_last_call (kn_graph labels_true : loc) (n_sims : Z)
    (m cov_type : string) (g : ndarray) (lt : list Z) (e : exn) (w : world RNG) :
  recognized m ->
  heap w !! kn_graph = Some (PyArray g) ->
  heap w !! labels_true = Some (PyList lt) ->
  fst (Tutorial.calc_ari L kn_graph n_sims m labels_true cov_type w) = Err e ->
  exists evs0 ev,
    calls (snd (Tutorial.calc_ari L kn_graph n_sims m labels_true cov_type w))
    = calls w ++ evs0 ++ [ev] /\
    Forall returned evs0 /\ raised_by e ev.
Proof.
  intros Hm HG HL He.
  destruct (Tutorial.calc_ari L kn_graph n_sims m labels_true cov_type w) as [r w'] eqn:Hrun.
  cbn [fst snd] in He |- *. subst r.
  unfold Tutorial.calc_ari in Hrun. unfold bind in Hrun.
  destruct (for_range _ _ _ w) as [[l1|e1] w1] eqn:Hloop; [discriminate Hrun|].
  injection Hrun as -> ->.
  destruct (for_range_outcome (heap w)
              (Tutorial.trial L kn_graph m labels_true cov_type)) with
    (n := Z.to_nat n_sims) (l := Locals [] None None) (w := w) (r := @Err locals e) (w' := w')
    as (evs & [_ Hc] & evs0 & ev & -> & Hr & Hev); [|reflexivity|exact Hloop|].
  { intros l0 w0 r0 w0' Hh Hb.
    apply (tutorial_trial_outcome kn_graph m labels_true cov_type g lt l0 w0 r0 w0' Hm);
      [now rewrite Hh | now rewrite Hh | exact Hb]. }
  exists evs0, ev. split; [exact Hc|]. split; assumption.
Qed.

End Raises.

Lemma calc_ari_raises_at_last_call_witness :
  exists evs0 ev,
    calls (snd (Tutorial.calc_ari Toy.lib 3%positive 2 "sklearn" 2%positive "full" w6_labels5))
    = calls w6_labels5 ++ evs0 ++ [ev] /\
    Forall returned evs0 /\
    raised_by (ValueError "Found input variables with inconsistent numbers of samples") ev.
Proof.
  apply (calc_ari_raises_at_last_call Toy.lib 3%positive 2%positive 2 "sklearn" "full"
           Toy.graph6 (labels_lse 5)
           (ValueError "Found input variables with inconsistent numbers of samples")
           w6_labels5).
  - right. right. reflexivity.
  - reflexivity.
  - reflexivity.
  - vm_compute. reflexivity.
Defined.
